(** * ScreenRecorder: the recording-session controller of
    [src/components/ScreenRecorder.tsx]

    The React component is embedded as a state machine.  One [World] value
    holds the component's [useState] cells, its [useRef] cells, the two
    callbacks memoised by [useCallback], and the browser objects the
    component creates (media recorders, tracks, intervals, object URLs,
    toasts).  A JavaScript closure is represented by the values it captured
    when its render ran; refs are read from the world at the time a handler
    runs.  Every event handler runs to completion and is followed by one
    render. *)

From Stdlib Require Import ZArith List String Ascii Bool Lia.
From Stdlib Require Import DecimalString DecimalZ DecimalPos.
From stdpp Require Import base list.

Open Scope Z_scope.

(** ** Browser values *)

(** A [Blob] is its byte content; [new Blob(parts)] concatenates the parts. *)
Definition Blob := list Byte.byte.

Definition Blob_size (b : Blob) : Z := Z.of_nat (length b).

Definition new_Blob (parts : list Blob) : Blob := concat parts.

(** [Number.prototype.toString] on an integer time value. *)
Definition Number_toString (n : Z) : string :=
  NilZero.string_of_int (Z.to_int n).

Inductive TrackKind := VideoTrack | AudioTrack.

Definition TrackKind_eqb (a b : TrackKind) : bool :=
  match a, b with
  | VideoTrack, VideoTrack | AudioTrack, AudioTrack => true
  | _, _ => false
  end.

(** A [MediaStreamTrack]; [stops] counts the calls of [track.stop()]. *)
Record Track := mkTrack { kind : TrackKind; stops : nat }.

(** A [MediaStream] is the list of its tracks, as indices into the world's
    track table. *)
Definition MediaStream := list nat.

(** ** The artifact: [interface Recording] *)

Module Recording.

Record t := mk {
  id : string;
  blob : Blob;
  url : nat;          (* the object URL, as the number it was issued under *)
  duration : Z;
  timestamp : Z;      (* the Date's time value, milliseconds since the epoch *)
  size : Z
}.

End Recording.

(** ** Closures *)

(** [stopRecording] reads [mediaRecorderRef], [timerRef] and the setters,
    which are stable, and the [isRecording] of the render that created it. *)
Record StopClosure := mkStop { stop_isRecording : bool }.

(** [startRecording] reads [recordingTime] (inside [onstop]) and
    [startTimer], both of the render that created it; [startTimer] in turn
    holds that render's [stopRecording]. *)
Record StartClosure := mkStart {
  start_recordingTime : Z;
  start_stopRecording : StopClosure
}.

Inductive RecorderState := Inactive | RecordingState.

(** A [MediaRecorder]: its [state], its stream, and the [recordingTime] its
    [onstop] handler closed over. *)
Record MediaRecorder := mkRecorder {
  mr_state : RecorderState;
  mr_stream : MediaStream;
  mr_onstop_recordingTime : Z
}.

(** A [setInterval] timer: whether [clearInterval] was called on it, and the
    [stopRecording] its callback closed over. *)
Record Interval := mkInterval {
  cleared : bool;
  iv_stopRecording : StopClosure
}.

Record Toast := mkToast {
  title : string;
  description : string;
  destructive : bool
}.

(** ** The world *)

Record World := mkWorld {
  isRecording : bool;
  recordingTime : Z;
  currentRecording : option Recording.t;
  recordings : list Recording.t;
  mediaRecorderRef : option nat;
  streamRef : option MediaStream;
  chunksRef : list Blob;
  timerRef : option nat;
  startRecordingCb : StartClosure;
  stopRecordingCb : StopClosure;
  recorders : list MediaRecorder;
  tracks : list Track;
  intervals : list Interval;
  objectURLs : nat;
  toasts : list Toast;
  suspended : list StartClosure;
  saved : list string
}.

Definition set_isRecording (v : bool) (w : World) : World :=
  mkWorld v (recordingTime w) (currentRecording w) (recordings w)
    (mediaRecorderRef w) (streamRef w) (chunksRef w) (timerRef w)
    (startRecordingCb w) (stopRecordingCb w) (recorders w) (tracks w)
    (intervals w) (objectURLs w) (toasts w) (suspended w) (saved w).

Definition set_recordingTime (v : Z) (w : World) : World :=
  mkWorld (isRecording w) v (currentRecording w) (recordings w)
    (mediaRecorderRef w) (streamRef w) (chunksRef w) (timerRef w)
    (startRecordingCb w) (stopRecordingCb w) (recorders w) (tracks w)
    (intervals w) (objectURLs w) (toasts w) (suspended w) (saved w).

Definition set_currentRecording (v : option Recording.t) (w : World) : World :=
  mkWorld (isRecording w) (recordingTime w) v (recordings w)
    (mediaRecorderRef w) (streamRef w) (chunksRef w) (timerRef w)
    (startRecordingCb w) (stopRecordingCb w) (recorders w) (tracks w)
    (intervals w) (objectURLs w) (toasts w) (suspended w) (saved w).

Definition set_recordings (v : list Recording.t) (w : World) : World :=
  mkWorld (isRecording w) (recordingTime w) (currentRecording w) v
    (mediaRecorderRef w) (streamRef w) (chunksRef w) (timerRef w)
    (startRecordingCb w) (stopRecordingCb w) (recorders w) (tracks w)
    (intervals w) (objectURLs w) (toasts w) (suspended w) (saved w).

Definition set_mediaRecorderRef (v : option nat) (w : World) : World :=
  mkWorld (isRecording w) (recordingTime w) (currentRecording w)
    (recordings w) v (streamRef w) (chunksRef w) (timerRef w)
    (startRecordingCb w) (stopRecordingCb w) (recorders w) (tracks w)
    (intervals w) (objectURLs w) (toasts w) (suspended w) (saved w).

Definition set_streamRef (v : option MediaStream) (w : World) : World :=
  mkWorld (isRecording w) (recordingTime w) (currentRecording w)
    (recordings w) (mediaRecorderRef w) v (chunksRef w) (timerRef w)
    (startRecordingCb w) (stopRecordingCb w) (recorders w) (tracks w)
    (intervals w) (objectURLs w) (toasts w) (suspended w) (saved w).

Definition set_chunksRef (v : list Blob) (w : World) : World :=
  mkWorld (isRecording w) (recordingTime w) (currentRecording w)
    (recordings w) (mediaRecorderRef w) (streamRef w) v (timerRef w)
    (startRecordingCb w) (stopRecordingCb w) (recorders w) (tracks w)
    (intervals w) (objectURLs w) (toasts w) (suspended w) (saved w).

Definition set_timerRef (v : option nat) (w : World) : World :=
  mkWorld (isRecording w) (recordingTime w) (currentRecording w)
    (recordings w) (mediaRecorderRef w) (streamRef w) (chunksRef w) v
    (startRecordingCb w) (stopRecordingCb w) (recorders w) (tracks w)
    (intervals w) (objectURLs w) (toasts w) (suspended w) (saved w).

Definition set_startRecordingCb (v : StartClosure) (w : World) : World :=
  mkWorld (isRecording w) (recordingTime w) (currentRecording w)
    (recordings w) (mediaRecorderRef w) (streamRef w) (chunksRef w)
    (timerRef w) v (stopRecordingCb w) (recorders w) (tracks w) (intervals w)
    (objectURLs w) (toasts w) (suspended w) (saved w).

Definition set_stopRecordingCb (v : StopClosure) (w : World) : World :=
  mkWorld (isRecording w) (recordingTime w) (currentRecording w)
    (recordings w) (mediaRecorderRef w) (streamRef w) (chunksRef w)
    (timerRef w) (startRecordingCb w) v (recorders w) (tracks w) (intervals w)
    (objectURLs w) (toasts w) (suspended w) (saved w).

Definition set_recorders (v : list MediaRecorder) (w : World) : World :=
  mkWorld (isRecording w) (recordingTime w) (currentRecording w)
    (recordings w) (mediaRecorderRef w) (streamRef w) (chunksRef w)
    (timerRef w) (startRecordingCb w) (stopRecordingCb w) v (tracks w)
    (intervals w) (objectURLs w) (toasts w) (suspended w) (saved w).

Definition set_tracks (v : list Track) (w : World) : World :=
  mkWorld (isRecording w) (recordingTime w) (currentRecording w)
    (recordings w) (mediaRecorderRef w) (streamRef w) (chunksRef w)
    (timerRef w) (startRecordingCb w) (stopRecordingCb w) (recorders w) v
    (intervals w) (objectURLs w) (toasts w) (suspended w) (saved w).

Definition set_intervals (v : list Interval) (w : World) : World :=
  mkWorld (isRecording w) (recordingTime w) (currentRecording w)
    (recordings w) (mediaRecorderRef w) (streamRef w) (chunksRef w)
    (timerRef w) (startRecordingCb w) (stopRecordingCb w) (recorders w)
    (tracks w) v (objectURLs w) (toasts w) (suspended w) (saved w).

Definition set_objectURLs (v : nat) (w : World) : World :=
  mkWorld (isRecording w) (recordingTime w) (currentRecording w)
    (recordings w) (mediaRecorderRef w) (streamRef w) (chunksRef w)
    (timerRef w) (startRecordingCb w) (stopRecordingCb w) (recorders w)
    (tracks w) (intervals w) v (toasts w) (suspended w) (saved w).

Definition set_toasts (v : list Toast) (w : World) : World :=
  mkWorld (isRecording w) (recordingTime w) (currentRecording w)
    (recordings w) (mediaRecorderRef w) (streamRef w) (chunksRef w)
    (timerRef w) (startRecordingCb w) (stopRecordingCb w) (recorders w)
    (tracks w) (intervals w) (objectURLs w) v (suspended w) (saved w).

Definition set_suspended (v : list StartClosure) (w : World) : World :=
  mkWorld (isRecording w) (recordingTime w) (currentRecording w)
    (recordings w) (mediaRecorderRef w) (streamRef w) (chunksRef w)
    (timerRef w) (startRecordingCb w) (stopRecordingCb w) (recorders w)
    (tracks w) (intervals w) (objectURLs w) (toasts w) v (saved w).

Definition set_saved (v : list string) (w : World) : World :=
  mkWorld (isRecording w) (recordingTime w) (currentRecording w)
    (recordings w) (mediaRecorderRef w) (streamRef w) (chunksRef w)
    (timerRef w) (startRecordingCb w) (stopRecordingCb w) (recorders w)
    (tracks w) (intervals w) (objectURLs w) (toasts w) (suspended w) v.

(** ** What the platform decides *)

(** How one call of [startRecording] fares: which of its steps throws. *)
Inductive StartOutcome :=
| DisplayRejected                       (* getDisplayMedia rejects *)
| AudioRejected (nv : nat)              (* getUserMedia rejects; the display stream has nv tracks *)
| RecorderRejected (nv na : nat)        (* new MediaRecorder throws *)
| Started (nv na : nat).                (* nv video and na audio tracks, recorder started *)

(** Whether the statements of [onstop] that build the artifact throw. *)
Inductive Finalization := BlobThrows | CreateObjectURLThrows | Completes.

(** What the platform supplies when a recorder is stopped: the data of the
    last [dataavailable] event, the fate of the artifact construction, and
    the two clock readings [Date.now()] and [new Date()]. *)
Record Flush := mkFlush {
  final_data : Blob;
  finalization : Finalization;
  clock_now : Z;
  clock_date : Z
}.

(** ** Small operations on the world *)

Definition toast (t : Toast) (w : World) : World :=
  set_toasts (toasts w ++ [t]) w.

Definition toast_started : Toast :=
  mkToast "Recording started"
          "Screen recording has begun. Maximum duration: 3 minutes." false.

Definition toast_failed : Toast :=
  mkToast "Recording failed"
          "Could not start screen recording. Please check permissions." true.

Definition toast_stopped : Toast :=
  mkToast "Recording stopped"
          "Your screen recording is ready for preview." false.

Definition toast_download : Toast :=
  mkToast "Download started" "Your recording is being downloaded." false.

(** The platform hands out a stream of [n] fresh live tracks of one kind. *)
Definition acquire (k : TrackKind) (n : nat) (w : World) : MediaStream * World :=
  (seq (length (tracks w)) n,
   set_tracks (tracks w ++ replicate n (mkTrack k 0)) w).

Definition has_kind (k : TrackKind) (w : World) (i : nat) : bool :=
  match tracks w !! i with
  | Some t => TrackKind_eqb (kind t) k
  | None => false
  end.

Definition getVideoTracks (s : MediaStream) (w : World) : list nat :=
  List.filter (has_kind VideoTrack w) s.

Definition getAudioTracks (s : MediaStream) (w : World) : list nat :=
  List.filter (has_kind AudioTrack w) s.

Definition track_stop (i : nat) (w : World) : World :=
  set_tracks (alter (fun t => mkTrack (kind t) (S (stops t))) i (tracks w)) w.

(** [stream.getTracks().forEach(track => track.stop())] *)
Definition stop_tracks (s : MediaStream) (w : World) : World :=
  fold_left (fun w i => track_stop i w) s w.

Definition recorder_recording (r : nat) (w : World) : bool :=
  match recorders w !! r with
  | Some m => match mr_state m with RecordingState => true | Inactive => false end
  | None => false
  end.

Definition recorder_inactivate (r : nat) (w : World) : World :=
  set_recorders
    (alter (fun m => mkRecorder Inactive (mr_stream m) (mr_onstop_recordingTime m))
           r (recorders w)) w.

Definition clearInterval (t : nat) (w : World) : World :=
  set_intervals
    (alter (fun iv => mkInterval true (iv_stopRecording iv)) t (intervals w)) w.

(** ** The component's functions *)

(** [const startTimer = () => { timerRef.current = setInterval(..., 1000) }].
    The interval's callback keeps the [stopRecording] of [startTimer]'s
    render. *)
Definition startTimer (stop : StopClosure) (w : World) : World :=
  let t := length (intervals w) in
  set_timerRef (Some t) (set_intervals (intervals w ++ [mkInterval false stop]) w).

Definition stopTimer (w : World) : World :=
  match timerRef w with
  | Some t => set_timerRef None (clearInterval t w)
  | None => w
  end.

(** [mediaRecorder.ondataavailable] *)
Definition ondataavailable (data : Blob) (w : World) : World :=
  if 0 <? Blob_size data then set_chunksRef (chunksRef w ++ [data]) w else w.

(** [mediaRecorder.onstop].  [captured] is the [recordingTime] the handler
    closed over.  A throwing [new Blob] or [URL.createObjectURL] ends the
    handler there: nothing after it runs. *)
Definition onstop (captured : Z) (f : Flush) (w : World) : World :=
  match finalization f with
  | BlobThrows => w
  | CreateObjectURLThrows => w
  | Completes =>
      let blob := new_Blob (chunksRef w) in
      let url := objectURLs w in
      let w := set_objectURLs (S url) w in
      let recording :=
        Recording.mk (Number_toString (clock_now f)) blob url captured
                     (clock_date f) (Blob_size blob) in
      let w := set_currentRecording (Some recording) w in
      let w := set_recordings (recording :: recordings w) w in
      let w := match streamRef w with
               | Some s => stop_tracks s w
               | None => w
               end in
      set_streamRef None w
  end.

(** The task [MediaRecorder.stop()] queues: a last [dataavailable] event,
    then the [stop] event.  It is run right after the caller of [stop()]
    returns, before any other event. *)
Definition stop_task (r : nat) (f : Flush) (w : World) : World :=
  match recorders w !! r with
  | Some m => onstop (mr_onstop_recordingTime m) f (ondataavailable (final_data f) w)
  | None => w
  end.

(** [stopRecording], as the closure [c].  [MediaRecorder.stop()] on an
    inactive recorder returns without queuing anything. *)
Definition stopRecording (c : StopClosure) (f : Flush) (w : World) : World :=
  match mediaRecorderRef w with
  | Some r =>
      if stop_isRecording c then
        let fires := recorder_recording r w in
        let w := recorder_inactivate r w in
        let w := set_isRecording false w in
        let w := stopTimer w in
        let w := toast toast_stopped w in
        if fires then stop_task r f w else w
      else w
  | None => w
  end.

(** The body of [startRecording], as the closure [c], given how the platform
    answers it.  Each rejected step lands in the [catch] block. *)
Definition startRecording (c : StartClosure) (o : StartOutcome) (w : World) : World :=
  match o with
  | DisplayRejected => toast toast_failed w
  | AudioRejected nv =>
      let '(_, w) := acquire VideoTrack nv w in
      toast toast_failed w
  | RecorderRejected nv na =>
      let '(displayStream, w) := acquire VideoTrack nv w in
      let '(audioStream, w) := acquire AudioTrack na w in
      let combinedStream :=
        getVideoTracks displayStream w ++ getAudioTracks audioStream w in
      let w := set_streamRef (Some combinedStream) w in
      let w := set_chunksRef [] w in
      toast toast_failed w
  | Started nv na =>
      let '(displayStream, w) := acquire VideoTrack nv w in
      let '(audioStream, w) := acquire AudioTrack na w in
      let combinedStream :=
        getVideoTracks displayStream w ++ getAudioTracks audioStream w in
      let w := set_streamRef (Some combinedStream) w in
      let w := set_chunksRef [] w in
      let r := length (recorders w) in
      let w := set_recorders
                 (recorders w ++
                  [mkRecorder RecordingState combinedStream (start_recordingTime c)]) w in
      let w := set_mediaRecorderRef (Some r) w in
      let w := set_isRecording true w in
      let w := set_recordingTime 0 w in
      let w := startTimer (start_stopRecording c) w in
      toast toast_started w
  end.

(** The interval callback: [setRecordingTime(prev => ...)]. *)
Definition timer_callback (stop : StopClosure) (f : Flush) (w : World) : World :=
  if 179 <=? recordingTime w then
    set_recordingTime 180 (stopRecording stop f w)
  else
    set_recordingTime (recordingTime w + 1) w.

(** ** [Date.prototype.toISOString], after ECMA-262 *)

Definition msPerDay : Z := 86400000.

Definition Day (t : Z) : Z := t / msPerDay.

Definition DayFromYear (y : Z) : Z :=
  365 * (y - 1970) + (y - 1969) / 4 - (y - 1901) / 100 + (y - 1601) / 400.

Definition DaysInYear (y : Z) : Z :=
  if negb (y mod 4 =? 0) then 365
  else if negb (y mod 100 =? 0) then 366
  else if negb (y mod 400 =? 0) then 365
  else 366.

(** Walks down from an upper estimate to the largest year that starts on or
    before [day]. *)
Fixpoint year_search (fuel : nat) (y day : Z) : Z :=
  match fuel with
  | O => y
  | S fuel => if DayFromYear y <=? day then y else year_search fuel (y - 1) day
  end.

Definition YearFromTime (t : Z) : Z :=
  let d := Day t in
  year_search 1000 (1971 + Z.max (d / 365) (d / 366)) d.

Definition InLeapYear (t : Z) : Z :=
  if DaysInYear (YearFromTime t) =? 366 then 1 else 0.

Definition DayWithinYear (t : Z) : Z := Day t - DayFromYear (YearFromTime t).

Definition MonthFromTime (t : Z) : Z :=
  let d := DayWithinYear t in
  let l := InLeapYear t in
  if d <? 31 then 0
  else if d <? 59 + l then 1
  else if d <? 90 + l then 2
  else if d <? 120 + l then 3
  else if d <? 151 + l then 4
  else if d <? 181 + l then 5
  else if d <? 212 + l then 6
  else if d <? 243 + l then 7
  else if d <? 273 + l then 8
  else if d <? 304 + l then 9
  else if d <? 334 + l then 10
  else 11.

Definition DateFromTime (t : Z) : Z :=
  let d := DayWithinYear t in
  let l := InLeapYear t in
  match MonthFromTime t with
  | 0 => d + 1
  | 1 => d - 30
  | 2 => d - 58 - l
  | 3 => d - 89 - l
  | 4 => d - 119 - l
  | 5 => d - 150 - l
  | 6 => d - 180 - l
  | 7 => d - 211 - l
  | 8 => d - 242 - l
  | 9 => d - 272 - l
  | 10 => d - 303 - l
  | _ => d - 333 - l
  end.

Definition HourFromTime (t : Z) : Z := (t / 3600000) mod 24.
Definition MinFromTime (t : Z) : Z := (t / 60000) mod 60.
Definition SecFromTime (t : Z) : Z := (t / 1000) mod 60.
Definition msFromTime (t : Z) : Z := t mod 1000.

Definition digit (d : Z) : ascii := ascii_of_nat (48 + Z.to_nat d).

(** [n] in decimal on exactly [width] digits, zero padded. *)
Fixpoint pad (width : nat) (n : Z) : string :=
  match width with
  | O => EmptyString
  | S k => (pad k (n / 10) ++ String (digit (n mod 10)) EmptyString)%string
  end.

(** Years 0 to 9999 print on four digits, the others with a sign on six. *)
Definition iso_year (y : Z) : string :=
  if (0 <=? y) && (y <=? 9999) then pad 4 y
  else if y <? 0 then ("-" ++ pad 6 (- y))%string
  else ("+" ++ pad 6 y)%string.

(** [YYYY-MM-DDTHH:mm:ss.sssZ], in UTC. *)
Definition toISOString (t : Z) : string :=
  (iso_year (YearFromTime t) ++ "-" ++ pad 2 (MonthFromTime t + 1) ++ "-" ++
   pad 2 (DateFromTime t) ++ "T" ++ pad 2 (HourFromTime t) ++ ":" ++
   pad 2 (MinFromTime t) ++ ":" ++ pad 2 (SecFromTime t) ++ "." ++
   pad 3 (msFromTime t) ++ "Z")%string.

(** [String.prototype.slice(0, n)] *)
Definition slice0 (n : nat) (s : string) : string := String.substring 0 n s.

(** The [download] attribute [downloadRecording] sets on its anchor. *)
Definition download_filename (r : Recording.t) : string :=
  ("screen-recording-" ++ slice0 19 (toISOString (Recording.timestamp r)) ++
   ".webm")%string.

Definition downloadRecording (r : Recording.t) (w : World) : World :=
  toast toast_download (set_saved (saved w ++ [download_filename r]) w).

(** ** Renders and events *)

Section Component.

(** [toast] comes from [useToast()] and sits in the dependency lists of both
    [useCallback] calls.  The hook is not part of the component's file, so
    whether it returns the same function on every render is left open. *)
Variable toastStable : bool.

(** One render: the two [useCallback] calls.  A callback is replaced by the
    closure of this render when one of its dependencies differs from the
    last render's, and kept otherwise.  [stopRecording] depends on
    [isRecording], [startRecording] on [recordingTime]; the value a closure
    captured is the dependency it was created under.  The [startTimer] of a
    render holds the [stopRecording] that the same render returned. *)
Definition render (w : World) : World :=
  let stop :=
    if negb toastStable
       || negb (Bool.eqb (isRecording w) (stop_isRecording (stopRecordingCb w)))
    then mkStop (isRecording w)
    else stopRecordingCb w in
  let start :=
    if negb toastStable
       || negb (recordingTime w =? start_recordingTime (startRecordingCb w))
    then mkStart (recordingTime w) stop
    else startRecordingCb w in
  set_startRecordingCb start (set_stopRecordingCb stop w).

(** The component after its first render. *)
Definition mount : World :=
  mkWorld false 0 None [] None None [] None
          (mkStart 0 (mkStop false)) (mkStop false)
          [] [] [] 0%nat [] [] [].

Inductive Event :=
| ClickMain (f : Flush)                 (* the one Start / Stop button *)
| Settle (o : StartOutcome)             (* the oldest suspended startRecording resumes *)
| Tick (t : nat) (f : Flush)            (* interval t fires *)
| DataAvailable (r : nat) (data : Blob) (* recorder r delivers a timeslice *)
| DownloadCurrent                       (* Download in the Latest Recording card *)
| DownloadHistory (i : nat).            (* Download of recordings.slice(1)[i] *)

(** A click on the main button.  The JSX shows Start when [isRecording] is
    false and Stop otherwise, each wired to the callback of the last render.
    [startRecording] suspends at its first [await]; the call is parked with
    its closure until the platform answers. *)
Definition click_main (f : Flush) (w : World) : World :=
  if isRecording w then stopRecording (stopRecordingCb w) f w
  else set_suspended (suspended w ++ [startRecordingCb w]) w.

Definition settle (o : StartOutcome) (w : World) : World :=
  match suspended w with
  | c :: rest => startRecording c o (set_suspended rest w)
  | [] => w
  end.

Definition tick (t : nat) (f : Flush) (w : World) : World :=
  match intervals w !! t with
  | Some iv => if cleared iv then w else timer_callback (iv_stopRecording iv) f w
  | None => w
  end.

Definition data_available (r : nat) (data : Blob) (w : World) : World :=
  if recorder_recording r w then ondataavailable data w else w.

Definition download_current (w : World) : World :=
  match currentRecording w with
  | Some r => downloadRecording r w
  | None => w
  end.

Definition download_history (i : nat) (w : World) : World :=
  match recordings w with
  | _ :: _ :: _ =>
      match drop 1 (recordings w) !! i with
      | Some r => downloadRecording r w
      | None => w
      end
  | _ => w
  end.

Definition handle (e : Event) (w : World) : World :=
  match e with
  | ClickMain f => click_main f w
  | Settle o => settle o w
  | Tick t f => tick t f w
  | DataAvailable r data => data_available r data w
  | DownloadCurrent => download_current w
  | DownloadHistory i => download_history i w
  end.

(** An event: its handler, then a render. *)
Definition step (e : Event) (w : World) : World := render (handle e w).

Definition run (es : list Event) (w : World) : World :=
  fold_left (fun w e => step e w) es w.

(** [startRecording] and [stopRecording] called directly, as the callbacks
    of the last render, the start answered at once by the platform. *)
Definition call_start (o : StartOutcome) (w : World) : World :=
  render (startRecording (startRecordingCb w) o w).

Definition call_stop (f : Flush) (w : World) : World :=
  render (stopRecording (stopRecordingCb w) f w).

End Component.

(** ** Vocabulary of the properties *)

(** A timestamp in ISO 8601 without its milliseconds, as the specification
    words the file name: four-digit year, then month, day, hour, minute and
    second on two digits each. *)
Definition iso8601_no_millis (t : Z) : string :=
  (pad 4 (YearFromTime t) ++ "-" ++ pad 2 (MonthFromTime t + 1) ++ "-" ++
   pad 2 (DateFromTime t) ++ "T" ++ pad 2 (HourFromTime t) ++ ":" ++
   pad 2 (MinFromTime t) ++ ":" ++ pad 2 (SecFromTime t))%string.

Definition inactive (m : MediaRecorder) : bool :=
  match mr_state m with Inactive => true | RecordingState => false end.

(** The sessions that were stopped: the recorders that are inactive. *)
Definition stopped_sessions (w : World) : nat :=
  length (List.filter inactive (recorders w)).

Definition flush_of (e : Event) : option Flush :=
  match e with
  | ClickMain f | Tick _ f => Some f
  | _ => None
  end.

(** Every artifact construction in the trace goes through. *)
Definition all_complete (es : list Event) : bool :=
  forallb (fun e => match flush_of e with
                    | Some f => match finalization f with
                                | Completes => true
                                | _ => false
                                end
                    | None => true
                    end) es.

(** No click on the main button while a [startRecording] call is still
    waiting for the platform. *)
Fixpoint paced (toastStable : bool) (es : list Event) (w : World) : bool :=
  match es with
  | [] => true
  | e :: es' =>
      match e, suspended w with
      | ClickMain _, _ :: _ => false
      | _, _ => paced toastStable es' (step toastStable e w)
      end
  end.

(** ** Scenarios *)

Definition quiet : Flush := mkFlush [] Completes 1735787045000 1735787045000.

Definition start_ok : list Event := [ClickMain quiet; Settle (Started 1 1)].

(** A session of [n] seconds on interval [t], stopped by the button. *)
Definition session (t n : nat) : list Event :=
  start_ok ++ replicate n (Tick t quiet) ++ [ClickMain quiet].

Definition two_sessions : list Event := session 0 5 ++ session 1 10.

(** A second session left running for [n] seconds after a first of five. *)
Definition second_unstopped (n : nat) : list Event :=
  session 0 5 ++ start_ok ++ replicate n (Tick 1 quiet).

(** ** Vocabulary of the proofs *)

Definition live (t : nat) (w : World) : bool :=
  match intervals w !! t with
  | Some iv => negb (cleared iv)
  | None => false
  end.

Definition bump (t : Track) : Track := mkTrack (kind t) (S (stops t)).

Definition stop_all (s : MediaStream) (tr : list Track) : list Track :=
  fold_left (fun tr i => alter bump i tr) s tr.

Definition capped (z : Z) : Prop := 0 <= z <= 180.

(** Every number of seconds the component holds lies between 0 and 180:
    the counter, what the parked and memoised [startRecording] closures and
    the [onstop] handlers captured, and the durations in the history. *)
Record TimeInv (w : World) : Prop := mkTimeInv {
  ti_counter : capped (recordingTime w);
  ti_memo : capped (start_recordingTime (startRecordingCb w));
  ti_suspended : Forall (fun c => capped (start_recordingTime c)) (suspended w);
  ti_recorders : Forall (fun m => capped (mr_onstop_recordingTime m)) (recorders w);
  ti_recordings : Forall (fun r => capped (Recording.duration r)) (recordings w)
}.

(** What holds all through the first session: its interval is live and its
    callback holds the [stopRecording] of the mounting render, which saw
    [isRecording = false]; its recorder records, having captured the
    mounting render's counter, 0. *)
Record FirstSession (w : World) : Prop := mkFirst {
  fs_interval : intervals w !! 0%nat = Some (mkInterval false (mkStop false));
  fs_isRecording : isRecording w = true;
  fs_ref : mediaRecorderRef w = Some 0%nat;
  fs_recorder : exists s, recorders w !! 0%nat = Some (mkRecorder RecordingState s 0);
  fs_recordings : recordings w = [];
  fs_current : currentRecording w = None;
  fs_stop : stop_isRecording (stopRecordingCb w) = true
}.

(** The world [stopRecording] leaves behind before the recorder's queued
    task runs. *)
Definition stopped (r : nat) (w : World) : World :=
  toast toast_stopped (stopTimer (set_isRecording false (recorder_inactivate r w))).

Definition delivered (f : Flush) (w : World) : list Blob :=
  chunksRef w ++ (if 0 <? Blob_size (final_data f) then [final_data f] else []).

(** The artifact [onstop] builds. *)
Definition artifact (captured : Z) (f : Flush) (w : World) : Recording.t :=
  let payload := new_Blob (delivered f w) in
  Recording.mk (Number_toString (clock_now f)) payload (objectURLs w) captured
               (clock_date f) (Blob_size payload).

(** The shape of the world while clicks wait for pending starts: what is
    recording is the one recorder [mediaRecorderRef] names, what is ticking
    is the one interval [timerRef] names, and both only while [isRecording]
    holds; the stream of the current recorder is the one in [streamRef], and
    none of its tracks has been stopped. *)
Record Orderly (w : World) : Prop := mkOrderly {
  or_suspended : isRecording w = true -> suspended w = [];
  or_parked : (length (suspended w) <= 1)%nat;
  or_recorders : forall r, recorder_recording r w = true ->
                   isRecording w = true /\ mediaRecorderRef w = Some r;
  or_intervals : forall t, live t w = true ->
                   isRecording w = true /\ timerRef w = Some t;
  or_active : isRecording w = true ->
              exists r m, mediaRecorderRef w = Some r /\
                          recorders w !! r = Some m /\
                          mr_state m = RecordingState /\
                          streamRef w = Some (mr_stream m) /\
                          NoDup (mr_stream m) /\
                          forall i, In i (mr_stream m) ->
                                    exists k, tracks w !! i = Some (mkTrack k 0);
  or_tracks : Forall (fun t => (stops t <= 1)%nat) (tracks w)
}.

Definition completes (e : Event) : Prop :=
  match flush_of e with
  | Some f => finalization f = Completes
  | None => True
  end.

(** The state cells, the refs, the recorders, the intervals and the object
    URLs are the same in [w] and [w'].  The track table is not part of this:
    what became of the tracks that were acquired is stated apart, wherever
    this is used. *)
Definition nothing_started (w w' : World) : Prop :=
  isRecording w' = isRecording w /\
  recordingTime w' = recordingTime w /\
  currentRecording w' = currentRecording w /\
  recordings w' = recordings w /\
  mediaRecorderRef w' = mediaRecorderRef w /\
  streamRef w' = streamRef w /\
  chunksRef w' = chunksRef w /\
  timerRef w' = timerRef w /\
  recorders w' = recorders w /\
  intervals w' = intervals w /\
  objectURLs w' = objectURLs w.

(** A stop whose object URL cannot be created. *)
Definition url_fails : Flush := mkFlush [] CreateObjectURLThrows 1735787045000 1735787045000.

(** The outcomes in which one of the two capture sources is refused. *)
Definition acquisition_fails (o : StartOutcome) : bool :=
  match o with
  | DisplayRejected | AudioRejected _ => true
  | RecorderRejected _ _ | Started _ _ => false
  end.

(** ** The rest of the component *)

(** [String.prototype.padStart(n, c)] for a one-character filler. *)
Definition padStart (n : nat) (c : ascii) (s : string) : string :=
  (string_of_list_ascii (replicate (n - String.length s) c) ++ s)%string.

(** [formatTime]: [Math.floor(seconds / 60)] and [seconds % 60], each printed
    and padded to two characters.  [%] is the remainder that takes the sign
    of the dividend. *)
Definition formatTime (seconds : Z) : string :=
  let mins := seconds / 60 in
  let secs := Z.rem seconds 60 in
  (padStart 2 "0" (Number_toString mins) ++ ":" ++
   padStart 2 "0" (Number_toString secs))%string.

(** [Number.prototype.toFixed(1)] of [bytes / (1024 * 1024)], in tenths.
    The divisor is a power of two, so the quotient is exact in double
    precision for every integer below 2^53, and [toFixed] rounds the exact
    value to the nearest tenth, the larger one on a tie. *)
Definition size_tenths (bytes : Z) : Z := (20 * bytes + 1048576) / 2097152.

(** [formatFileSize], for the sizes a [Blob] can have (0 to 2^53 - 1). *)
Definition formatFileSize (bytes : Z) : string :=
  let n := size_tenths bytes in
  (Number_toString (n / 10) ++ "." ++ String (digit (n mod 10)) EmptyString ++
   " MB")%string.

(** What the JSX shows.  The main button is Start unless [isRecording]; the
    Latest Recording card exists when [currentRecording] is set; the
    Recording History card exists when [recordings.length > 1] and lists
    [recordings.slice(1)]. *)
Inductive MainButton := StartButton | StopButton.

Definition main_button (w : World) : MainButton :=
  if isRecording w then StopButton else StartButton.

Definition timer_text (w : World) : string := formatTime (recordingTime w).

Definition latest_card (w : World) : list Recording.t :=
  match currentRecording w with
  | Some r => [r]
  | None => []
  end.

Definition history_rows (w : World) : list Recording.t :=
  if (1 <? length (recordings w))%nat then drop 1 (recordings w) else [].

(** The toasts of a world that carry a given title. *)
Definition toasts_titled (t : string) (w : World) : list Toast :=
  List.filter (fun x => String.eqb (title x) t) (toasts w).

(** A start parked twice before the platform answers either. *)
Definition double_start : list Event :=
  [ClickMain quiet; ClickMain quiet; Settle (Started 1 1); Settle (Started 1 1)].

(** ** What one event does to the history *)

(** Either the history, the URL counter and the current artifact are as
    before, or one artifact built from the event's flush was put in front. *)
Definition history_step (f : option Flush) (w w' : World) : Prop :=
  (recordings w' = recordings w /\ objectURLs w' = objectURLs w) \/
  (exists f0 a,
     f = Some f0 /\ finalization f0 = Completes /\
     recordings w' = a :: recordings w /\
     objectURLs w' = S (objectURLs w) /\
     Recording.url a = objectURLs w /\
     Recording.id a = Number_toString (clock_now f0) /\
     Recording.timestamp a = clock_date f0 /\
     Recording.size a = Blob_size (Recording.blob a)).

(** Reads a five-character [mm:ss] back into seconds. *)
Definition seconds_of_mm_ss (s : string) : option Z :=
  match list_ascii_of_string s with
  | [a; b; c; d; e] =>
      let v x := Z.of_nat (nat_of_ascii x) - 48 in
      if Ascii.eqb c ":" then Some ((10 * v a + v b) * 60 + (10 * v d + v e))
      else None
  | _ => None
  end.

(** A stop at clock reading [t] with nothing left to flush. *)
Definition flush_at (t : Z) : Flush := mkFlush [] Completes t t.

(** Two sessions stopped at different clock readings. *)
Definition two_stops : list Event :=
  [ClickMain (flush_at 1); Settle (Started 1 1); ClickMain (flush_at 2);
   ClickMain (flush_at 3); Settle (Started 1 1); ClickMain (flush_at 4)].

(** The total size of a list of chunks. *)
Definition total_size (chunks : list Blob) : Z :=
  fold_right Z.add 0 (map Blob_size chunks).

(** A track that exists and is not part of the stream in [streamRef]. *)
Definition beyond_stream (i : nat) (w : World) : Prop :=
  (i < length (tracks w))%nat /\
  forall s, streamRef w = Some s -> ~ In i s.

(** A recorder that records, and an interval that runs, although the refs
    name others (or nothing). *)
Definition orphan_recorder (r : nat) (w : World) : Prop :=
  recorder_recording r w = true /\ mediaRecorderRef w <> Some r.

Definition orphan_interval (t : nat) (w : World) : Prop :=
  live t w = true /\ timerRef w <> Some t.

(** The started and the download toasts count the recorders and the saved
    files. *)
Definition announced (w : World) : Prop :=
  length (toasts_titled "Recording started" w) = length (recorders w) /\
  length (toasts_titled "Download started" w) = length (saved w).

(** One "Recording stopped" toast per stopped session. *)
Definition stops_announced (w : World) : Prop :=
  length (toasts_titled "Recording stopped" w) = stopped_sessions w.


(** A session as its timer sees it: the component records, [r] is the
    current recorder and records, and interval [t] runs with a callback
    whose [stopRecording] captured [isRecording = b]. *)
Record Ticking (b : bool) (r t : nat) (w : World) : Prop := mkTicking {
  tk_isRecording : isRecording w = true;
  tk_ref : mediaRecorderRef w = Some r;
  tk_recorder : recorder_recording r w = true;
  tk_interval : intervals w !! t = Some (mkInterval false (mkStop b))
}.

(** What is left once such a timer has stopped its session. *)
Record Capped (r t : nat) (w : World) : Prop := mkCapped {
  cp_isRecording : isRecording w = false;
  cp_ref : mediaRecorderRef w = Some r;
  cp_recorder : recorder_recording r w = false;
  cp_interval : exists c, intervals w !! t = Some (mkInterval c (mkStop true))
}.

(** The first session once its counter has moved, with a stable [toast]:
    the memoised [startRecording] was re-created by a render that saw the
    session recording, and holds the counter of the last render. *)
Record FirstTicked (w : World) : Prop := mkFirstTicked {
  ft_session : FirstSession w;
  ft_memo : startRecordingCb w = mkStart (recordingTime w) (mkStop true);
  ft_recorders : length (recorders w) = 1%nat;
  ft_intervals : length (intervals w) = 1%nat;
  ft_suspended : suspended w = [];
  ft_timerRef : timerRef w = Some 0%nat
}.

(** ** Stops and deliveries along a trace *)

(** The event stops a recorder: one more recorder is inactive after it. *)
Definition stops_recorder (ts : bool) (e : Event) (w : World) : bool :=
  (stopped_sessions w <? stopped_sessions (step ts e w))%nat.

(** The readings of [Date.now()] at the stops of a trace run from [w]: the
    reading an event carries counts when the event stops a recorder, and
    only then, since only the [onstop] of a stopped recorder reads the
    clock. *)
Fixpoint stop_clocks (ts : bool) (es : list Event) (w : World) : list Z :=
  match es with
  | [] => []
  | e :: es' =>
      match flush_of e with
      | Some f => if stops_recorder ts e w then [clock_now f] else []
      | None => []
      end ++ stop_clocks ts es' (step ts e w)
  end.

(** The chunk a [dataavailable] event hands to the handler: the event fires
    when its recorder records, whichever recorder that is. *)
Definition delivers (e : Event) (w : World) : list Blob :=
  match e with
  | DataAvailable r data => if recorder_recording r w then [data] else []
  | _ => []
  end.

(** The chunks delivered along a trace run from [w], in order. *)
Fixpoint deliveries (ts : bool) (es : list Event) (w : World) : list Blob :=
  match es with
  | [] => []
  | e :: es' => delivers e w ++ deliveries ts es' (step ts e w)
  end.

(** No suspended [startRecording] resumes in the trace. *)
Definition no_settle (es : list Event) : bool :=
  forallb (fun e => match e with Settle _ => false | _ => true end) es.

(** Two sessions stopped at different clock readings, with ticks and Start
    clicks that all carry one and the same reading. *)
Definition stops_apart : list Event :=
  start_ok ++ [Tick 0 quiet; Tick 0 quiet; ClickMain (flush_at 1735787045000)] ++
  start_ok ++ [ClickMain (flush_at 1735787046000)].

(** What happens during a session: timeslices with and without data, ticks,
    a delivery for a recorder that does not exist, and a download. *)
Definition busy_session : list Event :=
  [DataAvailable 0 [Byte.x01]; Tick 0 quiet; DataAvailable 0 [];
   DataAvailable 7 [Byte.x09]; DownloadCurrent; Tick 0 quiet;
   DataAvailable 0 [Byte.x02; Byte.x03]].

(** * Properties *)

(** ** Renders *)

Section RenderFacts.
Variable ts : bool.

Lemma render_stop_fresh w :
  stop_isRecording (stopRecordingCb (render ts w)) = isRecording w.
Proof.
  unfold render; simpl.
  destruct (negb ts); simpl; [reflexivity|].
  destruct (Bool.eqb _ _) eqn:E; simpl; [|reflexivity].
  symmetry. now apply Bool.eqb_prop.
Qed.

Lemma render_start_fresh w :
  start_recordingTime (startRecordingCb (render ts w)) = recordingTime w.
Proof.
  unfold render; simpl.
  destruct (negb ts); simpl; [reflexivity|].
  destruct (recordingTime w =? _) eqn:E; simpl; [|reflexivity].
  symmetry. now apply Z.eqb_eq.
Qed.

Lemma render_idem w : render ts (render ts w) = render ts w.
Proof.
  destruct w as [? ? ? ? ? ? ? ? [t0 [b0]] [b1] ? ? ? ? ? ? ?].
  unfold render; simpl.
  destruct ts; simpl; [|reflexivity].
  destruct (Bool.eqb isRecording0 b1) eqn:E1;
    destruct (recordingTime0 =? t0) eqn:E2; simpl;
    rewrite ?E1, ?E2, ?Bool.eqb_reflx, ?Z.eqb_refl; reflexivity.
Qed.

End RenderFacts.

(** ** Frame facts of the handlers *)

Lemma stop_tracks_eq s w : stop_tracks s w = set_tracks (stop_all s (tracks w)) w.
Proof.
  revert w. induction s as [|i s IH]; intros w.
  - destruct w; reflexivity.
  - unfold stop_tracks, stop_all in *. simpl. rewrite IH.
    destruct w; reflexivity.
Qed.

Ltac crush_handlers :=
  unfold timer_callback, stopRecording, stop_task, onstop, ondataavailable,
    stopTimer, clearInterval, recorder_inactivate, toast;
  repeat (match goal with
          | |- context [match ?x with _ => _ end] => destruct x eqn:?
          end; simpl);
  rewrite ?stop_tracks_eq; simpl.

Lemma stopRecording_recordingTime c f w :
  recordingTime (stopRecording c f w) = recordingTime w.
Proof. crush_handlers; reflexivity. Qed.

Lemma stopRecording_closed c f w :
  stop_isRecording c = false -> stopRecording c f w = w.
Proof. intros H. unfold stopRecording. rewrite H. now destruct (mediaRecorderRef w). Qed.

Lemma stopRecording_no_recorder c f w :
  mediaRecorderRef w = None -> stopRecording c f w = w.
Proof. intros H. unfold stopRecording. now rewrite H. Qed.

(** ** The counter *)

Lemma timer_callback_recordingTime stop f w :
  recordingTime (timer_callback stop f w) =
  if 179 <=? recordingTime w then 180 else recordingTime w + 1.
Proof. unfold timer_callback. now destruct (179 <=? recordingTime w). Qed.

Ltac frame_time :=
  let H := fresh in
  intros H; destruct H; constructor; simpl; auto.

Lemma TimeInv_toast t w : TimeInv w -> TimeInv (toast t w).
Proof. frame_time. Qed.

Lemma TimeInv_set_isRecording b w : TimeInv w -> TimeInv (set_isRecording b w).
Proof. frame_time. Qed.

Lemma TimeInv_stopTimer w : TimeInv w -> TimeInv (stopTimer w).
Proof. unfold stopTimer, clearInterval. destruct (timerRef w); frame_time. Qed.

Lemma TimeInv_recorder_inactivate r w :
  TimeInv w -> TimeInv (recorder_inactivate r w).
Proof.
  unfold recorder_inactivate. frame_time.
  apply Forall_alter; [assumption | intros; assumption].
Qed.

Lemma TimeInv_ondataavailable d w : TimeInv w -> TimeInv (ondataavailable d w).
Proof. unfold ondataavailable. destruct (0 <? Blob_size d); [frame_time | auto]. Qed.

Lemma TimeInv_onstop d f w : capped d -> TimeInv w -> TimeInv (onstop d f w).
Proof.
  intros Hd. unfold onstop.
  destruct (finalization f); auto.
  destruct (streamRef w) eqn:E; simpl; rewrite ?E, ?stop_tracks_eq; frame_time.
Qed.

Lemma TimeInv_stop_task r f w : TimeInv w -> TimeInv (stop_task r f w).
Proof.
  intros H. unfold stop_task.
  destruct (recorders w !! r) as [m|] eqn:E; [|assumption].
  apply TimeInv_onstop.
  - exact (Forall_lookup_1 _ _ _ _ (ti_recorders w H) E).
  - now apply TimeInv_ondataavailable.
Qed.

Lemma TimeInv_stopRecording c f w : TimeInv w -> TimeInv (stopRecording c f w).
Proof.
  intros H. unfold stopRecording.
  destruct (mediaRecorderRef w) as [r|]; [|assumption].
  destruct (stop_isRecording c); [|assumption].
  assert (H' : TimeInv (toast toast_stopped
                 (stopTimer (set_isRecording false (recorder_inactivate r w))))).
  { now apply TimeInv_toast, TimeInv_stopTimer, TimeInv_set_isRecording,
      TimeInv_recorder_inactivate. }
  destruct (recorder_recording r w); [now apply TimeInv_stop_task | assumption].
Qed.

Lemma TimeInv_timer_callback c f w : TimeInv w -> TimeInv (timer_callback c f w).
Proof.
  intros H. unfold timer_callback.
  destruct (179 <=? recordingTime w) eqn:E.
  - apply (TimeInv_stopRecording c f) in H. revert H. frame_time.
    unfold capped; lia.
  - apply Z.leb_gt in E. revert H. frame_time.
    unfold capped in *; lia.
Qed.

Lemma TimeInv_acquire k n w : TimeInv w -> TimeInv (snd (acquire k n w)).
Proof. unfold acquire. frame_time. Qed.

Lemma TimeInv_startRecording c o w :
  capped (start_recordingTime c) -> TimeInv w -> TimeInv (startRecording c o w).
Proof.
  intros Hc H. unfold startRecording, acquire, startTimer.
  destruct o; simpl; revert H; frame_time; try (unfold capped; lia).
  apply Forall_app; split; [assumption|]. now constructor.
Qed.

Section TimeBounds.
Variable ts : bool.

Lemma TimeInv_render w : TimeInv w -> TimeInv (render ts w).
Proof.
  unfold render. frame_time.
  destruct (negb ts || _); simpl; assumption.
Qed.

Lemma TimeInv_handle e w : TimeInv w -> TimeInv (handle e w).
Proof.
  intros H. destruct e as [f|o|t f|r d| |i]; simpl.
  - unfold click_main. destruct (isRecording w).
    + now apply TimeInv_stopRecording.
    + revert H. frame_time. apply Forall_app; split; [assumption|]. now constructor.
  - unfold settle. destruct (suspended w) as [|c rest] eqn:E; [assumption|].
    pose proof (ti_suspended w H) as Hs. rewrite E in Hs.
    apply TimeInv_startRecording.
    + now inversion Hs.
    + revert H. frame_time. now inversion Hs.
  - unfold tick. destruct (intervals w !! t) as [iv|]; [|assumption].
    destruct (cleared iv); [assumption|]. now apply TimeInv_timer_callback.
  - unfold data_available. destruct (recorder_recording r w); [|assumption].
    now apply TimeInv_ondataavailable.
  - unfold download_current, downloadRecording.
    destruct (currentRecording w); [|assumption]. revert H. frame_time.
  - unfold download_history, downloadRecording.
    destruct (recordings w) as [|? [|? ?]] eqn:E; try assumption.
    destruct (drop 1 _ !! i); [|assumption]. revert H. frame_time.
Qed.

Lemma TimeInv_mount : TimeInv mount.
Proof. constructor; simpl; try constructor; unfold capped; lia. Qed.

Lemma TimeInv_run es w : TimeInv w -> TimeInv (run ts es w).
Proof.
  revert w. induction es as [|e es IH]; intros w H; [assumption|].
  apply IH. unfold step. now apply TimeInv_render, TimeInv_handle.
Qed.

End TimeBounds.

(** ** Ticks *)

Section Ticks.
Variable ts : bool.

Lemma tick_counter t f w :
  capped (recordingTime w) ->
  live t w = true \/ recordingTime w = 180 ->
  recordingTime (step ts (Tick t f) w) = Z.min (recordingTime w + 1) 180 /\
  (live t (step ts (Tick t f) w) = true \/
   recordingTime (step ts (Tick t f) w) = 180).
Proof.
  intros Hc Hl. unfold step, live in *. simpl. unfold tick.
  destruct (intervals w !! t) as [iv|] eqn:E.
  - destruct (cleared iv) eqn:Ec; simpl in *.
    + rewrite ?E, ?Ec. simpl. destruct Hl as [Hl|Hl]; [discriminate|].
      split; [lia | now right].
    + rewrite timer_callback_recordingTime.
      unfold timer_callback.
      destruct (179 <=? recordingTime w) eqn:E9.
      * apply Z.leb_le in E9. unfold capped in Hc. split; [lia | now right].
      * apply Z.leb_gt in E9. simpl. rewrite ?E, ?Ec. split; [lia | now left].
  - rewrite ?E. destruct Hl as [Hl|Hl]; [discriminate|].
    split; [lia | now right].
Qed.

Lemma ticks_counter t fs w :
  capped (recordingTime w) ->
  live t w = true \/ recordingTime w = 180 ->
  recordingTime (run ts (map (Tick t) fs) w) =
  Z.min (recordingTime w + Z.of_nat (length fs)) 180.
Proof.
  revert w. induction fs as [|f fs IH]; intros w Hc Hl.
  - simpl. unfold capped in Hc. lia.
  - simpl map. unfold run in *. simpl fold_left.
    destruct (tick_counter t f w Hc Hl) as [Ht Hl'].
    rewrite IH; [| unfold capped in *; lia | assumption].
    rewrite Ht. simpl length. unfold capped in Hc. lia.
Qed.

End Ticks.

(** ** The first session after the component mounts *)

Section First.
Variable ts : bool.

Lemma FirstSession_start f nv na :
  FirstSession (run ts [ClickMain f; Settle (Started nv na)] mount).
Proof.
  unfold run, step; simpl.
  constructor; simpl; try reflexivity.
  - eexists; reflexivity.
  - destruct ts; reflexivity.
Qed.

Lemma FirstSession_tick f w :
  FirstSession w -> FirstSession (step ts (Tick 0 f) w).
Proof.
  intros [H1 H2 H3 [s H4] H5 H6 H7].
  unfold step. simpl. unfold tick. rewrite H1. simpl.
  unfold timer_callback. rewrite stopRecording_closed by reflexivity.
  destruct (179 <=? recordingTime w); constructor; simpl; eauto;
    rewrite H2; destruct ts; simpl; rewrite ?H7; auto.
Qed.

Lemma FirstSession_ticks fs w :
  FirstSession w -> FirstSession (run ts (map (Tick 0) fs) w).
Proof.
  revert w. induction fs as [|f fs IH]; intros w H; [assumption|].
  apply IH. now apply FirstSession_tick.
Qed.

End First.

(** ** Stopping *)

Lemma run_app ts es1 es2 w : run ts (es1 ++ es2) w = run ts es2 (run ts es1 w).
Proof. unfold run. apply fold_left_app. Qed.

Lemma stopTimer_recorders w : recorders (stopTimer w) = recorders w.
Proof. unfold stopTimer. now destruct (timerRef w). Qed.

Lemma stopTimer_chunksRef w : chunksRef (stopTimer w) = chunksRef w.
Proof. unfold stopTimer. now destruct (timerRef w). Qed.

Lemma stopTimer_recordings w : recordings (stopTimer w) = recordings w.
Proof. unfold stopTimer. now destruct (timerRef w). Qed.

Lemma stopTimer_objectURLs w : objectURLs (stopTimer w) = objectURLs w.
Proof. unfold stopTimer. now destruct (timerRef w). Qed.

Lemma stopTimer_currentRecording w : currentRecording (stopTimer w) = currentRecording w.
Proof. unfold stopTimer. now destruct (timerRef w). Qed.

Lemma stopRecording_fires c f w r m :
  mediaRecorderRef w = Some r ->
  stop_isRecording c = true ->
  recorders w !! r = Some m ->
  mr_state m = RecordingState ->
  stopRecording c f w =
  onstop (mr_onstop_recordingTime m) f (ondataavailable (final_data f) (stopped r w)).
Proof.
  intros Hr Hc Hm Hs. unfold stopRecording, recorder_recording.
  rewrite Hr, Hc, Hm, Hs. unfold stop_task. fold (stopped r w).
  assert (E : recorders (stopped r w) !! r =
              Some (mkRecorder Inactive (mr_stream m) (mr_onstop_recordingTime m))).
  { unfold stopped. simpl. rewrite stopTimer_recorders. simpl.
    rewrite list_lookup_alter_eq, Hm. reflexivity. }
  rewrite E. reflexivity.
Qed.

Lemma stopRecording_idle_recorder c f w r :
  mediaRecorderRef w = Some r ->
  stop_isRecording c = true ->
  recorder_recording r w = false ->
  stopRecording c f w = stopped r w.
Proof.
  intros Hr Hc Hm. unfold stopRecording. now rewrite Hr, Hc, Hm.
Qed.

Lemma onstop_completes d f w :
  finalization f = Completes ->
  recordings (onstop d f w) =
    Recording.mk (Number_toString (clock_now f)) (new_Blob (chunksRef w))
                 (objectURLs w) d (clock_date f)
                 (Blob_size (new_Blob (chunksRef w))) :: recordings w /\
  currentRecording (onstop d f w) = head (recordings (onstop d f w)).
Proof.
  intros H. unfold onstop. rewrite H. simpl.
  destruct (streamRef w); rewrite ?stop_tracks_eq; simpl; auto.
Qed.

Lemma stop_fires_recordings c f w r m :
  mediaRecorderRef w = Some r ->
  stop_isRecording c = true ->
  recorders w !! r = Some m ->
  mr_state m = RecordingState ->
  finalization f = Completes ->
  recordings (stopRecording c f w) =
    artifact (mr_onstop_recordingTime m) f w :: recordings w.
Proof.
  intros Hr Hc Hm Hs Hf.
  rewrite (stopRecording_fires c f w r m Hr Hc Hm Hs).
  destruct (onstop_completes (mr_onstop_recordingTime m) f
              (ondataavailable (final_data f) (stopped r w)) Hf) as [E _].
  rewrite E. unfold artifact, delivered, ondataavailable, stopped.
  destruct (0 <? Blob_size (final_data f)); simpl;
    rewrite ?stopTimer_chunksRef, ?stopTimer_recordings, ?stopTimer_objectURLs;
    simpl; rewrite ?app_nil_r; reflexivity.
Qed.

Lemma stop_fires_throws c f w r m :
  mediaRecorderRef w = Some r ->
  stop_isRecording c = true ->
  recorders w !! r = Some m ->
  mr_state m = RecordingState ->
  finalization f <> Completes ->
  stopRecording c f w = ondataavailable (final_data f) (stopped r w).
Proof.
  intros Hr Hc Hm Hs Hf.
  rewrite (stopRecording_fires c f w r m Hr Hc Hm Hs).
  unfold onstop. destruct (finalization f); congruence.
Qed.

(** ** Lists and tables *)

Lemma filter_all {A} (p : A -> bool) (l : list A) :
  (forall x, In x l -> p x = true) -> List.filter p l = l.
Proof.
  induction l as [|a l IH]; intros H; simpl; [reflexivity|].
  rewrite (H a) by now left. f_equal. apply IH. intros x Hx. apply H. now right.
Qed.

Lemma lookup_snoc_last {A} (l : list A) (x : A) : (l ++ [x]) !! length l = Some x.
Proof. rewrite lookup_app_r by lia. now rewrite Nat.sub_diag. Qed.

Lemma lookup_snoc_Some {A} (l : list A) (x y : A) (i : nat) :
  (l ++ [x]) !! i = Some y -> l !! i = Some y \/ (i = length l /\ y = x).
Proof.
  intros H. destruct (Nat.lt_ge_cases i (length l)) as [Hi|Hi].
  - rewrite lookup_app_l in H by assumption. now left.
  - rewrite lookup_app_r in H by assumption.
    destruct (i - length l)%nat as [|k] eqn:E; simpl in H; [|discriminate].
    right. split; [lia | congruence].
Qed.

Lemma stop_all_notin s tr i : ~ In i s -> stop_all s tr !! i = tr !! i.
Proof.
  revert tr. induction s as [|j s IH]; intros tr Hn; [reflexivity|].
  unfold stop_all in *. simpl. rewrite IH.
  - apply list_lookup_alter_ne. intros ->. apply Hn. now left.
  - intros Hi. apply Hn. now right.
Qed.

Lemma stop_all_in s tr i :
  NoDup s -> In i s -> stop_all s tr !! i = bump <$> tr !! i.
Proof.
  revert tr. induction s as [|j s IH]; intros tr Hd Hi; [destruct Hi|].
  apply NoDup_cons in Hd as [Hj Hd].
  unfold stop_all in *. simpl. destruct Hi as [->|Hi].
  - fold (stop_all s (alter bump i tr)). rewrite stop_all_notin.
    + apply list_lookup_alter_eq.
    + now rewrite <- list_elem_of_In.
  - rewrite IH by assumption. rewrite list_lookup_alter_ne; [reflexivity|].
    intros ->. apply Hj. now rewrite list_elem_of_In.
Qed.

Lemma stop_all_length s tr : length (stop_all s tr) = length tr.
Proof.
  revert tr. induction s as [|j s IH]; intros tr; [reflexivity|].
  unfold stop_all in *. simpl. now rewrite IH, length_alter.
Qed.

(** ** The orderly shape is kept *)

Lemma recorder_recording_inactivate r r' w :
  recorder_recording r' (recorder_inactivate r w) =
  if Nat.eqb r r' then false else recorder_recording r' w.
Proof.
  unfold recorder_recording, recorder_inactivate. simpl.
  destruct (Nat.eqb_spec r r') as [->|Hne].
  - rewrite list_lookup_alter_eq. now destruct (recorders w !! r').
  - now rewrite list_lookup_alter_ne.
Qed.

Lemma live_clearInterval t t' w :
  live t' (clearInterval t w) = if Nat.eqb t t' then false else live t' w.
Proof.
  unfold live, clearInterval. simpl.
  destruct (Nat.eqb_spec t t') as [->|Hne].
  - rewrite list_lookup_alter_eq. now destruct (intervals w !! t').
  - now rewrite list_lookup_alter_ne.
Qed.

Lemma recorder_recording_stopped r r' w :
  recorder_recording r' (stopped r w) =
  if Nat.eqb r r' then false else recorder_recording r' w.
Proof.
  rewrite <- recorder_recording_inactivate.
  unfold recorder_recording, stopped. simpl. now rewrite stopTimer_recorders.
Qed.

Lemma Orderly_stopped r w :
  Orderly w ->
  (isRecording w = true -> mediaRecorderRef w = Some r) ->
  Orderly (stopped r w).
Proof.
  intros [H1 H2 H3 H4 H5 H6] Hr.
  assert (Hnone : forall r', recorder_recording r' (stopped r w) = false).
  { intros r'. rewrite recorder_recording_stopped.
    destruct (Nat.eqb_spec r r') as [->|Hne]; [reflexivity|].
    destruct (recorder_recording r' w) eqn:E; [|reflexivity].
    destruct (H3 r' E) as [Hi Hm]. rewrite (Hr Hi) in Hm. congruence. }
  constructor.
  - unfold stopped, stopTimer. destruct (timerRef _); simpl; discriminate.
  - unfold stopped, stopTimer. now destruct (timerRef _); simpl.
  - intros r' Hrec. rewrite Hnone in Hrec. discriminate.
  - intros t. unfold stopped, stopTimer. simpl.
    destruct (timerRef w) as [t0|] eqn:Et; simpl.
    + change (live t (clearInterval t0 (set_isRecording false (recorder_inactivate r w)))
              = true -> false = true /\ None = Some t).
      rewrite live_clearInterval.
      destruct (Nat.eqb_spec t0 t) as [->|Hne]; [discriminate|].
      intros Hl. destruct (H4 t Hl) as [_ Ht]. congruence.
    + intros Hl. destruct (H4 t Hl) as [_ Ht]. congruence.
  - unfold stopped, stopTimer. destruct (timerRef _); simpl; discriminate.
  - unfold stopped, stopTimer. now destruct (timerRef _); simpl.
Qed.

Lemma stopped_frame r w :
  isRecording (stopped r w) = false /\
  streamRef (stopped r w) = streamRef w /\
  tracks (stopped r w) = tracks w.
Proof. unfold stopped, stopTimer. destruct (timerRef _); simpl; auto. Qed.

Lemma Orderly_ondataavailable d w : Orderly w -> Orderly (ondataavailable d w).
Proof.
  unfold ondataavailable. destruct (0 <? Blob_size d); [|auto].
  intros [H1 H2 H3 H4 H5 H6]. constructor; auto.
Qed.

Lemma stops_after_stop_all s tr :
  NoDup s ->
  (forall i, In i s -> exists k, tr !! i = Some (mkTrack k 0)) ->
  Forall (fun t => (stops t <= 1)%nat) tr ->
  Forall (fun t => (stops t <= 1)%nat) (stop_all s tr).
Proof.
  intros Hd Hs Ht. apply Forall_lookup. intros i x Hx.
  destruct (in_dec Nat.eq_dec i s) as [Hi|Hi].
  - rewrite stop_all_in in Hx by assumption.
    destruct (Hs i Hi) as [k Hk]. rewrite Hk in Hx. simpl in Hx.
    injection Hx as <-. simpl. lia.
  - rewrite stop_all_notin in Hx by assumption.
    exact (Forall_lookup_1 _ _ _ _ Ht Hx).
Qed.

Lemma Orderly_onstop d f w :
  Orderly w ->
  isRecording w = false ->
  (forall s, streamRef w = Some s ->
     NoDup s /\ forall i, In i s -> exists k, tracks w !! i = Some (mkTrack k 0)) ->
  Orderly (onstop d f w).
Proof.
  intros [H1 H2 H3 H4 H5 H6] Hi Hs. unfold onstop.
  destruct (finalization f); try (constructor; assumption).
  destruct (streamRef w) as [s|] eqn:E; simpl; rewrite ?E, ?stop_tracks_eq;
    constructor; simpl; auto; try (rewrite Hi; discriminate).
  destruct (Hs s eq_refl) as [Hd Hz]. now apply stops_after_stop_all.
Qed.

Lemma Orderly_stopRecording c f w : Orderly w -> Orderly (stopRecording c f w).
Proof.
  intros H. unfold stopRecording.
  destruct (mediaRecorderRef w) as [r|] eqn:Er; [|assumption].
  destruct (stop_isRecording c); [|assumption].
  fold (stopped r w).
  assert (Hst : Orderly (stopped r w)) by now apply Orderly_stopped.
  destruct (recorder_recording r w) eqn:Erec; [|assumption].
  unfold stop_task. destruct (recorders (stopped r w) !! r); [|assumption].
  destruct (stopped_frame r w) as (Hi & Hsr & Htr).
  apply Orderly_onstop.
  - now apply Orderly_ondataavailable.
  - unfold ondataavailable. now destruct (0 <? _).
  - intros s Hs.
    assert (Hs' : streamRef w = Some s).
    { rewrite <- Hsr. revert Hs. unfold ondataavailable. now destruct (0 <? _). }
    assert (Htr' : tracks (ondataavailable (final_data f) (stopped r w)) = tracks w).
    { rewrite <- Htr. unfold ondataavailable. now destruct (0 <? _). }
    rewrite Htr'.
    destruct (or_recorders w H r Erec) as [Hrec _].
    destruct (or_active w H Hrec) as (r0 & m0 & _ & _ & _ & Hstream & Hd & Hz).
    rewrite Hstream in Hs'. injection Hs' as <-. auto.
Qed.

(** The track table after both acquisitions, and the combined stream. *)
Lemma fresh_video_lookup (tr : list Track) nv na i :
  In i (seq (length tr) nv) ->
  ((tr ++ replicate nv (mkTrack VideoTrack 0)) ++ replicate na (mkTrack AudioTrack 0))
    !! i = Some (mkTrack VideoTrack 0).
Proof.
  intros Hi. apply in_seq in Hi.
  rewrite lookup_app_l by (rewrite length_app, length_replicate; lia).
  rewrite lookup_app_r by lia.
  apply lookup_replicate_2. lia.
Qed.

Lemma fresh_audio_lookup (tr : list Track) nv na i :
  In i (seq (length tr + nv) na) ->
  ((tr ++ replicate nv (mkTrack VideoTrack 0)) ++ replicate na (mkTrack AudioTrack 0))
    !! i = Some (mkTrack AudioTrack 0).
Proof.
  intros Hi. apply in_seq in Hi.
  rewrite lookup_app_r by (rewrite length_app, length_replicate; lia).
  apply lookup_replicate_2. rewrite length_app, length_replicate. lia.
Qed.

Lemma combined_stream (tr : list Track) nv na w2 :
  tracks w2 = (tr ++ replicate nv (mkTrack VideoTrack 0)) ++
              replicate na (mkTrack AudioTrack 0) ->
  getVideoTracks (seq (length tr) nv) w2 ++
  getAudioTracks (seq (length tr + nv) na) w2 =
  seq (length tr) (nv + na).
Proof.
  intros E. unfold getVideoTracks, getAudioTracks.
  rewrite !filter_all.
  - symmetry. apply seq_app.
  - intros i Hi. unfold has_kind. rewrite E. now rewrite fresh_audio_lookup.
  - intros i Hi. unfold has_kind. rewrite E. now rewrite fresh_video_lookup.
Qed.

Lemma fresh_lookup (tr : list Track) nv na i :
  In i (seq (length tr) (nv + na)) ->
  exists k, ((tr ++ replicate nv (mkTrack VideoTrack 0)) ++
             replicate na (mkTrack AudioTrack 0)) !! i = Some (mkTrack k 0).
Proof.
  rewrite seq_app, in_app_iff. intros [Hi|Hi].
  - exists VideoTrack. now apply fresh_video_lookup.
  - exists AudioTrack. now apply fresh_audio_lookup.
Qed.

(** What a successful [startRecording] makes of the world. *)
Lemma startRecording_started c nv na w :
  let stream := seq (length (tracks w)) (nv + na) in
  let w' := startRecording c (Started nv na) w in
  isRecording w' = true /\
  recordingTime w' = 0 /\
  mediaRecorderRef w' = Some (length (recorders w)) /\
  recorders w' = recorders w ++ [mkRecorder RecordingState stream (start_recordingTime c)] /\
  streamRef w' = Some stream /\
  chunksRef w' = [] /\
  timerRef w' = Some (length (intervals w)) /\
  intervals w' = intervals w ++ [mkInterval false (start_stopRecording c)] /\
  tracks w' = (tracks w ++ replicate nv (mkTrack VideoTrack 0)) ++
              replicate na (mkTrack AudioTrack 0) /\
  suspended w' = suspended w /\
  recordings w' = recordings w /\
  currentRecording w' = currentRecording w /\
  toasts w' = toasts w ++ [toast_started].
Proof.
  intros stream w'. unfold w', startRecording, acquire, startTimer. simpl.
  rewrite length_app, length_replicate.
  erewrite combined_stream by reflexivity.
  repeat split; reflexivity.
Qed.

Lemma Forall_fresh (tr : list Track) k n :
  Forall (fun t => (stops t <= 1)%nat) tr ->
  Forall (fun t => (stops t <= 1)%nat) (tr ++ replicate n (mkTrack k 0)).
Proof.
  intros H. apply Forall_app. split; [assumption|].
  apply Forall_forall. intros x Hx. apply elem_of_replicate in Hx.
  destruct Hx as [-> _]. simpl. lia.
Qed.

Lemma Orderly_startRecording c o w :
  Orderly w -> isRecording w = false -> suspended w = [] ->
  Orderly (startRecording c o w).
Proof.
  intros [H1 H2 H3 H4 H5 H6] Hi Hs.
  destruct o as [|nv|nv na|nv na].
  - constructor; auto.
  - unfold startRecording, acquire. simpl.
    constructor; simpl; auto.
    + rewrite Hi. discriminate.
    + now apply Forall_fresh.
  - unfold startRecording, acquire. simpl.
    constructor; simpl; auto.
    + rewrite Hi. discriminate.
    + now apply Forall_fresh, Forall_fresh.
  - destruct (startRecording_started c nv na w)
      as (E1 & E2 & E3 & E4 & E5 & E6 & E7 & E8 & E9 & E10 & E11 & E12 & E13).
    set (w' := startRecording c (Started nv na) w) in *.
    constructor.
    + intros _. now rewrite E10.
    + rewrite E10, Hs. simpl. lia.
    + intros r Hr. split; [assumption|]. rewrite E3. f_equal.
      unfold recorder_recording in Hr. rewrite E4 in Hr.
      destruct ((recorders w ++ _) !! r) as [m|] eqn:Em; [|discriminate].
      apply lookup_snoc_Some in Em as [Em|[-> _]]; [|reflexivity].
      assert (Hrec : recorder_recording r w = true)
        by (unfold recorder_recording; now rewrite Em).
      destruct (H3 r Hrec) as [Hrec' _]. congruence.
    + intros t Ht. split; [assumption|]. rewrite E7. f_equal.
      unfold live in Ht. rewrite E8 in Ht.
      destruct ((intervals w ++ _) !! t) as [iv|] eqn:Eiv; [|discriminate].
      apply lookup_snoc_Some in Eiv as [Eiv|[-> _]]; [|reflexivity].
      assert (Hl : live t w = true) by (unfold live; now rewrite Eiv).
      destruct (H4 t Hl) as [Hrec' _]. congruence.
    + intros _. eexists _, _. split; [exact E3|]. split.
      { rewrite E4. apply lookup_snoc_last. }
      split; [reflexivity|]. split; [exact E5|]. cbn [mr_stream]. split.
      { apply NoDup_ListNoDup, seq_NoDup. }
      intros i Hin. rewrite E9. now apply fresh_lookup.
    + rewrite E9. now apply Forall_fresh, Forall_fresh.
Qed.

Ltac frame_orderly :=
  let H := fresh in
  intros H; destruct H; constructor; simpl; auto.

Lemma Orderly_timer_callback c f w : Orderly w -> Orderly (timer_callback c f w).
Proof.
  intros H. unfold timer_callback. destruct (179 <=? recordingTime w).
  - apply (Orderly_stopRecording c f) in H. revert H. frame_orderly.
  - revert H. frame_orderly.
Qed.

Lemma Orderly_handle e w :
  Orderly w ->
  match e, suspended w with ClickMain _, _ :: _ => False | _, _ => True end ->
  Orderly (handle e w).
Proof.
  intros H Hp. destruct e as [f|o|t f|r d| |i]; simpl.
  - unfold click_main. destruct (isRecording w) eqn:Hi.
    + now apply Orderly_stopRecording.
    + destruct (suspended w) eqn:Es; [|destruct Hp].
      destruct H. constructor; simpl; auto.
      rewrite Hi. discriminate.
  - unfold settle. destruct (suspended w) as [|c rest] eqn:Es; [assumption|].
    pose proof (or_parked w H) as Hl. rewrite Es in Hl.
    destruct rest; [|simpl in Hl; lia].
    assert (Hi : isRecording w = false).
    { destruct (isRecording w) eqn:Hi; [|reflexivity].
      pose proof (or_suspended w H Hi). congruence. }
    apply Orderly_startRecording; try assumption; try reflexivity.
    revert H. frame_orderly.
  - unfold tick. destruct (intervals w !! t) as [iv|]; [|assumption].
    destruct (cleared iv); [assumption|]. now apply Orderly_timer_callback.
  - unfold data_available. destruct (recorder_recording r w); [|assumption].
    now apply Orderly_ondataavailable.
  - unfold download_current, downloadRecording.
    destruct (currentRecording w); [|assumption]. revert H. frame_orderly.
  - unfold download_history, downloadRecording.
    destruct (recordings w) as [|? [|? ?]] eqn:E; try assumption.
    destruct (drop 1 _ !! i); [|assumption]. revert H. frame_orderly.
Qed.

Lemma Orderly_mount : Orderly mount.
Proof.
  constructor; simpl; auto; discriminate.
Qed.

Section OrderlyRuns.
Variable ts : bool.

Lemma Orderly_render w : Orderly w -> Orderly (render ts w).
Proof. unfold render. frame_orderly. Qed.

Lemma Orderly_run es w :
  Orderly w -> paced ts es w = true -> Orderly (run ts es w).
Proof.
  revert w. induction es as [|e es IH]; intros w H Hp; [assumption|].
  simpl in Hp. unfold run. simpl. apply IH.
  - unfold step. apply Orderly_render, Orderly_handle; [assumption|].
    destruct e; try exact I. destruct (suspended w); [exact I | discriminate].
  - destruct e; try assumption. destruct (suspended w); [assumption | discriminate].
Qed.

End OrderlyRuns.

(** ** The history *)

Lemma onstop_recorders d f w : recorders (onstop d f w) = recorders w.
Proof.
  unfold onstop. destruct (finalization f); try reflexivity. simpl.
  destruct (streamRef w); rewrite ?stop_tracks_eq; reflexivity.
Qed.

Lemma ondataavailable_frame d w :
  recorders (ondataavailable d w) = recorders w /\
  recordings (ondataavailable d w) = recordings w /\
  currentRecording (ondataavailable d w) = currentRecording w /\
  isRecording (ondataavailable d w) = isRecording w.
Proof. unfold ondataavailable. now destruct (0 <? Blob_size d). Qed.

Lemma stopped_history r w :
  recordings (stopped r w) = recordings w /\
  currentRecording (stopped r w) = currentRecording w.
Proof. unfold stopped, stopTimer. now destruct (timerRef _). Qed.

Lemma count_inactivate (l : list MediaRecorder) r :
  length (List.filter inactive
            (alter (fun m => mkRecorder Inactive (mr_stream m)
                               (mr_onstop_recordingTime m)) r l)) =
  (length (List.filter inactive l) +
   match l !! r with
   | Some m => if inactive m then 0 else 1
   | None => 0
   end)%nat.
Proof.
  revert r. induction l as [|m l IH]; intros r; [now destruct r|].
  destruct r as [|r]; simpl.
  - destruct (inactive m); simpl; lia.
  - change (list_alter ?f r l) with (alter f r l). specialize (IH r).
    destruct (inactive m); simpl; rewrite IH; lia.
Qed.

Lemma stopped_sessions_stopped r w :
  stopped_sessions (stopped r w) =
  (stopped_sessions w + if recorder_recording r w then 1 else 0)%nat.
Proof.
  unfold stopped_sessions, stopped. simpl. rewrite stopTimer_recorders. simpl.
  rewrite count_inactivate. unfold recorder_recording, inactive.
  destruct (recorders w !! r) as [m|]; [|reflexivity]. now destruct (mr_state m).
Qed.

(** [stopRecording] leaves the history alone or puts one artifact in front
    of it. *)
Lemma stopRecording_prepends c f w :
  recordings (stopRecording c f w) = recordings w \/
  exists a, recordings (stopRecording c f w) = a :: recordings w.
Proof.
  unfold stopRecording.
  destruct (mediaRecorderRef w) as [r|]; [|auto].
  destruct (stop_isRecording c); [|auto].
  fold (stopped r w). destruct (stopped_history r w) as [E1 _].
  destruct (recorder_recording r w); [|rewrite E1; auto].
  unfold stop_task. destruct (recorders (stopped r w) !! r) as [m|];
    [|rewrite E1; auto].
  destruct (ondataavailable_frame (final_data f) (stopped r w)) as (_ & F1 & _ & _).
  destruct (finalization f) eqn:Ef.
  - unfold onstop. rewrite Ef, F1, E1. auto.
  - unfold onstop. rewrite Ef, F1, E1. auto.
  - destruct (onstop_completes (mr_onstop_recordingTime m) f
                (ondataavailable (final_data f) (stopped r w)) Ef) as [G1 _].
    right. rewrite G1, F1, E1. eauto.
Qed.

(** [currentRecording] follows the head of the history. *)
Lemma stopRecording_current c f w :
  currentRecording w = head (recordings w) ->
  currentRecording (stopRecording c f w) = head (recordings (stopRecording c f w)).
Proof.
  intros Hc. unfold stopRecording.
  destruct (mediaRecorderRef w) as [r|]; [|auto].
  destruct (stop_isRecording c); [|auto].
  fold (stopped r w). destruct (stopped_history r w) as [E1 E2].
  destruct (recorder_recording r w); [|now rewrite E1, E2].
  unfold stop_task. destruct (recorders (stopped r w) !! r) as [m|];
    [|now rewrite E1, E2].
  destruct (ondataavailable_frame (final_data f) (stopped r w))
    as (_ & F1 & F2 & _).
  destruct (finalization f) eqn:Ef.
  - unfold onstop. now rewrite Ef, F1, F2, E1, E2.
  - unfold onstop. now rewrite Ef, F1, F2, E1, E2.
  - now destruct (onstop_completes (mr_onstop_recordingTime m) f
                    (ondataavailable (final_data f) (stopped r w)) Ef).
Qed.

Lemma stopRecording_count c f w :
  finalization f = Completes ->
  length (recordings w) = stopped_sessions w ->
  length (recordings (stopRecording c f w)) = stopped_sessions (stopRecording c f w).
Proof.
  intros Hf Hc. unfold stopRecording.
  destruct (mediaRecorderRef w) as [r|]; [|auto].
  destruct (stop_isRecording c); [|auto].
  fold (stopped r w). destruct (stopped_history r w) as [E1 _].
  pose proof (stopped_sessions_stopped r w) as Es.
  destruct (recorder_recording r w) eqn:Er.
  - unfold stop_task. destruct (recorders (stopped r w) !! r) as [m|] eqn:Em.
    + destruct (ondataavailable_frame (final_data f) (stopped r w))
        as (F0 & F1 & _ & _).
      destruct (onstop_completes (mr_onstop_recordingTime m) f
                  (ondataavailable (final_data f) (stopped r w)) Hf) as [G1 _].
      rewrite G1. unfold stopped_sessions in *.
      rewrite onstop_recorders, F0, F1, E1, Es. simpl. lia.
    + exfalso. unfold recorder_recording in Er.
      unfold stopped in Em. simpl in Em. rewrite stopTimer_recorders in Em.
      simpl in Em. rewrite list_lookup_alter_eq in Em.
      destruct (recorders w !! r); discriminate.
  - rewrite E1, Es. lia.
Qed.

Lemma startRecording_history c o w :
  recordings (startRecording c o w) = recordings w /\
  currentRecording (startRecording c o w) = currentRecording w /\
  stopped_sessions (startRecording c o w) = stopped_sessions w.
Proof.
  unfold stopped_sessions.
  destruct o as [|nv|nv na|nv na]; unfold startRecording, acquire, startTimer;
    simpl; repeat split; try reflexivity.
  rewrite List.filter_app, length_app. simpl. lia.
Qed.

Lemma handle_prepends e w :
  recordings (handle e w) = recordings w \/
  exists a, recordings (handle e w) = a :: recordings w.
Proof.
  destruct e as [f|o|t f|r d| |i]; simpl.
  - unfold click_main. destruct (isRecording w); [|auto].
    apply stopRecording_prepends.
  - unfold settle. destruct (suspended w) as [|c rest]; [auto|].
    destruct (startRecording_history c o (set_suspended rest w)) as (E1 & _).
    rewrite E1. auto.
  - unfold tick. destruct (intervals w !! t) as [iv|]; [|auto].
    destruct (cleared iv); [auto|]. unfold timer_callback.
    destruct (179 <=? recordingTime w); simpl; [|auto].
    apply stopRecording_prepends.
  - unfold data_available. destruct (recorder_recording r w); [|auto].
    destruct (ondataavailable_frame d w) as (_ & E1 & _). rewrite E1. auto.
  - unfold download_current, downloadRecording.
    destruct (currentRecording w); auto.
  - unfold download_history, downloadRecording.
    destruct (recordings w) as [|? [|? ?]] eqn:Er; rewrite ?Er; auto.
    destruct (drop 1 _ !! i); simpl; rewrite ?Er; auto.
Qed.

Lemma handle_current e w :
  currentRecording w = head (recordings w) ->
  currentRecording (handle e w) = head (recordings (handle e w)).
Proof.
  intros Hc. destruct e as [f|o|t f|r d| |i]; simpl.
  - unfold click_main. destruct (isRecording w); [|auto].
    now apply stopRecording_current.
  - unfold settle. destruct (suspended w) as [|c rest]; [auto|].
    destruct (startRecording_history c o (set_suspended rest w)) as (E1 & E2 & _).
    now rewrite E1, E2.
  - unfold tick. destruct (intervals w !! t) as [iv|]; [|auto].
    destruct (cleared iv); [auto|]. unfold timer_callback.
    destruct (179 <=? recordingTime w); simpl; [|auto].
    now apply stopRecording_current.
  - unfold data_available. destruct (recorder_recording r w); [|auto].
    destruct (ondataavailable_frame d w) as (_ & E1 & E2 & _). now rewrite E1, E2.
  - unfold download_current, downloadRecording.
    destruct (currentRecording w) eqn:E; simpl; rewrite ?E; auto.
  - unfold download_history, downloadRecording.
    destruct (recordings w) as [|? [|? ?]] eqn:E; rewrite ?E; auto.
    destruct (drop 1 _ !! i); simpl; rewrite ?E; auto.
Qed.

Lemma handle_count e w :
  completes e ->
  length (recordings w) = stopped_sessions w ->
  length (recordings (handle e w)) = stopped_sessions (handle e w).
Proof.
  intros He Hc. destruct e as [f|o|t f|r d| |i]; simpl in *.
  - unfold click_main. destruct (isRecording w); [|auto].
    now apply stopRecording_count.
  - unfold settle. destruct (suspended w) as [|c rest]; [auto|].
    destruct (startRecording_history c o (set_suspended rest w)) as (E1 & _ & E3).
    now rewrite E1, E3.
  - unfold tick. destruct (intervals w !! t) as [iv|]; [|auto].
    destruct (cleared iv); [auto|]. unfold timer_callback.
    destruct (179 <=? recordingTime w); simpl; [|auto].
    now apply (stopRecording_count (iv_stopRecording iv) f w He).
  - unfold data_available. destruct (recorder_recording r w); [|auto].
    unfold stopped_sessions.
    destruct (ondataavailable_frame d w) as (E0 & E1 & _). now rewrite E0, E1.
  - unfold download_current, downloadRecording.
    destruct (currentRecording w); auto.
  - unfold download_history, downloadRecording.
    destruct (recordings w) as [|? [|? ?]] eqn:Er; rewrite ?Er; auto.
    destruct (drop 1 _ !! i); simpl; rewrite ?Er; auto.
Qed.

Section HistoryRuns.
Variable ts : bool.

Lemma run_current es w :
  currentRecording w = head (recordings w) ->
  currentRecording (run ts es w) = head (recordings (run ts es w)).
Proof.
  revert w. induction es as [|e es IH]; intros w H; [assumption|].
  apply IH. exact (handle_current e w H).
Qed.

Lemma run_history_suffix es w :
  exists newer, recordings (run ts es w) = newer ++ recordings w.
Proof.
  revert w. induction es as [|e es IH]; intros w; [now exists []|].
  destruct (IH (step ts e w)) as [newer E].
  unfold run in *. simpl. rewrite E.
  destruct (handle_prepends e w) as [H|[a H]]; unfold step; simpl; rewrite H.
  - now exists newer.
  - exists (newer ++ [a]). now rewrite <- app_assoc.
Qed.

Lemma run_count es w :
  all_complete es = true ->
  length (recordings w) = stopped_sessions w ->
  length (recordings (run ts es w)) = stopped_sessions (run ts es w).
Proof.
  revert w. induction es as [|e es IH]; intros w Ha Hc; [assumption|].
  simpl in Ha. apply andb_prop in Ha as [He Ha].
  apply IH; [assumption|].
  apply (handle_count e w); [|assumption].
  unfold completes. destruct (flush_of e) as [f|]; [|exact I].
  now destruct (finalization f).
Qed.

End HistoryRuns.

(** ** File names *)

Lemma append_assoc (a b c : string) : ((a ++ b) ++ c = a ++ (b ++ c))%string.
Proof. induction a as [|ch a IH]; simpl; [reflexivity | now rewrite IH]. Qed.

Lemma length_append (a b : string) :
  String.length (a ++ b) = (String.length a + String.length b)%nat.
Proof. induction a as [|ch a IH]; simpl; [reflexivity | now rewrite IH]. Qed.

Lemma substring_prefix (a b : string) :
  String.substring 0 (String.length a) (a ++ b) = a.
Proof.
  induction a as [|ch a IH]; simpl.
  - now destruct b.
  - now rewrite IH.
Qed.

Lemma pad_length width n : String.length (pad width n) = width.
Proof.
  revert n. induction width as [|k IH]; intros n; simpl; [reflexivity|].
  rewrite length_append, IH. simpl. lia.
Qed.

Lemma iso_year_four_digits y : 0 <= y <= 9999 -> iso_year y = pad 4 y.
Proof.
  intros [H0 H1]. unfold iso_year.
  apply Z.leb_le in H0, H1. now rewrite H0, H1.
Qed.

Lemma iso8601_no_millis_length t : String.length (iso8601_no_millis t) = 19%nat.
Proof.
  unfold iso8601_no_millis. rewrite !length_append, !pad_length. reflexivity.
Qed.

Lemma toISOString_split t :
  0 <= YearFromTime t <= 9999 ->
  toISOString t = (iso8601_no_millis t ++ "." ++ pad 3 (msFromTime t) ++ "Z")%string.
Proof.
  intros Hy. unfold toISOString, iso8601_no_millis.
  rewrite (iso_year_four_digits _ Hy). now rewrite !append_assoc.
Qed.

Lemma slice_toISOString t :
  0 <= YearFromTime t <= 9999 ->
  slice0 19 (toISOString t) = iso8601_no_millis t.
Proof.
  intros Hy. rewrite (toISOString_split t Hy). unfold slice0.
  rewrite <- (iso8601_no_millis_length t) at 1. apply substring_prefix.
Qed.

(** The fields down to the second do not see the milliseconds. *)
Lemma whole_second t ms :
  0 <= ms < 1000 -> (1000 * t + ms) / 1000 = t.
Proof.
  intros H. rewrite Z.mul_comm, Z.div_add_l by lia.
  rewrite Z.div_small by lia. lia.
Qed.

Lemma iso8601_no_millis_of_second t ms :
  0 <= ms < 1000 ->
  iso8601_no_millis (1000 * t + ms) = iso8601_no_millis (1000 * t).
Proof.
  intros H.
  assert (Hd : Day (1000 * t + ms) = Day (1000 * t)).
  { unfold Day, msPerDay. change 86400000 with (1000 * 86400).
    rewrite <- !Z.div_div by lia.
    now rewrite whole_second, (Z.mul_comm 1000 t), Z.div_mul by lia. }
  assert (Hy : YearFromTime (1000 * t + ms) = YearFromTime (1000 * t)).
  { unfold YearFromTime. now rewrite Hd. }
  assert (Hl : InLeapYear (1000 * t + ms) = InLeapYear (1000 * t)).
  { unfold InLeapYear. now rewrite Hy. }
  assert (Hw : DayWithinYear (1000 * t + ms) = DayWithinYear (1000 * t)).
  { unfold DayWithinYear. now rewrite Hd, Hy. }
  assert (Hm : MonthFromTime (1000 * t + ms) = MonthFromTime (1000 * t)).
  { unfold MonthFromTime. now rewrite Hw, Hl. }
  assert (Hdt : DateFromTime (1000 * t + ms) = DateFromTime (1000 * t)).
  { unfold DateFromTime. now rewrite Hw, Hl, Hm. }
  assert (Hh : HourFromTime (1000 * t + ms) = HourFromTime (1000 * t)).
  { unfold HourFromTime. change 3600000 with (1000 * 3600).
    rewrite <- !Z.div_div by lia.
    now rewrite whole_second, (Z.mul_comm 1000 t), Z.div_mul by lia. }
  assert (Hmi : MinFromTime (1000 * t + ms) = MinFromTime (1000 * t)).
  { unfold MinFromTime. change 60000 with (1000 * 60).
    rewrite <- !Z.div_div by lia.
    now rewrite whole_second, (Z.mul_comm 1000 t), Z.div_mul by lia. }
  assert (Hs : SecFromTime (1000 * t + ms) = SecFromTime (1000 * t)).
  { unfold SecFromTime.
    now rewrite whole_second, (Z.mul_comm 1000 t), Z.div_mul by lia. }
  unfold iso8601_no_millis. now rewrite Hy, Hm, Hdt, Hh, Hmi, Hs.
Qed.

(** ** Reachable worlds *)

Section Reachable.
Variable ts : bool.

Lemma render_mount : render ts mount = mount.
Proof. destruct ts; reflexivity. Qed.

Lemma run_rendered es w : render ts w = w -> render ts (run ts es w) = run ts es w.
Proof.
  revert w. induction es as [|e es IH]; intros w H; [assumption|].
  apply IH. apply render_idem.
Qed.

Lemma run_stop_fresh es :
  stop_isRecording (stopRecordingCb (run ts es mount)) = isRecording (run ts es mount).
Proof.
  rewrite <- (run_rendered es mount render_mount) at 1.
  apply render_stop_fresh.
Qed.

(** The durations in the history never leave 0..180. *)
Lemma run_durations_capped es :
  Forall (fun r => 0 <= Recording.duration r <= 180) (recordings (run ts es mount)).
Proof. exact (ti_recordings _ (TimeInv_run ts es mount TimeInv_mount)). Qed.

End Reachable.

Lemma stopRecording_keeps_count c f w :
  length (recorders (stopRecording c f w)) = length (recorders w) /\
  suspended (stopRecording c f w) = suspended w.
Proof.
  unfold stopRecording.
  destruct (mediaRecorderRef w) as [r|]; [|auto].
  destruct (stop_isRecording c); [|auto].
  fold (stopped r w).
  assert (E : length (recorders (stopped r w)) = length (recorders w) /\
              suspended (stopped r w) = suspended w).
  { unfold stopped, stopTimer. destruct (timerRef _); simpl;
      now rewrite length_alter. }
  destruct (recorder_recording r w); [|assumption].
  unfold stop_task. destruct (recorders (stopped r w) !! r); [|assumption].
  rewrite onstop_recorders.
  destruct (ondataavailable_frame (final_data f) (stopped r w)) as (E0 & _).
  rewrite E0. split; [apply E|].
  unfold onstop, ondataavailable.
  destruct (finalization f), (0 <? _); simpl; try apply E;
    destruct (streamRef _); rewrite ?stop_tracks_eq; simpl; apply E.
Qed.

(** * The claims *)

(** C1.  The session that follows mounting is not stopped at the cap.  Its
    interval calls the [stopRecording] of the mounting render, whose
    [isRecording] is false, so the call does nothing: however many ticks
    arrive, the component still records, the recorder is still recording,
    the interval is still running and no artifact exists, while the counter
    stands at the smaller of the tick count and 180. *)
Theorem C1_first_session_outlives_the_cap
    (ts : bool) (f : Flush) (nv na : nat) (fs : list Flush) :
  let w := run ts (ClickMain f :: Settle (Started nv na) :: map (Tick 0) fs) mount in
  isRecording w = true /\
  recorder_recording 0 w = true /\
  live 0 w = true /\
  recordings w = [] /\
  recordingTime w = Z.min (Z.of_nat (length fs)) 180.
Proof.
  intros w.
  set (w0 := run ts [ClickMain f; Settle (Started nv na)] mount).
  assert (Ew : w = run ts (map (Tick 0) fs) w0).
  { unfold w, w0.
    change (ClickMain f :: Settle (Started nv na) :: map (Tick 0) fs)
      with ([ClickMain f; Settle (Started nv na)] ++ map (Tick 0) fs).
    apply run_app. }
  pose proof (FirstSession_ticks ts fs w0 (FirstSession_start ts f nv na))
    as [H1 H2 H3 [s H4] H5 H6 H7].
  rewrite <- Ew in *.
  repeat split; try assumption.
  - unfold recorder_recording. now rewrite H4.
  - unfold live. now rewrite H1.
  - rewrite Ew, ticks_counter.
    + reflexivity.
    + unfold capped. simpl. lia.
    + left. reflexivity.
Qed.

(** C2.  The duration written into an artifact is the counter that the
    [startRecording] closure captured when Start was clicked, not the
    seconds of the session.  The first session after mounting yields
    duration 0 whatever its length; sessions of 5 and 10 seconds yield the
    history durations [5; 0]; a second session that runs into the cap after
    a first of 5 seconds is stopped there with duration 5. *)
Theorem C2_duration_is_the_counter_at_the_click (ts : bool) :
  (forall f nv na fs f',
     map Recording.duration
         (recordings (run ts (ClickMain f :: Settle (Started nv na) ::
                              map (Tick 0) fs ++ [ClickMain f']) mount)) =
     match finalization f' with Completes => [0] | _ => [] end) /\
  map Recording.duration (recordings (run ts two_sessions mount)) = [5; 0] /\
  (let w := run true (second_unstopped 180) mount in
   isRecording w = false /\ recordingTime w = 180 /\
   map Recording.duration (recordings w) = [5; 0]).
Proof.
  split; [|split].
  - intros f nv na fs f'.
    set (w0 := run ts [ClickMain f; Settle (Started nv na)] mount).
    set (w1 := run ts (map (Tick 0) fs) w0).
    assert (E : run ts (ClickMain f :: Settle (Started nv na) ::
                        map (Tick 0) fs ++ [ClickMain f']) mount
                = step ts (ClickMain f') w1).
    { change (ClickMain f :: Settle (Started nv na) :: map (Tick 0) fs ++ [ClickMain f'])
        with ([ClickMain f; Settle (Started nv na)] ++
              map (Tick 0) fs ++ [ClickMain f']).
      now rewrite !run_app. }
    rewrite E.
    pose proof (FirstSession_ticks ts fs w0 (FirstSession_start ts f nv na))
      as [H1 H2 H3 [s H4] H5 H6 H7].
    fold w1 in H1, H2, H3, H4, H5, H6, H7.
    unfold step. simpl. unfold click_main. rewrite H2.
    destruct (finalization f') eqn:Hf.
    + rewrite (stop_fires_throws _ f' w1 0%nat _ H3 H7 H4 eq_refl)
        by (rewrite Hf; discriminate).
      destruct (ondataavailable_frame (final_data f') (stopped 0 w1)) as (_ & F1 & _).
      destruct (stopped_history 0 w1) as [S1 _]. now rewrite F1, S1, H5.
    + rewrite (stop_fires_throws _ f' w1 0%nat _ H3 H7 H4 eq_refl)
        by (rewrite Hf; discriminate).
      destruct (ondataavailable_frame (final_data f') (stopped 0 w1)) as (_ & F1 & _).
      destruct (stopped_history 0 w1) as [S1 _]. now rewrite F1, S1, H5.
    + rewrite (stop_fires_recordings _ f' w1 0%nat _ H3 H7 H4 eq_refl Hf).
      now rewrite H5.
  - destruct ts; vm_compute; reflexivity.
  - vm_compute. auto.
Qed.

(** C3 fails as stated: [startRecording] checks nothing.  Called while a
    session records, it starts a second recorder and a second interval
    beside the first; and two clicks on Start made before the platform has
    answered the first do the same through the button. *)
Lemma C3_second_start_is_not_refused :
  (let w := run true start_ok mount in
   isRecording w = true /\
   let w' := call_start true (Started 1 1) w in
   recorder_recording 0 w' = true /\ recorder_recording 1 w' = true /\
   live 0 w' = true /\ live 1 w' = true /\
   toasts w' = [toast_started; toast_started]) /\
  (let w := run true [ClickMain quiet; ClickMain quiet;
                      Settle (Started 1 1); Settle (Started 1 1)] mount in
   recorder_recording 0 w = true /\ recorder_recording 1 w = true).
Proof. vm_compute. repeat split; reflexivity. Qed.

(** C3, amended.  The only gate is the button, which shows Stop while
    [isRecording] holds: a click made then never starts a session.  When in
    addition no click is made while a start is still waiting for the
    platform, at most one recorder records and at most one interval runs,
    and only while [isRecording] holds. *)
Theorem C3_one_session_through_the_button (ts : bool) (es : list Event) :
  paced ts es mount = true ->
  let w := run ts es mount in
  (forall r r', recorder_recording r w = true -> recorder_recording r' w = true ->
                r = r') /\
  (forall t t', live t w = true -> live t' w = true -> t = t') /\
  (forall r, recorder_recording r w = true -> isRecording w = true) /\
  (forall t, live t w = true -> isRecording w = true) /\
  (isRecording w = true ->
   forall f, length (recorders (step ts (ClickMain f) w)) = length (recorders w) /\
             suspended (step ts (ClickMain f) w) = []).
Proof.
  intros Hp w.
  pose proof (Orderly_run ts es mount Orderly_mount Hp) as H. fold w in H.
  split; [|split; [|split; [|split]]].
  - intros r r' Hr Hr'.
    destruct (or_recorders w H r Hr) as [_ E], (or_recorders w H r' Hr') as [_ E'].
    congruence.
  - intros t t' Ht Ht'.
    destruct (or_intervals w H t Ht) as [_ E], (or_intervals w H t' Ht') as [_ E'].
    congruence.
  - intros r Hr. now destruct (or_recorders w H r Hr).
  - intros t Ht. now destruct (or_intervals w H t Ht).
  - intros Hrec f. unfold step. simpl. unfold click_main. rewrite Hrec.
    destruct (stopRecording_keeps_count (stopRecordingCb w) f w) as [E1 E2].
    split; [assumption|]. rewrite E2. now apply (or_suspended w H).
Qed.

Lemma C3_one_session_witness : isRecording (run true start_ok mount) = true.
Proof.
  exact (proj1 (proj2 (proj2 (C3_one_session_through_the_button
                                 true start_ok eq_refl)))
               0%nat eq_refl).
Defined.

(** C4 fails as stated: the abort is not clean.  The [catch] of
    [startRecording] releases nothing.  When the display was granted and the
    microphone is then refused, the track of the display stream is left
    live although the component is idle and no ref and no recorder holds
    it; two whole sessions later it still has not been stopped. *)
Lemma C4_display_stream_is_left_live :
  let w := run true [ClickMain quiet; Settle (AudioRejected 1)] mount in
  isRecording w = false /\
  streamRef w = None /\
  recorders w = [] /\
  tracks w = [mkTrack VideoTrack 0] /\
  tracks (run true two_sessions w) !! 0%nat = Some (mkTrack VideoTrack 0).
Proof. vm_compute. repeat split; reflexivity. Qed.

(** C4, amended.  When [getDisplayMedia] or [getUserMedia] rejects,
    [startRecording] starts nothing: [isRecording], the counter, the
    history, the refs, the recorders, the intervals and the object URLs are
    as before, and the destructive toast "Recording failed" is shown.  So a
    click on Start answered by a rejection leaves an idle component idle.
    The track table is as before when the display was refused; when the
    display was granted and the microphone refused, it has grown by the
    tracks of the display stream, none of them stopped. *)
Theorem C4_failed_acquisition_starts_nothing (ts : bool) :
  (forall c w,
     let w' := startRecording c DisplayRejected w in
     nothing_started w w' /\
     tracks w' = tracks w /\
     toasts w' = toasts w ++ [toast_failed]) /\
  (forall c w nv,
     let w' := startRecording c (AudioRejected nv) w in
     nothing_started w w' /\
     tracks w' = tracks w ++ replicate nv (mkTrack VideoTrack 0) /\
     toasts w' = toasts w ++ [toast_failed]) /\
  destructive toast_failed = true /\
  (forall w f o,
     isRecording w = false -> suspended w = [] -> acquisition_fails o = true ->
     let w' := run ts [ClickMain f; Settle o] w in
     nothing_started w w' /\
     isRecording w' = false /\
     suspended w' = [] /\
     toasts w' = toasts w ++ [toast_failed]).
Proof.
  split; [|split; [|split]].
  - intros c w. unfold nothing_started, startRecording, toast. simpl.
    repeat split; reflexivity.
  - intros c w nv. unfold nothing_started, startRecording, acquire, toast. simpl.
    repeat split; reflexivity.
  - reflexivity.
  - intros w f o Hi Hs Ho w'.
    unfold w', run, step. simpl. unfold click_main. rewrite Hi. simpl.
    unfold settle. simpl. rewrite Hs. simpl.
    destruct o as [|nv|nv na|nv na]; try discriminate;
      unfold nothing_started, startRecording, acquire, toast; simpl;
      rewrite ?Hi; repeat split; reflexivity.
Qed.

Lemma C4_failed_acquisition_witness :
  nothing_started mount (run true [ClickMain quiet; Settle (AudioRejected 1)] mount) /\
  isRecording (run true [ClickMain quiet; Settle (AudioRejected 1)] mount) = false /\
  suspended (run true [ClickMain quiet; Settle (AudioRejected 1)] mount) = [] /\
  toasts (run true [ClickMain quiet; Settle (AudioRejected 1)] mount) = [toast_failed].
Proof.
  exact (proj2 (proj2 (proj2 (C4_failed_acquisition_starts_nothing true)))
               mount quiet (AudioRejected 1) eq_refl eq_refl eq_refl).
Defined.

(** C5 fails as stated: [onstop] has no failure path.  When
    [URL.createObjectURL] throws, the handler ends before it reaches the
    clean-up, and the tracks of the stopped session are never stopped. *)
Lemma C5_tracks_stay_live_when_finalization_throws :
  let w := run true (start_ok ++ [ClickMain url_fails]) mount in
  isRecording w = false /\
  map mr_state (recorders w) = [Inactive] /\
  map stops (tracks w) = [0%nat; 0%nat] /\
  recordings w = [].
Proof. vm_compute. repeat split; reflexivity. Qed.

(** C5, amended.  While no click is made during a pending start: no track
    is ever stopped twice; the recorder a successful [startRecording]
    creates streams from every track the platform handed out; when the
    current recorder is stopped and the artifact construction completes,
    each track of its stream has been stopped exactly once; and when the
    construction throws, no track is stopped at all. *)
Theorem C5_tracks_released_once_when_finalization_completes
    (ts : bool) (es : list Event) :
  paced ts es mount = true ->
  let w := run ts es mount in
  Forall (fun t => (stops t <= 1)%nat) (tracks w) /\
  (forall c nv na,
     let w' := startRecording c (Started nv na) w in
     recorders w' !! length (recorders w) =
       Some (mkRecorder RecordingState (seq (length (tracks w)) (nv + na))
                        (start_recordingTime c)) /\
     length (tracks w') = (length (tracks w) + (nv + na))%nat) /\
  (forall r m c f,
     mediaRecorderRef w = Some r ->
     recorders w !! r = Some m ->
     mr_state m = RecordingState ->
     stop_isRecording c = true ->
     (finalization f = Completes ->
      forall i, In i (mr_stream m) ->
                exists k, tracks (stopRecording c f w) !! i = Some (mkTrack k 1)) /\
     (finalization f <> Completes ->
      tracks (stopRecording c f w) = tracks w)).
Proof.
  intros Hp w.
  pose proof (Orderly_run ts es mount Orderly_mount Hp) as H. fold w in H.
  split; [exact (or_tracks w H)|]. split.
  - intros c nv na w'.
    destruct (startRecording_started c nv na w)
      as (_ & _ & _ & E4 & _ & _ & _ & _ & E9 & _).
    fold w' in E4, E9. split.
    + rewrite E4. apply lookup_snoc_last.
    + rewrite E9, !length_app, !length_replicate. lia.
  - intros r m c f Hr Hm Hs Hc.
    assert (Hrec : recorder_recording r w = true).
    { unfold recorder_recording. now rewrite Hm, Hs. }
    destruct (or_recorders w H r Hrec) as [Hi _].
    destruct (or_active w H Hi) as (r0 & m0 & Hr0 & Hm0 & _ & Hstream & Hd & Hz).
    assert (r0 = r) by congruence. subst r0.
    assert (m0 = m) by congruence. subst m0.
    destruct (stopped_frame r w) as (_ & Hsr & Htr).
    assert (Hsr' : streamRef (ondataavailable (final_data f) (stopped r w))
                   = Some (mr_stream m)).
    { rewrite <- Hstream, <- Hsr. unfold ondataavailable. now destruct (0 <? _). }
    assert (Htr' : tracks (ondataavailable (final_data f) (stopped r w)) = tracks w).
    { rewrite <- Htr. unfold ondataavailable. now destruct (0 <? _). }
    split.
    + intros Hf i Hin.
      rewrite (stopRecording_fires c f w r m Hr Hc Hm Hs).
      unfold onstop. rewrite Hf. simpl. rewrite Hsr', stop_tracks_eq. simpl.
      rewrite Htr', stop_all_in by assumption.
      destruct (Hz i Hin) as [k Hk]. exists k. now rewrite Hk.
    + intros Hf. now rewrite (stop_fires_throws c f w r m Hr Hc Hm Hs Hf).
Qed.

Lemma C5_released_once_witness :
  exists k, tracks (stopRecording (mkStop true) quiet (run true start_ok mount))
              !! 1%nat = Some (mkTrack k 1).
Proof.
  refine (proj1 (proj2 (proj2 (C5_tracks_released_once_when_finalization_completes
                                  true start_ok eq_refl))
                   0%nat (mkRecorder RecordingState [0%nat; 1%nat] 0) (mkStop true)
                   quiet eq_refl eq_refl eq_refl eq_refl)
                eq_refl 1%nat _).
  simpl. right. left. reflexivity.
Defined.

(** C6 fails as stated: a session stopped with no data delivered still
    yields an artifact, of zero bytes. *)
Lemma C6_empty_payload_yields_an_artifact :
  let w := run true (start_ok ++ [ClickMain quiet]) mount in
  chunksRef w = [] /\
  map Recording.blob (recordings w) = [[]] /\
  map Recording.size (recordings w) = [0] /\
  option_map Recording.size (currentRecording w) = Some 0.
Proof. vm_compute. repeat split; reflexivity. Qed.

(** C6, amended.  A [stopRecording] that finds the current recorder
    recording, and whose artifact construction completes, puts exactly one
    artifact in front of the history, whatever was delivered: its payload is
    the concatenation of the chunks delivered, its size their total length,
    zero when nothing was delivered.  A [stopRecording] that finds the
    recorder inactive adds nothing. *)
Theorem C6_one_artifact_per_stop (c : StopClosure) (f : Flush) (w : World)
    (r : nat) (m : MediaRecorder) :
  mediaRecorderRef w = Some r ->
  stop_isRecording c = true ->
  recorders w !! r = Some m ->
  finalization f = Completes ->
  (mr_state m = RecordingState ->
   recordings (stopRecording c f w) =
     artifact (mr_onstop_recordingTime m) f w :: recordings w /\
   Recording.blob (artifact (mr_onstop_recordingTime m) f w) =
     new_Blob (delivered f w) /\
   Recording.size (artifact (mr_onstop_recordingTime m) f w) =
     Z.of_nat (length (concat (delivered f w))) /\
   (delivered f w = [] ->
    Recording.size (artifact (mr_onstop_recordingTime m) f w) = 0)) /\
  (mr_state m = Inactive ->
   recordings (stopRecording c f w) = recordings w).
Proof.
  intros Hr Hc Hm Hf. split.
  - intros Hs. split; [now apply (stop_fires_recordings c f w r m)|].
    split; [reflexivity|]. split; [reflexivity|].
    intros E. unfold artifact. simpl. now rewrite E.
  - intros Hs. rewrite (stopRecording_idle_recorder c f w r Hr Hc).
    + now destruct (stopped_history r w).
    + unfold recorder_recording. now rewrite Hm, Hs.
Qed.

Lemma C6_one_artifact_witness :
  recordings (stopRecording (mkStop true) quiet (run true start_ok mount)) =
  [artifact 0 quiet (run true start_ok mount)].
Proof.
  exact (proj1 (proj1 (C6_one_artifact_per_stop
                         (mkStop true) quiet (run true start_ok mount) 0%nat
                         (mkRecorder RecordingState [0%nat; 1%nat] 0)
                         eq_refl eq_refl eq_refl eq_refl) eq_refl)).
Defined.

(** C7.  In every world the component can reach, if [isRecording] is false
    then calling [stopRecording] leaves the whole world as it was: no
    artifact, no toast, no change of the counter, the history, the refs or
    any browser object. *)
Theorem C7_stop_when_idle_changes_nothing (ts : bool) (es : list Event) (f : Flush) :
  isRecording (run ts es mount) = false ->
  call_stop ts f (run ts es mount) = run ts es mount.
Proof.
  intros H. unfold call_stop.
  rewrite stopRecording_closed by now rewrite run_stop_fresh.
  apply run_rendered, render_mount.
Qed.

Lemma C7_stop_when_idle_witness :
  call_stop true quiet (run true (session 0 5) mount) = run true (session 0 5) mount.
Proof.
  exact (C7_stop_when_idle_changes_nothing true (session 0 5) quiet eq_refl).
Defined.

(** C8.  When every artifact construction completes, the history holds one
    entry per stopped session; [currentRecording] is always the head of the
    history; an event leaves the history as it is or puts exactly one
    artifact in front of it, so older artifacts keep their order behind
    newer ones; and the artifact a stop puts in front is the one built from
    that session's recorder and chunks. *)
Theorem C8_history_is_newest_first (ts : bool) (es : list Event) :
  all_complete es = true ->
  let w := run ts es mount in
  length (recordings w) = stopped_sessions w /\
  currentRecording w = head (recordings w) /\
  (forall e, recordings (step ts e w) = recordings w \/
             exists a, recordings (step ts e w) = a :: recordings w) /\
  (forall es', exists newer,
     recordings (run ts es' w) = newer ++ recordings w) /\
  (forall r m f,
     isRecording w = true ->
     mediaRecorderRef w = Some r ->
     recorders w !! r = Some m ->
     mr_state m = RecordingState ->
     finalization f = Completes ->
     let w' := step ts (ClickMain f) w in
     recordings w' = artifact (mr_onstop_recordingTime m) f w :: recordings w /\
     currentRecording w' = Some (artifact (mr_onstop_recordingTime m) f w)).
Proof.
  intros Ha w.
  assert (Hcur : forall es', currentRecording (run ts es' mount) =
                             head (recordings (run ts es' mount))).
  { intros es'. now apply run_current. }
  split; [now apply run_count|]. split; [apply Hcur|].
  split; [intros e; exact (handle_prepends e w)|].
  split; [intros es'; apply run_history_suffix|].
  intros r m f Hi Hr Hm Hs Hf w'.
  assert (E : recordings w' = artifact (mr_onstop_recordingTime m) f w :: recordings w).
  { unfold w', step. simpl. unfold click_main. rewrite Hi.
    apply (stop_fires_recordings _ f w r m Hr); try assumption.
    unfold w. now rewrite run_stop_fresh. }
  split; [assumption|].
  assert (Ew' : w' = run ts (es ++ [ClickMain f]) mount).
  { unfold w', w. now rewrite run_app. }
  rewrite Ew', Hcur, <- Ew', E. reflexivity.
Qed.

Lemma C8_history_witness :
  length (recordings (run true two_sessions mount)) = 2%nat /\
  currentRecording (run true two_sessions mount) =
  head (recordings (run true two_sessions mount)).
Proof.
  exact (conj (proj1 (C8_history_is_newest_first true two_sessions eq_refl))
              (proj1 (proj2 (C8_history_is_newest_first true two_sessions eq_refl)))).
Defined.

(** C9.  For an artifact whose timestamp falls in a year of four digits,
    [downloadRecording] saves under [screen-recording-] followed by the UTC
    timestamp in ISO 8601 without milliseconds and [.webm]; for a timestamp
    within the second 2025-01-02T03:04:05 the name is
    [screen-recording-2025-01-02T03:04:05.webm]. *)
Theorem C9_download_filename (r : Recording.t) :
  (0 <= YearFromTime (Recording.timestamp r) <= 9999 ->
   download_filename r =
     ("screen-recording-" ++ iso8601_no_millis (Recording.timestamp r) ++ ".webm")%string /\
   forall w, saved (downloadRecording r w) = saved w ++ [download_filename r]) /\
  (forall ms, 0 <= ms < 1000 ->
     Recording.timestamp r = 1735787045000 + ms ->
     download_filename r = "screen-recording-2025-01-02T03:04:05.webm"%string).
Proof.
  split.
  - intros Hy. split; [|reflexivity].
    unfold download_filename. now rewrite slice_toISOString.
  - intros ms Hms E. unfold download_filename. rewrite E.
    change 1735787045000 with (1000 * 1735787045).
    assert (Hn : iso8601_no_millis (1000 * 1735787045 + ms) = "2025-01-02T03:04:05"%string).
    { rewrite iso8601_no_millis_of_second by assumption. vm_compute. reflexivity. }
    rewrite slice_toISOString; [now rewrite Hn|].
    assert (Hy : YearFromTime (1000 * 1735787045 + ms) = 2025).
    { unfold YearFromTime.
      assert (Hd : Day (1000 * 1735787045 + ms) = 20090).
      { unfold Day, msPerDay. change 86400000 with (1000 * 86400).
        rewrite <- Z.div_div by lia. rewrite whole_second by assumption.
        reflexivity. }
      rewrite Hd. vm_compute. reflexivity. }
    rewrite Hy. lia.
Qed.

Lemma C9_download_filename_witness :
  download_filename (Recording.mk "1735787045123" [] 0 5 1735787045123 0) =
  "screen-recording-2025-01-02T03:04:05.webm"%string.
Proof.
  refine (proj2 (C9_download_filename
                   (Recording.mk "1735787045123" [] 0 5 1735787045123 0))
                123 _ eq_refl).
  lia.
Defined.

(** C10.  The interval callback sets the counter to 180 once it has reached
    179 and to one more before that, whatever its [stopRecording] call
    does; from 0, ticks of a running interval count 1, 2, ... up to 180 and
    stay there; and in every reachable world the counter lies between 0 and
    180. *)
Theorem C10_counter_never_exceeds_the_cap (ts : bool) :
  (forall c f w,
     recordingTime (timer_callback c f w) =
     if 179 <=? recordingTime w then 180 else recordingTime w + 1) /\
  (forall t fs w,
     live t w = true -> recordingTime w = 0 ->
     recordingTime (run ts (map (Tick t) fs) w) = Z.min (Z.of_nat (length fs)) 180) /\
  (forall es, 0 <= recordingTime (run ts es mount) <= 180).
Proof.
  split; [exact timer_callback_recordingTime|]. split.
  - intros t fs w Hl H0. rewrite ticks_counter.
    + now rewrite H0.
    + unfold capped. lia.
    + now left.
  - intros es. exact (ti_counter _ (TimeInv_run ts es mount TimeInv_mount)).
Qed.

Lemma C10_counter_witness :
  recordingTime (run true (map (Tick 0) (replicate 200 quiet)) (run true start_ok mount))
  = 180.
Proof.
  exact (proj1 (proj2 (C10_counter_never_exceeds_the_cap true))
               0%nat (replicate 200 quiet) (run true start_ok mount)
               eq_refl eq_refl).
Defined.

Lemma stopped_objectURLs r w : objectURLs (stopped r w) = objectURLs w.
Proof. unfold stopped, stopTimer. now destruct (timerRef _). Qed.

Lemma onstop_shape d f w : history_step (Some f) w (onstop d f w).
Proof.
  unfold onstop. destruct (finalization f) eqn:Ef; try (left; split; reflexivity).
  right. exists f. eexists. split; [reflexivity|]. split; [assumption|].
  simpl. destruct (streamRef w); rewrite ?stop_tracks_eq; simpl;
    repeat split; reflexivity.
Qed.

Lemma stopRecording_shape c f w : history_step (Some f) w (stopRecording c f w).
Proof.
  unfold stopRecording.
  destruct (mediaRecorderRef w) as [r|]; [|left; split; reflexivity].
  destruct (stop_isRecording c); [|left; split; reflexivity].
  fold (stopped r w).
  destruct (stopped_history r w) as [E1 _].
  pose proof (stopped_objectURLs r w) as E2.
  destruct (recorder_recording r w); [|left; split; assumption].
  unfold stop_task. destruct (recorders (stopped r w) !! r) as [m|];
    [|left; split; assumption].
  set (w1 := ondataavailable (final_data f) (stopped r w)).
  assert (F : recordings w1 = recordings w /\ objectURLs w1 = objectURLs w).
  { unfold w1, ondataavailable. destruct (0 <? _); (split; [exact E1 | exact E2]). }
  destruct F as [F1 F2].
  destruct (onstop_shape (mr_onstop_recordingTime m) f w1) as [[G1 G2]|H].
  - left. split; congruence.
  - destruct H as (f0 & a & H1 & H2 & H3 & H4 & H5 & H6 & H7 & H8).
    right. exists f0, a. rewrite H3, H4, H5, F1, F2. repeat split; assumption.
Qed.

Lemma handle_shape e w : history_step (flush_of e) w (handle e w).
Proof.
  destruct e as [f|o|t f|r d| |i]; simpl.
  - unfold click_main. destruct (isRecording w).
    + apply stopRecording_shape.
    + left. split; reflexivity.
  - unfold settle. destruct (suspended w) as [|c rest]; [left; split; reflexivity|].
    left. destruct o; unfold startRecording, acquire, startTimer; simpl;
      split; reflexivity.
  - unfold tick. destruct (intervals w !! t) as [iv|]; [|left; split; reflexivity].
    destruct (cleared iv); [left; split; reflexivity|]. unfold timer_callback.
    destruct (179 <=? recordingTime w); simpl; [|left; split; reflexivity].
    apply stopRecording_shape.
  - unfold data_available, ondataavailable.
    destruct (recorder_recording r w); [|left; split; reflexivity].
    destruct (0 <? _); left; split; reflexivity.
  - unfold download_current, downloadRecording.
    destruct (currentRecording w); left; split; reflexivity.
  - unfold download_history, downloadRecording.
    destruct (recordings w) as [|? [|? ?]] eqn:Er; rewrite ?Er;
      try (left; split; reflexivity).
    destruct (drop 1 _ !! i); simpl; rewrite ?Er; left; split; reflexivity.
Qed.

Lemma Number_toString_inj a b : Number_toString a = Number_toString b -> a = b.
Proof.
  unfold Number_toString. intros H.
  assert (Hn : forall z, Z.to_int z <> Decimal.Pos Decimal.Nil /\
                         Z.to_int z <> Decimal.Neg Decimal.Nil).
  { intros [|p|p]; simpl; split; try discriminate;
      intros [= E]; now apply (Unsigned.to_uint_nonnil p). }
  apply DecimalZ.to_int_inj.
  destruct (Hn a) as [Ha1 Ha2], (Hn b) as [Hb1 Hb2].
  pose proof (NilZero.isi _ Ha1 Ha2) as Ea.
  pose proof (NilZero.isi _ Hb1 Hb2) as Eb.
  rewrite H in Ea. congruence.
Qed.

Section HistoryShape.
Variable ts : bool.

Lemma step_shape e w : history_step (flush_of e) w (step ts e w).
Proof. exact (handle_shape e w). Qed.

Lemma run_urls es w :
  objectURLs w = length (recordings w) ->
  map Recording.url (recordings w) = rev (seq 0 (length (recordings w))) ->
  objectURLs (run ts es w) = length (recordings (run ts es w)) /\
  map Recording.url (recordings (run ts es w)) =
    rev (seq 0 (length (recordings (run ts es w)))).
Proof.
  revert w. induction es as [|e es IH]; intros w H1 H2; [now split|].
  apply IH; destruct (step_shape e w) as [[E1 E2]|(f0 & a & _ & _ & E1 & E2 & E3 & _)];
    rewrite ?E1, ?E2; try assumption.
  - simpl. now rewrite H1.
  - simpl length. rewrite seq_S, rev_app_distr. simpl. now rewrite E3, H1, H2.
Qed.

Lemma run_sizes es w :
  Forall (fun a => Recording.size a = Blob_size (Recording.blob a)) (recordings w) ->
  Forall (fun a => Recording.size a = Blob_size (Recording.blob a))
         (recordings (run ts es w)).
Proof.
  revert w. induction es as [|e es IH]; intros w H; [assumption|].
  apply IH.
  destruct (step_shape e w) as [[E1 _]|(f0 & a & _ & _ & E1 & _ & _ & _ & _ & E4)];
    rewrite E1; [assumption | now constructor].
Qed.

End HistoryShape.

(** ** What is displayed *)

Lemma two_digits n : 0 <= n < 100 -> padStart 2 "0" (Number_toString n) = pad 2 n.
Proof.
  intros H.
  assert (A : forallb (fun k => String.eqb (padStart 2 "0" (Number_toString (Z.of_nat k)))
                                           (pad 2 (Z.of_nat k)))
                      (seq 0 100) = true) by (vm_compute; reflexivity).
  rewrite forallb_forall in A.
  specialize (A (Z.to_nat n)). rewrite Z2Nat.id in A by lia.
  apply String.eqb_eq, A, in_seq. lia.
Qed.

Lemma formatTime_digits s :
  0 <= s < 6000 ->
  formatTime s = (pad 2 (s / 60) ++ ":" ++ pad 2 (s mod 60))%string.
Proof.
  intros H. unfold formatTime.
  rewrite Z.rem_mod_nonneg by lia.
  pose proof (Z.mod_pos_bound s 60 ltac:(lia)) as Hm.
  assert (Hd : 0 <= s / 60 < 100)
    by (split; [apply Z.div_pos; lia | apply Z.div_lt_upper_bound; lia]).
  rewrite !two_digits by lia. reflexivity.
Qed.

Lemma formatTime_length s : 0 <= s < 6000 -> String.length (formatTime s) = 5%nat.
Proof.
  intros H. rewrite formatTime_digits by assumption.
  now rewrite !length_append, !pad_length.
Qed.

Lemma size_tenths_bounds b :
  0 <= b ->
  0 <= size_tenths b /\
  2097152 * size_tenths b <= 20 * b + 1048576 < 2097152 * size_tenths b + 2097152.
Proof.
  intros H. unfold size_tenths.
  pose proof (Z.div_mod (20 * b + 1048576) 2097152 ltac:(lia)) as E.
  pose proof (Z.mod_pos_bound (20 * b + 1048576) 2097152 ltac:(lia)) as M.
  split; [apply Z.div_pos; lia | lia].
Qed.

(** ** Chunks *)

Lemma concat_nonempty (ds : list Blob) :
  concat (List.filter (fun d => 0 <? Blob_size d) ds) = concat ds.
Proof.
  induction ds as [|d ds IH]; [reflexivity|]. simpl.
  destruct (0 <? Blob_size d) eqn:E; simpl; rewrite IH; [reflexivity|].
  apply Z.ltb_ge in E. unfold Blob_size in E. destruct d; [reflexivity|].
  simpl in E. lia.
Qed.

Lemma Blob_size_concat (ds : list Blob) : Blob_size (concat ds) = total_size ds.
Proof.
  unfold total_size, Blob_size. induction ds as [|d ds IH]; [reflexivity|].
  simpl. rewrite length_app, Nat2Z.inj_add, IH. reflexivity.
Qed.

Section Delivery.
Variable ts : bool.

Lemma render_frame w :
  isRecording (render ts w) = isRecording w /\
  recordingTime (render ts w) = recordingTime w /\
  mediaRecorderRef (render ts w) = mediaRecorderRef w /\
  recorders (render ts w) = recorders w /\
  chunksRef (render ts w) = chunksRef w /\
  recordings (render ts w) = recordings w /\
  intervals (render ts w) = intervals w /\
  timerRef (render ts w) = timerRef w /\
  tracks (render ts w) = tracks w /\
  streamRef (render ts w) = streamRef w.
Proof. repeat split; reflexivity. Qed.

Lemma step_data r d w :
  recorder_recording r w = true ->
  let w' := step ts (DataAvailable r d) w in
  chunksRef w' = chunksRef w ++ List.filter (fun d => 0 <? Blob_size d) [d] /\
  isRecording w' = isRecording w /\
  mediaRecorderRef w' = mediaRecorderRef w /\
  recorders w' = recorders w /\
  recordings w' = recordings w /\
  objectURLs w' = objectURLs w.
Proof.
  intros H w'. unfold w', step. simpl. unfold data_available. rewrite H.
  unfold ondataavailable. simpl.
  destruct (0 <? Blob_size d); simpl; rewrite ?app_nil_r; repeat split; reflexivity.
Qed.

Lemma run_data r ds w :
  recorder_recording r w = true ->
  let w' := run ts (map (DataAvailable r) ds) w in
  chunksRef w' = chunksRef w ++ List.filter (fun d => 0 <? Blob_size d) ds /\
  isRecording w' = isRecording w /\
  mediaRecorderRef w' = mediaRecorderRef w /\
  recorders w' = recorders w /\
  recordings w' = recordings w /\
  objectURLs w' = objectURLs w.
Proof.
  revert w. induction ds as [|d ds IH]; intros w H.
  - simpl. rewrite app_nil_r. repeat split; reflexivity.
  - destruct (step_data r d w H) as (E1 & E2 & E3 & E4 & E5 & E6).
    assert (H' : recorder_recording r (step ts (DataAvailable r d) w) = true).
    { unfold recorder_recording in *. now rewrite E4. }
    destruct (IH _ H') as (F1 & F2 & F3 & F4 & F5 & F6).
    simpl map. unfold run in *. simpl fold_left.
    rewrite F1, F2, F3, F4, F5, F6, E1, E2, E3, E4, E5, E6.
    repeat split; try reflexivity.
    rewrite <- app_assoc. f_equal. simpl.
    now destruct (0 <? Blob_size d).
Qed.

Lemma rendered_stop_fresh es w :
  stop_isRecording (stopRecordingCb (run ts es (render ts w))) =
  isRecording (run ts es (render ts w)).
Proof.
  rewrite <- (run_rendered ts es (render ts w) (render_idem ts w)) at 1.
  apply render_stop_fresh.
Qed.

End Delivery.

(** ** What the refs no longer name *)

Lemma stopTimer_frame w :
  tracks (stopTimer w) = tracks w /\ streamRef (stopTimer w) = streamRef w /\
  toasts (stopTimer w) = toasts w /\ isRecording (stopTimer w) = isRecording w /\
  mediaRecorderRef (stopTimer w) = mediaRecorderRef w.
Proof. unfold stopTimer. now destruct (timerRef w). Qed.

Lemma stopRecording_tracks c f w :
  (tracks (stopRecording c f w) = tracks w /\
   streamRef (stopRecording c f w) = streamRef w) \/
  (exists s, streamRef w = Some s /\
             tracks (stopRecording c f w) = stop_all s (tracks w) /\
             streamRef (stopRecording c f w) = None).
Proof.
  unfold stopRecording.
  destruct (mediaRecorderRef w) as [r|]; [|now left].
  destruct (stop_isRecording c); [|now left].
  fold (stopped r w). destruct (stopped_frame r w) as (_ & E1 & E2).
  destruct (recorder_recording r w); [|now left].
  unfold stop_task. destruct (recorders (stopped r w) !! r) as [m|]; [|now left].
  set (w1 := ondataavailable (final_data f) (stopped r w)).
  assert (F : streamRef w1 = streamRef w /\ tracks w1 = tracks w).
  { unfold w1, ondataavailable. destruct (0 <? _); (split; [exact E1 | exact E2]). }
  destruct F as [F1 F2]. clearbody w1.
  unfold onstop. destruct (finalization f); try (left; split; assumption).
  simpl. destruct (streamRef w1) as [s|] eqn:Es.
  - right. exists s. rewrite stop_tracks_eq. simpl.
    repeat split; [congruence | now rewrite F2].
  - left. simpl. split; [assumption | congruence].
Qed.

Lemma startRecording_tracks c o w :
  exists n, tracks (startRecording c o w) = tracks w ++ n /\
            (streamRef (startRecording c o w) = streamRef w \/
             streamRef (startRecording c o w) =
               Some (seq (length (tracks w)) (length n))).
Proof.
  destruct o as [|nv|nv na|nv na].
  - exists []. simpl. rewrite app_nil_r. auto.
  - eexists. unfold startRecording, acquire. simpl. split; [reflexivity | auto].
  - exists (replicate nv (mkTrack VideoTrack 0) ++ replicate na (mkTrack AudioTrack 0)).
    unfold startRecording, acquire. simpl.
    rewrite !length_app, !length_replicate.
    erewrite combined_stream by reflexivity.
    split; [symmetry; apply app_assoc | auto].
  - destruct (startRecording_started c nv na w)
      as (_ & _ & _ & _ & E5 & _ & _ & _ & E9 & _).
    exists (replicate nv (mkTrack VideoTrack 0) ++ replicate na (mkTrack AudioTrack 0)).
    rewrite !length_app, !length_replicate.
    split; [rewrite E9; symmetry; apply app_assoc | auto].
Qed.

Lemma beyond_stream_stopRecording i c f w :
  beyond_stream i w ->
  beyond_stream i (stopRecording c f w) /\
  tracks (stopRecording c f w) !! i = tracks w !! i.
Proof.
  intros [Hl Hs].
  destruct (stopRecording_tracks c f w) as [[E1 E2]|(s & Es & E1 & E2)];
    unfold beyond_stream; rewrite E1, E2.
  - auto.
  - rewrite stop_all_length. repeat split; [assumption | discriminate |].
    apply stop_all_notin. now apply Hs.
Qed.

Lemma beyond_stream_startRecording i c o w :
  beyond_stream i w ->
  beyond_stream i (startRecording c o w) /\
  tracks (startRecording c o w) !! i = tracks w !! i.
Proof.
  intros [Hl Hs].
  destruct (startRecording_tracks c o w) as (n & E1 & E2).
  unfold beyond_stream. rewrite E1, length_app. split; [split|].
  - lia.
  - destruct E2 as [E2|E2]; rewrite E2; [assumption|].
    intros s [= <-] Hin. apply in_seq in Hin. lia.
  - now apply lookup_app_l.
Qed.

Lemma beyond_stream_handle i e w :
  beyond_stream i w ->
  beyond_stream i (handle e w) /\ tracks (handle e w) !! i = tracks w !! i.
Proof.
  intros H. destruct e as [f|o|t f|r d| |j]; simpl.
  - unfold click_main. destruct (isRecording w); [|auto].
    now apply beyond_stream_stopRecording.
  - unfold settle. destruct (suspended w) as [|c rest]; [auto|].
    now apply (beyond_stream_startRecording i c o (set_suspended rest w)).
  - unfold tick. destruct (intervals w !! t) as [iv|]; [|auto].
    destruct (cleared iv); [auto|]. unfold timer_callback.
    destruct (179 <=? recordingTime w); [|auto].
    now apply (beyond_stream_stopRecording i (iv_stopRecording iv) f w).
  - unfold data_available, ondataavailable.
    destruct (recorder_recording r w); [|auto]. destruct (0 <? _); auto.
  - unfold download_current, downloadRecording.
    destruct (currentRecording w); auto.
  - unfold download_history, downloadRecording.
    destruct (recordings w) as [|? [|? ?]] eqn:Er; rewrite ?Er; auto.
    destruct (drop 1 _ !! j); auto.
Qed.

Lemma beyond_stream_run ts i es w :
  beyond_stream i w ->
  tracks (run ts es w) !! i = tracks w !! i.
Proof.
  revert w. induction es as [|e es IH]; intros w H; [reflexivity|].
  destruct (beyond_stream_handle i e w H) as [H1 H2].
  unfold run in *. simpl. rewrite (IH (step ts e w)); [exact H2 | exact H1].
Qed.

(** The stream in [streamRef] only holds tracks that exist. *)
Lemma stream_in_table_handle e w :
  (forall s i, streamRef w = Some s -> In i s -> (i < length (tracks w))%nat) ->
  forall s i, streamRef (handle e w) = Some s -> In i s ->
              (i < length (tracks (handle e w)))%nat.
Proof.
  intros H.
  assert (Hstop : forall c f s i, streamRef (stopRecording c f w) = Some s -> In i s ->
                                  (i < length (tracks (stopRecording c f w)))%nat).
  { intros c f s i.
    destruct (stopRecording_tracks c f w) as [[E1 E2]|(s0 & Es & E1 & E2)];
      rewrite E1, E2; [apply H | discriminate]. }
  destruct e as [f|o|t f|r d| |j]; simpl.
  - unfold click_main. destruct (isRecording w); [apply Hstop | apply H].
  - unfold settle. destruct (suspended w) as [|c rest]; [apply H|].
    destruct (startRecording_tracks c o (set_suspended rest w)) as (n & E1 & E2).
    change (tracks (set_suspended rest w)) with (tracks w) in E1, E2.
    change (streamRef (set_suspended rest w)) with (streamRef w) in E2.
    rewrite E1, length_app. intros s i.
    destruct E2 as [E2|E2]; rewrite E2.
    + intros Hs Hi. pose proof (H s i Hs Hi). lia.
    + intros [= <-] Hi. apply in_seq in Hi. simpl in Hi. lia.
  - unfold tick. destruct (intervals w !! t) as [iv|]; [|apply H].
    destruct (cleared iv); [apply H|]. unfold timer_callback.
    destruct (179 <=? recordingTime w); [apply Hstop | apply H].
  - unfold data_available, ondataavailable.
    destruct (recorder_recording r w); [|apply H]. destruct (0 <? _); apply H.
  - unfold download_current, downloadRecording.
    destruct (currentRecording w); apply H.
  - unfold download_history, downloadRecording.
    destruct (recordings w) as [|? [|? ?]] eqn:Er; rewrite ?Er; try apply H.
    destruct (drop 1 _ !! j); apply H.
Qed.

Lemma stream_in_table_run ts es :
  forall s i, streamRef (run ts es mount) = Some s -> In i s ->
              (i < length (tracks (run ts es mount)))%nat.
Proof.
  assert (G : forall es w,
            (forall s i, streamRef w = Some s -> In i s -> (i < length (tracks w))%nat) ->
            forall s i, streamRef (run ts es w) = Some s -> In i s ->
                        (i < length (tracks (run ts es w)))%nat).
  { clear es. induction es as [|e es IH]; intros w H; [exact H|].
    apply (IH (step ts e w)). exact (stream_in_table_handle e w H). }
  apply G. intros s i [=].
Qed.

Lemma stopRecording_refs c f w :
  mediaRecorderRef (stopRecording c f w) = mediaRecorderRef w /\
  (recorders (stopRecording c f w) = recorders w \/
   exists r0, mediaRecorderRef w = Some r0 /\
              recorder_recording r0 (stopRecording c f w) = false /\
              forall r, r <> r0 ->
                recorder_recording r (stopRecording c f w) = recorder_recording r w) /\
  (timerRef (stopRecording c f w) = timerRef w \/
   timerRef (stopRecording c f w) = None) /\
  (forall t, timerRef w <> Some t -> live t (stopRecording c f w) = live t w).
Proof.
  assert (On : forall d w0,
            mediaRecorderRef (onstop d f w0) = mediaRecorderRef w0 /\
            recorders (onstop d f w0) = recorders w0 /\
            timerRef (onstop d f w0) = timerRef w0 /\
            intervals (onstop d f w0) = intervals w0).
  { intros d w0. unfold onstop. destruct (finalization f); auto. simpl.
    destruct (streamRef w0); rewrite ?stop_tracks_eq; simpl; auto. }
  assert (Od : forall d w0,
            mediaRecorderRef (ondataavailable d w0) = mediaRecorderRef w0 /\
            recorders (ondataavailable d w0) = recorders w0 /\
            timerRef (ondataavailable d w0) = timerRef w0 /\
            intervals (ondataavailable d w0) = intervals w0).
  { intros d w0. unfold ondataavailable. destruct (0 <? _); auto. }
  assert (St : forall r,
            mediaRecorderRef (stopped r w) = mediaRecorderRef w /\
            recorders (stopped r w) = recorders (recorder_inactivate r w) /\
            timerRef (stopped r w) = None /\
            (forall t, timerRef w <> Some t -> live t (stopped r w) = live t w)).
  { intros r. unfold stopped, stopTimer. simpl.
    destruct (timerRef w) as [t0|] eqn:Et; simpl.
    - split; [reflexivity|]. split; [reflexivity|]. split; [reflexivity|].
      intros t Ht.
      change (live t (clearInterval t0 (set_isRecording false (recorder_inactivate r w)))
              = live t w).
      rewrite live_clearInterval. destruct (Nat.eqb_spec t0 t); [congruence|reflexivity].
    - split; [reflexivity|]. split; [reflexivity|]. split; [exact Et|].
      intros t Ht. reflexivity. }
  unfold stopRecording.
  destruct (mediaRecorderRef w) as [r|] eqn:Er; [|auto 6].
  destruct (stop_isRecording c); [|rewrite Er; auto 6].
  fold (stopped r w). destruct (St r) as (S1 & S2 & S3 & S4).
  assert (Hfin : forall w', mediaRecorderRef w' = mediaRecorderRef (stopped r w) ->
                   recorders w' = recorders (stopped r w) ->
                   timerRef w' = timerRef (stopped r w) ->
                   intervals w' = intervals (stopped r w) ->
    mediaRecorderRef w' = Some r /\
    (recorders w' = recorders w \/
     exists r0, Some r = Some r0 /\ recorder_recording r0 w' = false /\
                forall r1, r1 <> r0 -> recorder_recording r1 w' = recorder_recording r1 w) /\
    (timerRef w' = timerRef w \/ timerRef w' = None) /\
    (forall t, timerRef w <> Some t -> live t w' = live t w)).
  { intros w' A1 A2 A3 A4. split; [congruence|]. split; [|split].
    - right. exists r. split; [reflexivity|].
      assert (Hrr : forall r1, recorder_recording r1 w' =
                               recorder_recording r1 (recorder_inactivate r w)).
      { intros r1. unfold recorder_recording. now rewrite A2, S2. }
      split.
      + rewrite Hrr, recorder_recording_inactivate. now rewrite Nat.eqb_refl.
      + intros r1 Hne. rewrite Hrr, recorder_recording_inactivate.
        destruct (Nat.eqb_spec r r1); [congruence | reflexivity].
    - right. congruence.
    - intros t Ht. rewrite <- (S4 t Ht). unfold live. now rewrite A4. }
  destruct (recorder_recording r w).
  - unfold stop_task. destruct (recorders (stopped r w) !! r) as [m|]; [|now apply Hfin].
    destruct (On (mr_onstop_recordingTime m) (ondataavailable (final_data f) (stopped r w)))
      as (O1 & O2 & O3 & O4).
    destruct (Od (final_data f) (stopped r w)) as (D1 & D2 & D3 & D4).
    apply Hfin; congruence.
  - now apply Hfin.
Qed.

Lemma startRecording_refs c o w :
  (forall r, recorder_recording r w = true ->
             recorder_recording r (startRecording c o w) = true /\
             (mediaRecorderRef w <> Some r ->
              mediaRecorderRef (startRecording c o w) <> Some r)) /\
  (forall t, live t w = true ->
             live t (startRecording c o w) = true /\
             (timerRef w <> Some t -> timerRef (startRecording c o w) <> Some t)).
Proof.
  destruct o as [|nv|nv na|nv na];
    [ unfold startRecording, acquire, recorder_recording, live in *; simpl;
      split; intros x Hx; split; auto .. | ].
  destruct (startRecording_started c nv na w)
    as (_ & _ & E3 & E4 & _ & _ & E7 & E8 & _).
  split.
  - intros r Hr. unfold recorder_recording in *. rewrite E3, E4.
    destruct (recorders w !! r) as [m|] eqn:Em; [|discriminate].
    pose proof (lookup_lt_Some _ _ _ Em) as Hlt.
    rewrite lookup_app_l, Em by assumption. split; [assumption|].
    intros _ [= E]. lia.
  - intros t Ht. unfold live in *. rewrite E7, E8.
    destruct (intervals w !! t) as [iv|] eqn:Eiv; [|discriminate].
    pose proof (lookup_lt_Some _ _ _ Eiv) as Hlt.
    rewrite lookup_app_l, Eiv by assumption. split; [assumption|].
    intros _ [= E]. lia.
Qed.

Lemma orphans_handle e r t w :
  orphan_recorder r w -> orphan_interval t w ->
  orphan_recorder r (handle e w) /\ orphan_interval t (handle e w).
Proof.
  intros [Hr1 Hr2] [Ht1 Ht2].
  assert (Hstop : forall c f, orphan_recorder r (stopRecording c f w) /\
                              orphan_interval t (stopRecording c f w)).
  { intros c f. destruct (stopRecording_refs c f w) as (A1 & A2 & A3 & A4).
    unfold orphan_recorder, orphan_interval. rewrite A1, (A4 t Ht2).
    repeat split; try assumption.
    - destruct A2 as [A2|(r0 & B1 & _ & B3)].
      + unfold recorder_recording in *. now rewrite A2.
      + rewrite B3; [assumption | congruence].
    - destruct A3 as [A3|A3]; rewrite A3; [assumption | discriminate]. }
  destruct e as [f|o|t0 f|r0 d| |j]; simpl.
  - unfold click_main. destruct (isRecording w); [apply Hstop|].
    split; split; assumption.
  - unfold settle. destruct (suspended w) as [|c rest]; [split; split; assumption|].
    destruct (startRecording_refs c o (set_suspended rest w)) as [B1 B2].
    destruct (B1 r Hr1) as [C1 C2], (B2 t Ht1) as [C3 C4].
    split; split; auto.
  - unfold tick. destruct (intervals w !! t0) as [iv|]; [|split; split; assumption].
    destruct (cleared iv); [split; split; assumption|]. unfold timer_callback.
    destruct (179 <=? recordingTime w); [|split; split; assumption].
    destruct (Hstop (iv_stopRecording iv) f) as [[D1 D2] [D3 D4]].
    split; split; assumption.
  - unfold data_available, ondataavailable.
    destruct (recorder_recording r0 w); [|split; split; assumption].
    destruct (0 <? _); split; split; assumption.
  - unfold download_current, downloadRecording.
    destruct (currentRecording w); split; split; assumption.
  - unfold download_history, downloadRecording.
    destruct (recordings w) as [|? [|? ?]] eqn:Er; rewrite ?Er;
      try (split; split; assumption).
    destruct (drop 1 _ !! j); split; split; assumption.
Qed.

(** ** Stops that take effect *)

Lemma onstop_frame d f w :
  isRecording (onstop d f w) = isRecording w /\
  timerRef (onstop d f w) = timerRef w /\
  toasts (onstop d f w) = toasts w /\
  chunksRef (onstop d f w) = chunksRef w /\
  recordingTime (onstop d f w) = recordingTime w.
Proof.
  unfold onstop. destruct (finalization f); auto. simpl.
  destruct (streamRef w); rewrite ?stop_tracks_eq; simpl; auto.
Qed.

Lemma stopRecording_effective c f w r :
  mediaRecorderRef w = Some r ->
  stop_isRecording c = true ->
  isRecording (stopRecording c f w) = false /\
  timerRef (stopRecording c f w) = None /\
  toasts (stopRecording c f w) = toasts w ++ [toast_stopped].
Proof.
  intros Hr Hc. unfold stopRecording. rewrite Hr, Hc. fold (stopped r w).
  assert (S : isRecording (stopped r w) = false /\ timerRef (stopped r w) = None /\
              toasts (stopped r w) = toasts w ++ [toast_stopped]).
  { unfold stopped, stopTimer. simpl.
    destruct (timerRef w) eqn:Et; simpl; repeat split; try reflexivity; exact Et. }
  destruct (recorder_recording r w); [|assumption].
  unfold stop_task. destruct (recorders (stopped r w) !! r) as [m|]; [|assumption].
  destruct (onstop_frame (mr_onstop_recordingTime m) f
              (ondataavailable (final_data f) (stopped r w))) as (O1 & O2 & O3 & _).
  rewrite O1, O2, O3. unfold ondataavailable. destruct (0 <? _); simpl; assumption.
Qed.

Lemma stopRecording_count_le c f w :
  (length (recordings w) <= stopped_sessions w)%nat ->
  (length (recordings (stopRecording c f w)) <=
   stopped_sessions (stopRecording c f w))%nat.
Proof.
  intros Hc. unfold stopRecording.
  destruct (mediaRecorderRef w) as [r|]; [|assumption].
  destruct (stop_isRecording c); [|assumption].
  fold (stopped r w). destruct (stopped_history r w) as [E1 _].
  pose proof (stopped_sessions_stopped r w) as Es.
  destruct (recorder_recording r w) eqn:Er.
  - unfold stop_task. destruct (recorders (stopped r w) !! r) as [m|] eqn:Em.
    + destruct (ondataavailable_frame (final_data f) (stopped r w))
        as (F0 & F1 & _ & _).
      destruct (onstop_shape (mr_onstop_recordingTime m) f
                  (ondataavailable (final_data f) (stopped r w)))
        as [[G1 _]|(f0 & a & _ & _ & G1 & _)];
        rewrite G1; unfold stopped_sessions in *;
        rewrite onstop_recorders, F0, F1, E1, Es; simpl; lia.
    + rewrite E1, Es. lia.
  - rewrite E1, Es. lia.
Qed.

Lemma handle_count_le e w :
  (length (recordings w) <= stopped_sessions w)%nat ->
  (length (recordings (handle e w)) <= stopped_sessions (handle e w))%nat.
Proof.
  intros Hc. destruct e as [f|o|t f|r d| |i]; simpl in *.
  - unfold click_main. destruct (isRecording w); [|assumption].
    now apply stopRecording_count_le.
  - unfold settle. destruct (suspended w) as [|c rest]; [assumption|].
    destruct (startRecording_history c o (set_suspended rest w)) as (E1 & _ & E3).
    now rewrite E1, E3.
  - unfold tick. destruct (intervals w !! t) as [iv|]; [|assumption].
    destruct (cleared iv); [assumption|]. unfold timer_callback.
    destruct (179 <=? recordingTime w); simpl; [|assumption].
    now apply (stopRecording_count_le (iv_stopRecording iv) f w).
  - unfold data_available. destruct (recorder_recording r w); [|assumption].
    unfold stopped_sessions.
    destruct (ondataavailable_frame d w) as (E0 & E1 & _). now rewrite E0, E1.
  - unfold download_current, downloadRecording.
    destruct (currentRecording w); assumption.
  - unfold download_history, downloadRecording.
    destruct (recordings w) as [|? [|? ?]] eqn:Er; rewrite ?Er; try assumption.
    destruct (drop 1 _ !! i); simpl; rewrite ?Er; assumption.
Qed.

Lemma inactive_stays e r w :
  (r < length (recorders w))%nat ->
  recorder_recording r w = false ->
  (r < length (recorders (handle e w)))%nat /\
  recorder_recording r (handle e w) = false.
Proof.
  intros Hl Hr.
  assert (Hstop : forall c f, (r < length (recorders (stopRecording c f w)))%nat /\
                              recorder_recording r (stopRecording c f w) = false).
  { intros c f. destruct (stopRecording_keeps_count c f w) as [E _]. rewrite E.
    split; [assumption|].
    destruct (stopRecording_refs c f w) as (_ & [A|(r0 & _ & B2 & B3)] & _).
    - unfold recorder_recording in *. now rewrite A.
    - destruct (Nat.eq_dec r r0) as [->|Hne]; [assumption | now rewrite B3]. }
  destruct e as [f|o|t f|r0 d| |j]; simpl.
  - unfold click_main. destruct (isRecording w); [apply Hstop | auto].
  - unfold settle. destruct (suspended w) as [|c rest]; [auto|].
    destruct o as [|nv|nv na|nv na];
      [ unfold startRecording, acquire, recorder_recording in *; simpl; auto .. | ].
    destruct (startRecording_started c nv na (set_suspended rest w))
      as (_ & _ & _ & E4 & _).
    unfold recorder_recording in *. rewrite E4, length_app.
    change (recorders (set_suspended rest w)) with (recorders w).
    rewrite lookup_app_l by assumption. split; [lia | assumption].
  - unfold tick. destruct (intervals w !! t) as [iv|]; [|auto].
    destruct (cleared iv); [auto|]. unfold timer_callback.
    destruct (179 <=? recordingTime w); [apply Hstop | auto].
  - unfold data_available, ondataavailable.
    destruct (recorder_recording r0 w); [|auto]. destruct (0 <? _); auto.
  - unfold download_current, downloadRecording.
    destruct (currentRecording w); auto.
  - unfold download_history, downloadRecording.
    destruct (recordings w) as [|? [|? ?]] eqn:Er; rewrite ?Er; auto.
    destruct (drop 1 _ !! j); auto.
Qed.

(** ** File names and seconds *)

Lemma YearFromTime_of_second t ms :
  0 <= ms < 1000 -> YearFromTime (1000 * t + ms) = YearFromTime (1000 * t).
Proof.
  intros H. unfold YearFromTime, Day, msPerDay.
  change 86400000 with (1000 * 86400).
  rewrite <- !Z.div_div by lia.
  now rewrite whole_second, (Z.mul_comm 1000 t), Z.div_mul by lia.
Qed.

Lemma split_second t : t = 1000 * (t / 1000) + t mod 1000 /\ 0 <= t mod 1000 < 1000.
Proof.
  split; [apply Z.div_mod; lia | apply Z.mod_pos_bound; lia].
Qed.

Lemma filename_of_second t :
  0 <= YearFromTime t <= 9999 ->
  slice0 19 (toISOString t) = iso8601_no_millis (1000 * (t / 1000)).
Proof.
  intros Hy. rewrite slice_toISOString by assumption.
  destruct (split_second t) as [E Hm]. rewrite E at 1.
  now apply iso8601_no_millis_of_second.
Qed.

Lemma stopped_chunksRef r w : chunksRef (stopped r w) = chunksRef w.
Proof. unfold stopped, stopTimer. simpl. now destruct (timerRef w). Qed.

Lemma nonempty_chunks_handle e w :
  Forall (fun c => 0 < Blob_size c) (chunksRef w) ->
  Forall (fun c => 0 < Blob_size c) (chunksRef (handle e w)).
Proof.
  intros H.
  assert (Hd : forall d w0, Forall (fun c => 0 < Blob_size c) (chunksRef w0) ->
                 Forall (fun c => 0 < Blob_size c) (chunksRef (ondataavailable d w0))).
  { intros d w0 H0. unfold ondataavailable.
    destruct (0 <? Blob_size d) eqn:E; [|assumption]. simpl.
    apply Forall_app. split; [assumption|]. constructor; [|constructor].
    now apply Z.ltb_lt. }
  assert (Hstop : forall c f,
            Forall (fun c => 0 < Blob_size c) (chunksRef (stopRecording c f w))).
  { intros c f. unfold stopRecording.
    destruct (mediaRecorderRef w) as [r|]; [|assumption].
    destruct (stop_isRecording c); [|assumption].
    fold (stopped r w).
    assert (Hs : Forall (fun c => 0 < Blob_size c) (chunksRef (stopped r w)))
      by now rewrite stopped_chunksRef.
    destruct (recorder_recording r w); [|assumption].
    unfold stop_task. destruct (recorders (stopped r w) !! r) as [m|]; [|assumption].
    destruct (onstop_frame (mr_onstop_recordingTime m) f
                (ondataavailable (final_data f) (stopped r w))) as (_ & _ & _ & O4 & _).
    rewrite O4. now apply Hd. }
  destruct e as [f|o|t f|r d| |j]; simpl.
  - unfold click_main. destruct (isRecording w); [apply Hstop | assumption].
  - unfold settle. destruct (suspended w) as [|c rest]; [assumption|].
    destruct o as [|nv|nv na|nv na]; unfold startRecording, acquire, startTimer;
      simpl; try assumption; constructor.
  - unfold tick. destruct (intervals w !! t) as [iv|]; [|assumption].
    destruct (cleared iv); [assumption|]. unfold timer_callback.
    destruct (179 <=? recordingTime w); [apply Hstop | assumption].
  - unfold data_available. destruct (recorder_recording r w); [|assumption].
    now apply Hd.
  - unfold download_current, downloadRecording.
    destruct (currentRecording w); assumption.
  - unfold download_history, downloadRecording.
    destruct (recordings w) as [|? [|? ?]] eqn:Er; rewrite ?Er; try assumption.
    destruct (drop 1 _ !! j); assumption.
Qed.

(** ** Toasts *)

Lemma titled_snoc t x w :
  toasts_titled t (toast x w) =
  toasts_titled t w ++ (if String.eqb (title x) t then [x] else []).
Proof. unfold toasts_titled, toast. simpl. now rewrite List.filter_app. Qed.

Lemma stopRecording_sessions c f w r :
  mediaRecorderRef w = Some r ->
  stop_isRecording c = true ->
  stopped_sessions (stopRecording c f w) =
  (stopped_sessions w + if recorder_recording r w then 1 else 0)%nat.
Proof.
  intros Hr Hc. unfold stopRecording. rewrite Hr, Hc. fold (stopped r w).
  pose proof (stopped_sessions_stopped r w) as Es.
  destruct (recorder_recording r w); [|assumption].
  unfold stop_task. destruct (recorders (stopped r w) !! r) as [m|]; [|assumption].
  unfold stopped_sessions in *. rewrite onstop_recorders.
  destruct (ondataavailable_frame (final_data f) (stopped r w)) as (F0 & _).
  now rewrite F0.
Qed.

Lemma stopRecording_saved c f w :
  saved (stopRecording c f w) = saved w.
Proof.
  unfold stopRecording.
  destruct (mediaRecorderRef w) as [r|]; [|reflexivity].
  destruct (stop_isRecording c); [|reflexivity].
  fold (stopped r w).
  assert (S : saved (stopped r w) = saved w).
  { unfold stopped, stopTimer. simpl. now destruct (timerRef w). }
  destruct (recorder_recording r w); [|assumption].
  unfold stop_task. destruct (recorders (stopped r w) !! r) as [m|]; [|assumption].
  unfold onstop, ondataavailable.
  destruct (finalization f), (0 <? _); simpl; try assumption;
    destruct (streamRef _); rewrite ?stop_tracks_eq; simpl; assumption.
Qed.

Lemma stopRecording_toasts c f w :
  toasts (stopRecording c f w) = toasts w \/
  toasts (stopRecording c f w) = toasts w ++ [toast_stopped].
Proof.
  destruct (mediaRecorderRef w) as [r|] eqn:Er.
  - destruct (stop_isRecording c) eqn:Ec.
    + right. now destruct (stopRecording_effective c f w r Er Ec) as (_ & _ & E).
    + left. now rewrite stopRecording_closed.
  - left. now rewrite stopRecording_no_recorder.
Qed.

Lemma announced_stopRecording c f w : announced w -> announced (stopRecording c f w).
Proof.
  intros [H1 H2]. unfold announced, toasts_titled.
  destruct (stopRecording_keeps_count c f w) as [E1 _].
  rewrite E1, stopRecording_saved.
  destruct (stopRecording_toasts c f w) as [E|E]; rewrite E; [now split|].
  rewrite !List.filter_app. simpl. rewrite !app_nil_r. now split.
Qed.

Lemma announced_handle e w : announced w -> announced (handle e w).
Proof.
  intros H. destruct e as [f|o|t f|r d| |j]; simpl.
  - unfold click_main. destruct (isRecording w); [now apply announced_stopRecording|].
    exact H.
  - unfold settle. destruct (suspended w) as [|c rest]; [assumption|].
    destruct H as [H1 H2]. unfold announced, toasts_titled in *.
    destruct o as [|nv|nv na|nv na]; unfold startRecording, acquire, startTimer, toast;
      simpl; rewrite !List.filter_app; simpl; rewrite ?app_nil_r, ?length_app; simpl;
      split; lia.
  - unfold tick. destruct (intervals w !! t) as [iv|]; [|assumption].
    destruct (cleared iv); [assumption|]. unfold timer_callback.
    destruct (179 <=? recordingTime w); [|exact H].
    exact (announced_stopRecording (iv_stopRecording iv) f w H).
  - unfold data_available, ondataavailable.
    destruct (recorder_recording r w); [|assumption]. now destruct (0 <? _).
  - unfold download_current, downloadRecording.
    destruct (currentRecording w); [|assumption].
    destruct H as [H1 H2]. unfold announced, toasts_titled, toast in *. simpl.
    rewrite !List.filter_app, !length_app. simpl. split; lia.
  - unfold download_history, downloadRecording.
    destruct (recordings w) as [|? [|? ?]] eqn:Er; rewrite ?Er; try assumption.
    destruct (drop 1 _ !! j); [|assumption].
    destruct H as [H1 H2]. unfold announced, toasts_titled, toast in *. simpl.
    rewrite !List.filter_app, !length_app. simpl. split; lia.
Qed.

Lemma stops_announced_stopRecording c f w :
  Orderly w -> isRecording w = true ->
  stops_announced w -> stops_announced (stopRecording c f w).
Proof.
  intros Ho Hi H. unfold stops_announced in *.
  destruct (or_active w Ho Hi) as (r & m & Hr & Hm & Hs & _).
  destruct (stop_isRecording c) eqn:Ec.
  - rewrite (stopRecording_sessions c f w r Hr Ec).
    destruct (stopRecording_effective c f w r Hr Ec) as (_ & _ & E).
    unfold toasts_titled in *. rewrite E, List.filter_app, length_app. simpl.
    unfold recorder_recording. rewrite Hm, Hs. lia.
  - now rewrite stopRecording_closed.
Qed.

Lemma stops_announced_handle e w :
  Orderly w -> stops_announced w -> stops_announced (handle e w).
Proof.
  intros Ho H. destruct e as [f|o|t f|r d| |j]; simpl.
  - unfold click_main. destruct (isRecording w) eqn:Hi; [|exact H].
    now apply stops_announced_stopRecording.
  - unfold settle. destruct (suspended w) as [|c rest]; [assumption|].
    unfold stops_announced, toasts_titled in *.
    destruct (startRecording_history c o (set_suspended rest w)) as (_ & _ & E3).
    rewrite E3. change (stopped_sessions (set_suspended rest w)) with (stopped_sessions w).
    rewrite <- H.
    destruct o as [|nv|nv na|nv na]; unfold startRecording, acquire, startTimer, toast;
      simpl; rewrite !List.filter_app; simpl; now rewrite ?app_nil_r.
  - unfold tick. destruct (intervals w !! t) as [iv|] eqn:Eiv; [|assumption].
    destruct (cleared iv) eqn:Ec; [assumption|]. unfold timer_callback.
    destruct (179 <=? recordingTime w); [|exact H].
    assert (Hl : live t w = true) by (unfold live; now rewrite Eiv, Ec).
    destruct (or_intervals w Ho t Hl) as [Hi _].
    exact (stops_announced_stopRecording (iv_stopRecording iv) f w Ho Hi H).
  - unfold data_available, ondataavailable.
    destruct (recorder_recording r w); [|assumption]. now destruct (0 <? _).
  - unfold download_current, downloadRecording.
    destruct (currentRecording w); [|assumption].
    unfold stops_announced, toasts_titled, toast in *. simpl.
    rewrite List.filter_app. simpl. now rewrite app_nil_r.
  - unfold download_history, downloadRecording.
    destruct (recordings w) as [|? [|? ?]] eqn:Er; rewrite ?Er; try assumption.
    destruct (drop 1 _ !! j); [|assumption].
    unfold stops_announced, toasts_titled, toast in *. simpl.
    rewrite List.filter_app. simpl. now rewrite app_nil_r.
Qed.

(** ** Reaching the cap *)

Lemma stopRecording_interval c f w t iv :
  intervals w !! t = Some iv ->
  exists cl, intervals (stopRecording c f w) !! t =
             Some (mkInterval cl (iv_stopRecording iv)).
Proof.
  intros H.
  assert (St : forall r, exists cl, intervals (stopped r w) !! t =
                                    Some (mkInterval cl (iv_stopRecording iv))).
  { intros r. unfold stopped, stopTimer. simpl.
    destruct (timerRef w) as [t0|]; simpl.
    - destruct (Nat.eq_dec t0 t) as [->|Hne].
      + rewrite list_lookup_alter_eq, H. simpl. eauto.
      + rewrite list_lookup_alter_ne, H by assumption. destruct iv. simpl. eauto.
    - rewrite H. destruct iv. simpl. eauto. }
  unfold stopRecording.
  destruct (mediaRecorderRef w) as [r|]; [|destruct iv; simpl; eauto].
  destruct (stop_isRecording c); [|destruct iv; simpl; eauto].
  fold (stopped r w). destruct (St r) as [cl Hcl].
  destruct (recorder_recording r w); [|eauto].
  unfold stop_task. destruct (recorders (stopped r w) !! r) as [m|]; [|eauto].
  exists cl. rewrite <- Hcl. f_equal.
  unfold onstop, ondataavailable.
  destruct (finalization f), (0 <? _); simpl; try reflexivity;
    destruct (streamRef _); rewrite ?stop_tracks_eq; reflexivity.
Qed.

Lemma stopRecording_inactivates c f w r :
  mediaRecorderRef w = Some r ->
  stop_isRecording c = true ->
  recorder_recording r (stopRecording c f w) = false.
Proof.
  intros Hr Hc. unfold stopRecording. rewrite Hr, Hc. fold (stopped r w).
  assert (S : recorder_recording r (stopped r w) = false).
  { rewrite recorder_recording_stopped. now rewrite Nat.eqb_refl. }
  destruct (recorder_recording r w); [|assumption].
  unfold stop_task. destruct (recorders (stopped r w) !! r) as [m|] eqn:Em; [|assumption].
  unfold recorder_recording in *.
  rewrite onstop_recorders.
  destruct (ondataavailable_frame (final_data f) (stopped r w)) as (F0 & _).
  now rewrite F0.
Qed.

Section Cap.
Variable ts : bool.

Lemma Ticking_tick b r t f w :
  Ticking b r t w ->
  if (179 <=? recordingTime w) && b
  then Capped r t (step ts (Tick t f) w)
  else Ticking b r t (step ts (Tick t f) w).
Proof.
  intros [H1 H2 H3 H4]. unfold step. simpl. unfold tick. rewrite H4. simpl.
  unfold timer_callback. destruct (179 <=? recordingTime w); simpl.
  - destruct b.
    + destruct (stopRecording_effective (mkStop true) f w r H2 eq_refl) as (E1 & _).
      destruct (stopRecording_refs (mkStop true) f w) as (A1 & _).
      destruct (stopRecording_interval (mkStop true) f w t _ H4) as [cl Hcl].
      pose proof (stopRecording_inactivates (mkStop true) f w r H2 eq_refl) as A2.
      constructor; simpl; [assumption | congruence | exact A2 | eauto].
    + rewrite stopRecording_closed by reflexivity. constructor; assumption.
  - constructor; assumption.
Qed.

Lemma Capped_tick r t f w : Capped r t w -> Capped r t (step ts (Tick t f) w).
Proof.
  intros [H1 H2 H3 [c H4]]. unfold step. simpl. unfold tick. rewrite H4. simpl.
  destruct c; [constructor; eauto|].
  unfold timer_callback. destruct (179 <=? recordingTime w); simpl.
  - destruct (stopRecording_effective (mkStop true) f w r H2 eq_refl) as (E1 & _).
    destruct (stopRecording_refs (mkStop true) f w) as (A1 & _).
    destruct (stopRecording_interval (mkStop true) f w t _ H4) as [cl Hcl].
    pose proof (stopRecording_inactivates (mkStop true) f w r H2 eq_refl) as A2.
    constructor; simpl; [assumption | congruence | exact A2 | eauto].
  - constructor; eauto.
Qed.

Lemma Capped_ticks r t fs w :
  Capped r t w -> Capped r t (run ts (map (Tick t) fs) w).
Proof.
  revert w. induction fs as [|f fs IH]; intros w H; [exact H|].
  apply (IH (step ts (Tick t f) w)). now apply Capped_tick.
Qed.


Lemma Ticking_true_ticks r t fs w :
  Ticking true r t w ->
  0 <= recordingTime w <= 179 ->
  if 180 <=? recordingTime w + Z.of_nat (length fs)
  then Capped r t (run ts (map (Tick t) fs) w)
  else Ticking true r t (run ts (map (Tick t) fs) w).
Proof.
  revert w. induction fs as [|f fs IH]; intros w H Ht.
  - change (Z.of_nat (length (@nil Flush))) with 0. rewrite Z.add_0_r.
    destruct (180 <=? recordingTime w) eqn:E; [|exact H].
    apply Z.leb_le in E. lia.
  - pose proof (Ticking_tick true r t f w H) as T.
    assert (Etime : recordingTime (step ts (Tick t f) w) =
                    if 179 <=? recordingTime w then 180 else recordingTime w + 1).
    { unfold step. simpl. unfold tick. rewrite (tk_interval _ _ _ _ H). simpl.
      apply timer_callback_recordingTime. }
    simpl map. unfold run in *. simpl fold_left. simpl length.
    destruct (179 <=? recordingTime w) eqn:E9; simpl in T.
    + apply Z.leb_le in E9.
      assert (E : (180 <=? recordingTime w + Z.of_nat (S (length fs))) = true)
        by (apply Z.leb_le; lia).
      rewrite E. now apply Capped_ticks.
    + apply Z.leb_gt in E9.
      specialize (IH (step ts (Tick t f) w) T ltac:(rewrite Etime; lia)).
      rewrite Etime in IH.
      replace (recordingTime w + Z.of_nat (S (length fs)))
        with (recordingTime w + 1 + Z.of_nat (length fs)) by lia.
      exact IH.
Qed.

End Cap.

(** ** The session after the first *)

Lemma run_cons ts e es w : run ts (e :: es) w = run ts es (step ts e w).
Proof. reflexivity. Qed.

Lemma first_start_shape f nv na :
  let w := run true [ClickMain f; Settle (Started nv na)] mount in
  FirstSession w /\
  startRecordingCb w = mkStart 0 (mkStop false) /\
  recordingTime w = 0 /\
  length (recorders w) = 1%nat /\
  length (intervals w) = 1%nat /\
  suspended w = [] /\
  timerRef w = Some 0%nat.
Proof.
  intros w. split; [apply FirstSession_start|].
  unfold w, run, step. simpl. repeat split; reflexivity.
Qed.

Lemma stop_closure_eta (c : StopClosure) b : stop_isRecording c = b -> c = mkStop b.
Proof. destruct c. simpl. now intros ->. Qed.

Lemma first_tick_eq ts f w :
  FirstSession w ->
  step ts (Tick 0 f) w =
  render ts (set_recordingTime
               (if 179 <=? recordingTime w then 180 else recordingTime w + 1) w).
Proof.
  intros [H1 _ _ _ _ _ _]. unfold step. simpl. unfold tick. rewrite H1. simpl.
  unfold timer_callback. rewrite stopRecording_closed by reflexivity.
  now destruct (179 <=? recordingTime w).
Qed.

Lemma render_memo_recording w t' :
  isRecording w = true ->
  stopRecordingCb w = mkStop true ->
  (startRecordingCb w = mkStart (recordingTime w) (mkStop true) /\
   (t' = recordingTime w \/ t' <> recordingTime w)) \/
  (startRecordingCb w = mkStart 0 (mkStop false) /\ t' <> 0) ->
  startRecordingCb (render true (set_recordingTime t' w)) = mkStart t' (mkStop true).
Proof.
  intros Hi Hc Hm. unfold render. simpl. rewrite Hi, Hc. simpl.
  destruct Hm as [[Hm Ht]|[Hm Ht]]; rewrite Hm; simpl.
  - destruct (t' =? recordingTime w) eqn:E; simpl; [|reflexivity].
    apply Z.eqb_eq in E. now rewrite E.
  - destruct (t' =? 0) eqn:E; simpl; [|reflexivity].
    apply Z.eqb_eq in E. contradiction.
Qed.

Lemma FirstTicked_tick f w :
  FirstSession w ->
  length (recorders w) = 1%nat -> length (intervals w) = 1%nat ->
  suspended w = [] -> timerRef w = Some 0%nat ->
  0 <= recordingTime w <= 180 ->
  startRecordingCb w = mkStart (recordingTime w) (mkStop true) \/
  (startRecordingCb w = mkStart 0 (mkStop false) /\ recordingTime w = 0) ->
  FirstTicked (step true (Tick 0 f) w) /\
  recordingTime (step true (Tick 0 f) w) = Z.min (recordingTime w + 1) 180.
Proof.
  intros Hf L1 L2 Hs Ht Hb Hm.
  pose proof (FirstSession_tick true f w Hf) as Hf'.
  rewrite (first_tick_eq true f w Hf) in *.
  set (t' := if 179 <=? recordingTime w then 180 else recordingTime w + 1) in *.
  assert (Et : t' = Z.min (recordingTime w + 1) 180).
  { unfold t'. destruct (179 <=? recordingTime w) eqn:E;
      [apply Z.leb_le in E | apply Z.leb_gt in E]; lia. }
  split; [|exact Et].
  constructor; try assumption.
  apply render_memo_recording.
  - apply (fs_isRecording _ Hf).
  - apply stop_closure_eta, (fs_stop _ Hf).
  - destruct Hm as [Hm|[Hm H0]].
    + left. split; [assumption|]. change (t' = recordingTime w \/ t' <> recordingTime w).
      destruct (Z.eq_dec t' (recordingTime w)); auto.
    + right. split; [assumption|]. change (t' <> 0). lia.
Qed.

Lemma FirstTicked_ticks fs w :
  FirstTicked w -> 0 <= recordingTime w <= 180 ->
  FirstTicked (run true (map (Tick 0) fs) w) /\
  recordingTime (run true (map (Tick 0) fs) w) =
    Z.min (recordingTime w + Z.of_nat (length fs)) 180.
Proof.
  revert w. induction fs as [|f fs IH]; intros w H Hb.
  - simpl. split; [assumption | lia].
  - destruct H as [H1 H2 H3 H4 H5 H6].
    destruct (FirstTicked_tick f w H1 H3 H4 H5 H6 Hb (or_introl H2)) as [T1 T2].
    destruct (IH _ T1 ltac:(lia)) as [U1 U2].
    simpl map. unfold run in *. simpl fold_left. split; [assumption|].
    rewrite U2, T2. simpl length. lia.
Qed.

Lemma stopRecording_memo c f w :
  startRecordingCb (stopRecording c f w) = startRecordingCb w /\
  length (intervals (stopRecording c f w)) = length (intervals w).
Proof.
  unfold stopRecording.
  destruct (mediaRecorderRef w) as [r|]; [|auto].
  destruct (stop_isRecording c); [|auto].
  fold (stopped r w).
  assert (S : startRecordingCb (stopped r w) = startRecordingCb w /\
              length (intervals (stopped r w)) = length (intervals w)).
  { unfold stopped, stopTimer. simpl.
    destruct (timerRef w); simpl; rewrite ?length_alter; auto. }
  destruct (recorder_recording r w); [|assumption].
  unfold stop_task. destruct (recorders (stopped r w) !! r) as [m|]; [|assumption].
  unfold onstop, ondataavailable.
  destruct (finalization f), (0 <? _); simpl; try assumption;
    destruct (streamRef _); rewrite ?stop_tracks_eq; simpl; assumption.
Qed.

(** With a stable [toast], a render that finds the counter it memoised under
    keeps the memoised [startRecording]. *)
Lemma render_keeps_memo w :
  recordingTime w = start_recordingTime (startRecordingCb w) ->
  startRecordingCb (render true w) = startRecordingCb w.
Proof.
  intros E. unfold render. simpl. rewrite <- E, Z.eqb_refl. reflexivity.
Qed.

Lemma second_session_start f1 f2 nv na w :
  FirstTicked w ->
  let w' := run true [ClickMain f1; ClickMain f2; Settle (Started nv na)] w in
  Ticking true 1 1 w' /\
  recordingTime w' = 0 /\
  exists s, recorders w' !! 1%nat =
            Some (mkRecorder RecordingState s (recordingTime w)).
Proof.
  intros [Hf Hm L1 L2 Hs Ht] w'.
  destruct Hf as [H1 H2 H3 [s0 H4] H5 H6 H7].
  assert (Ew' : w' = step true (Settle (Started nv na))
                       (step true (ClickMain f2) (step true (ClickMain f1) w)))
    by reflexivity.
  clearbody w'. revert Ew'.
  (* the stop *)
  set (x := stopRecording (stopRecordingCb w) f1 w).
  assert (X1 : isRecording x = false)
    by (destruct (stopRecording_effective (stopRecordingCb w) f1 w 0%nat H3 H7); assumption).
  assert (X2 : recordingTime x = recordingTime w) by apply stopRecording_recordingTime.
  destruct (stopRecording_memo (stopRecordingCb w) f1 w) as [X3 X4]. fold x in X3, X4.
  destruct (stopRecording_keeps_count (stopRecordingCb w) f1 w) as [X5 X6].
  fold x in X5, X6.
  set (w2 := step true (ClickMain f1) w).
  assert (E2 : w2 = render true x).
  { unfold w2, step. simpl. unfold click_main. now rewrite H2. }
  assert (M2 : startRecordingCb w2 = mkStart (recordingTime w) (mkStop true)).
  { rewrite E2, render_keeps_memo; [congruence|]. rewrite X3, Hm, X2. reflexivity. }
  destruct (render_frame true x) as (R1 & R2 & _ & R4 & _ & _ & R7 & _).
  rewrite <- E2 in R1, R2, R4, R7.
  assert (S2 : suspended w2 = []) by (rewrite E2; simpl; congruence).
  clearbody w2. clear E2.
  (* the click on Start *)
  set (w3 := step true (ClickMain f2) w2).
  assert (E3 : w3 = render true (set_suspended [startRecordingCb w2] w2)).
  { unfold w3, step. simpl. unfold click_main. rewrite R1, X1, S2. reflexivity. }
  assert (M3 : suspended w3 = [mkStart (recordingTime w) (mkStop true)])
    by (rewrite E3; simpl; now rewrite M2).
  assert (L3 : length (recorders w3) = 1%nat)
    by (rewrite E3; simpl; congruence).
  assert (I3 : length (intervals w3) = 1%nat)
    by (rewrite E3; simpl; congruence).
  clearbody w3. clear E3.
  (* the platform grants both sources *)
  intros E4.
  assert (E5 : step true (Settle (Started nv na)) w3 =
               render true (startRecording (mkStart (recordingTime w) (mkStop true))
                                           (Started nv na) (set_suspended [] w3))).
  { unfold step. simpl. unfold settle. rewrite M3. reflexivity. }
  rewrite E5 in E4. clear E5.
  destruct (startRecording_started (mkStart (recordingTime w) (mkStop true)) nv na
              (set_suspended [] w3))
    as (A1 & A2 & A3 & A4 & _ & _ & _ & A8 & _).
  destruct (render_frame true (startRecording (mkStart (recordingTime w) (mkStop true))
                                              (Started nv na) (set_suspended [] w3)))
    as (B1 & B2 & B3 & B4 & _ & _ & B7 & _).
  rewrite <- E4 in B1, B2, B3, B4, B7.
  rewrite A1 in B1. rewrite A2 in B2. rewrite A3 in B3. rewrite A4 in B4.
  rewrite A8 in B7.
  change (recorders (set_suspended [] w3)) with (recorders w3) in B3, B4.
  change (intervals (set_suspended [] w3)) with (intervals w3) in B7.
  change (tracks (set_suspended [] w3)) with (tracks w3) in B4.
  rewrite L3 in B3.
  assert (C4 : recorders w' !! 1%nat =
               Some (mkRecorder RecordingState (seq (length (tracks w3)) (nv + na))
                                (recordingTime w))).
  { rewrite B4, <- L3. apply lookup_snoc_last. }
  split; [|split; [assumption | eauto]].
  constructor; try assumption.
  - unfold recorder_recording. now rewrite C4.
  - rewrite B7, <- I3. apply lookup_snoc_last.
Qed.

(** ** Stops and deliveries along a trace *)

(** An artifact is only ever put into the history by a stop that found its
    recorder recording. *)
Lemma stopRecording_artifact_stop c f w :
  recordings (stopRecording c f w) = recordings w \/
  stopped_sessions (stopRecording c f w) = S (stopped_sessions w).
Proof.
  destruct (stop_isRecording c) eqn:Hc;
    [|left; now rewrite stopRecording_closed].
  destruct (mediaRecorderRef w) as [r|] eqn:Hr;
    [|left; unfold stopRecording; now rewrite Hr].
  destruct (recorder_recording r w) eqn:Hrec.
  - right. rewrite (stopRecording_sessions c f w r Hr Hc), Hrec. lia.
  - left. rewrite (stopRecording_idle_recorder c f w r Hr Hc Hrec).
    apply stopped_history.
Qed.

Lemma handle_artifact_stop e w :
  recordings (handle e w) = recordings w \/
  stopped_sessions (handle e w) = S (stopped_sessions w).
Proof.
  destruct e as [f|o|t f|r d| |i]; simpl.
  - unfold click_main. destruct (isRecording w);
      [apply stopRecording_artifact_stop | now left].
  - left. unfold settle. destruct (suspended w) as [|c rest]; [reflexivity|].
    destruct o as [|nv|nv na|nv na]; reflexivity.
  - unfold tick. destruct (intervals w !! t) as [iv|]; [|now left].
    destruct (cleared iv); [now left|]. unfold timer_callback.
    destruct (179 <=? recordingTime w); [|now left].
    exact (stopRecording_artifact_stop (iv_stopRecording iv) f w).
  - left. unfold data_available. destruct (recorder_recording r w); [|reflexivity].
    apply ondataavailable_frame.
  - left. unfold download_current. now destruct (currentRecording w).
  - left. unfold download_history, downloadRecording.
    destruct (recordings w) as [|? [|? ?]] eqn:Er; rewrite ?Er; try reflexivity.
    destruct (drop 1 _ !! i); simpl; now rewrite ?Er.
Qed.

Section StopsAndDeliveries.
Variable ts : bool.

Lemma artifact_means_stop e w a :
  recordings (step ts e w) = a :: recordings w ->
  stops_recorder ts e w = true.
Proof.
  intros E. unfold stops_recorder. apply Nat.ltb_lt.
  destruct (handle_artifact_stop e w) as [H|H].
  - exfalso. change (recordings (step ts e w)) with (recordings (handle e w)) in E.
    rewrite H in E. apply (f_equal (@length _)) in E. simpl in E. lia.
  - change (stopped_sessions (step ts e w)) with (stopped_sessions (handle e w)).
    lia.
Qed.

Lemma run_ids es w :
  NoDup (stop_clocks ts es w) ->
  NoDup (map Recording.id (recordings w)) ->
  (forall z, In z (stop_clocks ts es w) ->
             ~ In (Number_toString z) (map Recording.id (recordings w))) ->
  NoDup (map Recording.id (recordings (run ts es w))).
Proof.
  revert w. induction es as [|e es IH]; intros w Hc Hd Hn; [assumption|].
  cbn [stop_clocks] in Hc, Hn. change (run ts (e :: es) w) with (run ts es (step ts e w)).
  destruct (step_shape ts e w) as [[E1 _]|(f0 & a & Ef & _ & E1 & _ & _ & E3 & _)].
  - apply IH.
    + now apply NoDup_app in Hc as (_ & _ & Hc).
    + now rewrite E1.
    + intros z Hz. rewrite E1. apply Hn, in_or_app. now right.
  - rewrite Ef, (artifact_means_stop e w a E1) in Hc, Hn. simpl in Hc, Hn.
    apply NoDup_cons in Hc as [Hf Hc].
    apply IH; [assumption| |].
    + rewrite E1. simpl. apply NoDup_cons. split; [|assumption].
      rewrite list_elem_of_In, E3. apply Hn. now left.
    + intros z Hz. rewrite E1. simpl. intros [E|Hin].
      * rewrite E3 in E. apply Number_toString_inj in E. subst z.
        apply Hf. now apply list_elem_of_In.
      * apply (Hn z); [now right | assumption].
Qed.

(** The recorders are never fewer after an event. *)
Lemma handle_recorders_mono e w :
  (length (recorders w) <= length (recorders (handle e w)))%nat.
Proof.
  destruct e as [f|o|t f|r d| |i]; simpl.
  - unfold click_main. destruct (isRecording w); [|reflexivity].
    now rewrite (proj1 (stopRecording_keeps_count _ f w)).
  - unfold settle. destruct (suspended w) as [|c rest]; [reflexivity|].
    destruct o as [|nv|nv na|nv na]; try reflexivity.
    destruct (startRecording_started c nv na (set_suspended rest w))
      as (_ & _ & _ & S4 & _).
    rewrite S4, length_app. simpl. lia.
  - unfold tick. destruct (intervals w !! t) as [iv|]; [|reflexivity].
    destruct (cleared iv); [reflexivity|]. unfold timer_callback.
    destruct (179 <=? recordingTime w); [|reflexivity].
    change (recorders (set_recordingTime 180 (stopRecording (iv_stopRecording iv) f w)))
      with (recorders (stopRecording (iv_stopRecording iv) f w)).
    now rewrite (proj1 (stopRecording_keeps_count _ f w)).
  - unfold data_available. destruct (recorder_recording r w); [|reflexivity].
    now rewrite (proj1 (ondataavailable_frame d w)).
  - unfold download_current. now destruct (currentRecording w).
  - unfold download_history.
    destruct (recordings w) as [|? [|? ?]]; try reflexivity.
    now destruct (drop 1 _ !! i).
Qed.

Lemma inactive_stays_run r es w :
  (r < length (recorders w))%nat ->
  recorder_recording r w = false ->
  recorder_recording r (run ts es w) = false.
Proof.
  revert w. induction es as [|e es IH]; intros w Hl Hr; [assumption|].
  destruct (inactive_stays e r w Hl Hr) as [Hl' Hr'].
  change (run ts (e :: es) w) with (run ts es (step ts e w)).
  apply IH; assumption.
Qed.

Lemma recording_in_table r w :
  recorder_recording r w = true -> (r < length (recorders w))%nat.
Proof.
  unfold recorder_recording. intros H.
  destruct (recorders w !! r) as [m|] eqn:E; [|discriminate].
  now apply lookup_lt_Some in E.
Qed.

(** A recorder that records at the end of a trace recorded all along. *)
Lemma recording_all_along r e es w :
  recorder_recording r w = true ->
  recorder_recording r (run ts (e :: es) w) = true ->
  recorder_recording r (step ts e w) = true.
Proof.
  intros Hr Hend. destruct (recorder_recording r (step ts e w)) eqn:E; [reflexivity|].
  change (run ts (e :: es) w) with (run ts es (step ts e w)) in Hend.
  rewrite inactive_stays_run in Hend; [discriminate| |assumption].
  change (recorders (step ts e w)) with (recorders (handle e w)).
  pose proof (handle_recorders_mono e w). pose proof (recording_in_table r w Hr). lia.
Qed.

(** A stop by a closure that captured [isRecording = false] does nothing;
    any other stops the current recorder. *)
Lemma stopRecording_noop_or_stops c f w r :
  mediaRecorderRef w = Some r ->
  stopRecording c f w = w \/ recorder_recording r (stopRecording c f w) = false.
Proof.
  intros Hr. destruct (stop_isRecording c) eqn:Hc.
  - right. now apply stopRecording_inactivates.
  - left. now apply stopRecording_closed.
Qed.

(** One event of a running session that leaves its recorder recording and is
    no resumed start: the session stays as it is, and the chunk buffer grows
    by the non-empty chunk the event delivered, if any. *)
Lemma session_step e w r :
  match e with Settle _ => false | _ => true end = true ->
  isRecording w = true ->
  mediaRecorderRef w = Some r ->
  recorder_recording r (step ts e w) = true ->
  isRecording (step ts e w) = true /\
  mediaRecorderRef (step ts e w) = Some r /\
  chunksRef (step ts e w) =
    chunksRef w ++ List.filter (fun d => 0 <? Blob_size d) (delivers e w) /\
  recordings (step ts e w) = recordings w.
Proof.
  intros He Hi Hr Hrec.
  change (recorder_recording r (step ts e w))
    with (recorder_recording r (handle e w)) in Hrec.
  change (isRecording (step ts e w)) with (isRecording (handle e w)).
  change (mediaRecorderRef (step ts e w)) with (mediaRecorderRef (handle e w)).
  change (chunksRef (step ts e w)) with (chunksRef (handle e w)).
  change (recordings (step ts e w)) with (recordings (handle e w)).
  destruct e as [f|o|t f|r' d| |i]; try discriminate; simpl in *.
  - unfold click_main in *. rewrite Hi in *.
    destruct (stopRecording_noop_or_stops (stopRecordingCb w) f w r Hr) as [E|E];
      [rewrite E | congruence].
    now rewrite app_nil_r.
  - unfold tick in *. destruct (intervals w !! t) as [iv|];
      [|now rewrite app_nil_r].
    destruct (cleared iv); [now rewrite app_nil_r|].
    unfold timer_callback in *.
    destruct (179 <=? recordingTime w); [|now rewrite app_nil_r].
    destruct (stopRecording_noop_or_stops (iv_stopRecording iv) f w r Hr) as [E|E].
    + rewrite E. now rewrite app_nil_r.
    + change (recorder_recording r
                (set_recordingTime 180 (stopRecording (iv_stopRecording iv) f w)))
        with (recorder_recording r (stopRecording (iv_stopRecording iv) f w)) in Hrec.
      congruence.
  - unfold data_available. destruct (recorder_recording r' w);
      [|now rewrite app_nil_r].
    unfold ondataavailable. simpl.
    destruct (0 <? Blob_size d); [now repeat split | now rewrite app_nil_r].
  - unfold download_current. destruct (currentRecording w);
      now rewrite app_nil_r.
  - unfold download_history, downloadRecording.
    destruct (recordings w) as [|? [|? ?]] eqn:Er; rewrite ?Er;
      try now rewrite app_nil_r.
    destruct (drop 1 _ !! i); simpl; rewrite ?Er; now rewrite app_nil_r.
Qed.

(** The same along a trace: while the session's recorder records at the end
    and no suspended start resumed, the buffer holds what it held at first
    followed by the non-empty chunks delivered since, and nothing else of
    the session moved. *)
Lemma session_run r es w :
  no_settle es = true ->
  isRecording w = true ->
  mediaRecorderRef w = Some r ->
  recorder_recording r w = true ->
  recorder_recording r (run ts es w) = true ->
  isRecording (run ts es w) = true /\
  mediaRecorderRef (run ts es w) = Some r /\
  chunksRef (run ts es w) =
    chunksRef w ++ List.filter (fun d => 0 <? Blob_size d) (deliveries ts es w) /\
  recordings (run ts es w) = recordings w.
Proof.
  revert w. induction es as [|e es IH]; intros w Hn Hi Hr Hrec Hend.
  - simpl. now rewrite app_nil_r.
  - cbn [no_settle forallb] in Hn. apply andb_prop in Hn as [He Hn].
    pose proof (recording_all_along r e es w Hrec Hend) as Hrec'.
    destruct (session_step e w r He Hi Hr Hrec') as (A1 & A2 & A3 & A4).
    change (run ts (e :: es) w) with (run ts es (step ts e w)) in *.
    destruct (IH (step ts e w) Hn A1 A2 Hrec' Hend) as (B1 & B2 & B3 & B4).
    split; [assumption|]. split; [assumption|]. split; [|congruence].
    rewrite B3, A3. cbn [deliveries]. now rewrite List.filter_app, app_assoc.
Qed.

End StopsAndDeliveries.

(** * Further properties *)

(** X1.  For 0 to 5999 seconds [formatTime] is the minutes and the seconds
    on two digits each around a colon, five characters in all, and the
    seconds can be read back from the text. *)
Theorem X1_formatTime_round_trip (s : Z) :
  0 <= s < 6000 ->
  formatTime s = (pad 2 (s / 60) ++ ":" ++ pad 2 (s mod 60))%string /\
  String.length (formatTime s) = 5%nat /\
  seconds_of_mm_ss (formatTime s) = Some s.
Proof.
  intros H. split; [now apply formatTime_digits|].
  split; [now apply formatTime_length|].
  assert (A : forallb (fun k => match seconds_of_mm_ss (formatTime (Z.of_nat k)) with
                                | Some z => z =? Z.of_nat k
                                | None => false
                                end) (seq 0 (Z.to_nat 6000)) = true)
    by (vm_compute; reflexivity).
  rewrite forallb_forall in A.
  specialize (A (Z.to_nat s)). rewrite Z2Nat.id in A by lia.
  assert (Hin : In (Z.to_nat s) (seq 0 (Z.to_nat 6000))) by (apply in_seq; lia).
  specialize (A Hin).
  destruct (seconds_of_mm_ss (formatTime s)) as [z|]; [|discriminate].
  apply Z.eqb_eq in A. now subst.
Qed.

Lemma X1_formatTime_witness : seconds_of_mm_ss (formatTime 75) = Some 75.
Proof.
  refine (proj2 (proj2 (X1_formatTime_round_trip 75 _))). lia.
Defined.

(** X2.  In every world the component reaches, the timer text and the
    duration text of every artifact are exactly five characters [mm:ss], the
    timer reading between [00:00] and the [03:00] of the cap. *)
Theorem X2_displayed_times_are_mm_ss (ts : bool) (es : list Event) :
  let w := run ts es mount in
  String.length (timer_text w) = 5%nat /\
  seconds_of_mm_ss (timer_text w) = Some (recordingTime w) /\
  0 <= recordingTime w <= 180 /\
  Forall (fun a => String.length (formatTime (Recording.duration a)) = 5%nat)
         (recordings w).
Proof.
  intros w.
  pose proof (TimeInv_run ts es mount TimeInv_mount) as [H1 _ _ _ H5].
  fold w in H1, H5. unfold capped in *.
  assert (A : forallb (fun k => match seconds_of_mm_ss (formatTime (Z.of_nat k)) with
                                | Some z => z =? Z.of_nat k
                                | None => false
                                end) (seq 0 181) = true)
    by (vm_compute; reflexivity).
  rewrite forallb_forall in A.
  specialize (A (Z.to_nat (recordingTime w))). rewrite Z2Nat.id in A by lia.
  assert (Hin : In (Z.to_nat (recordingTime w)) (seq 0 181)) by (apply in_seq; lia).
  specialize (A Hin).
  split; [apply formatTime_length; lia|]. split; [|split; [assumption|]].
  - unfold timer_text.
    destruct (seconds_of_mm_ss (formatTime (recordingTime w))) as [z|]; [|discriminate].
    apply Z.eqb_eq in A. now subst.
  - eapply Forall_impl; [exact H5|]. intros a Ha. simpl in Ha.
    apply formatTime_length. lia.
Qed.

(** X3.  [formatFileSize] shows the size in MB rounded to the nearest tenth,
    for every size a [Blob] can have (below 2^53, where the division by 2^20
    is exact): the shown tenths are within half a tenth of [bytes / 2^20],
    never decrease when the size grows, and a payload of at most 52428
    bytes, the empty one included, reads [0.0 MB]. *)
Theorem X3_formatFileSize_rounds_to_tenths (b b' : Z) :
  0 <= b -> b <= b' -> b' < 9007199254740992 ->
  formatFileSize b =
    (Number_toString (size_tenths b / 10) ++ "." ++
     String (digit (size_tenths b mod 10)) EmptyString ++ " MB")%string /\
  2 * Z.abs (1048576 * size_tenths b - 10 * b) <= 1048576 /\
  size_tenths b <= size_tenths b' /\
  (size_tenths b = 0 <-> b <= 52428) /\
  (b <= 52428 -> formatFileSize b = "0.0 MB"%string).
Proof.
  intros H0 Hle _.
  destruct (size_tenths_bounds b H0) as [Hn Hb].
  destruct (size_tenths_bounds b' ltac:(lia)) as [Hn' Hb'].
  assert (Hz : size_tenths b = 0 <-> b <= 52428) by lia.
  split; [reflexivity|]. split; [lia|]. split; [lia|]. split; [assumption|].
  intros Hs. unfold formatFileSize. apply Hz in Hs. rewrite Hs. reflexivity.
Qed.

Lemma X3_formatFileSize_witness : formatFileSize 0 = "0.0 MB"%string.
Proof.
  refine (proj2 (proj2 (proj2 (proj2
            (X3_formatFileSize_rounds_to_tenths 0 0 _ _ _)))) _); lia.
Defined.

(** X4.  Object URLs are handed out once per artifact: as many were created
    as the history has entries, the artifacts carry them in the order of
    creation, newest first, and no two artifacts share one. *)
Theorem X4_one_object_url_per_artifact (ts : bool) (es : list Event) :
  let w := run ts es mount in
  objectURLs w = length (recordings w) /\
  map Recording.url (recordings w) = rev (seq 0 (length (recordings w))) /\
  NoDup (map Recording.url (recordings w)).
Proof.
  intros w.
  destruct (run_urls ts es mount eq_refl eq_refl) as [H1 H2]. fold w in H1, H2.
  split; [assumption|]. split; [assumption|].
  rewrite H2. apply NoDup_ListNoDup, NoDup_rev, seq_NoDup.
Qed.

(** X5.  The ids of the artifacts, which the history list uses as React
    keys, are pairwise distinct whenever the readings of [Date.now()] at
    the stops are: the readings carried by the events that stop a recorder.
    What the clock shows at any other event does not matter. *)
Theorem X5_ids_distinct_when_clock_readings_differ (ts : bool) (es : list Event) :
  NoDup (stop_clocks ts es mount) ->
  NoDup (map Recording.id (recordings (run ts es mount))).
Proof.
  intros H. apply run_ids; [assumption | constructor | intros z _ []].
Qed.

Lemma X5_ids_distinct_witness :
  NoDup (map Recording.id (recordings (run true stops_apart mount))).
Proof.
  apply (X5_ids_distinct_when_clock_readings_differ true stops_apart).
  apply (bool_decide_unpack _). vm_compute. exact I.
Defined.

(** X6.  The payload of an artifact is what was delivered between the start
    of its session and its stop, whatever the buffer held before and
    whatever else happened in between: ticks, downloads, timeslices of this
    recorder or of any other that records, in any order, as long as no
    suspended start resumed and the session's recorder still records.  The
    payload is the delivered chunks in order followed by the data flushed at
    the stop, and the size is the sum of their sizes, whether the session is
    stopped by the button or by any [stopRecording] that captured
    [isRecording = true], such as the timer's. *)
Theorem X6_payload_is_what_was_delivered
    (ts : bool) (c : StartClosure) (nv na : nat) (w : World)
    (es : list Event) (f : Flush) :
  finalization f = Completes ->
  no_settle es = true ->
  let r := length (recorders w) in
  let w1 := render ts (startRecording c (Started nv na) w) in
  let w2 := run ts es w1 in
  recorder_recording r w2 = true ->
  exists a,
    Recording.blob a = concat (deliveries ts es w1) ++ final_data f /\
    Recording.size a = total_size (deliveries ts es w1 ++ [final_data f]) /\
    recordings (step ts (ClickMain f) w2) = a :: recordings w /\
    (forall c', stop_isRecording c' = true ->
                recordings (stopRecording c' f w2) = a :: recordings w).
Proof.
  intros Hf Hn r w1 w2 Hend.
  destruct (startRecording_started c nv na w)
    as (S1 & _ & S3 & S4 & _ & S6 & _ & _ & _ & _ & S11 & _).
  assert (Hc : stop_isRecording (stopRecordingCb w2) = isRecording w2)
    by apply rendered_stop_fresh.
  destruct (render_frame ts (startRecording c (Started nv na) w))
    as (R1 & _ & R3 & R4 & R5 & R6 & _).
  fold w1 in R1, R3, R4, R5, R6.
  rewrite S1 in R1. rewrite S3 in R3. rewrite S4 in R4. rewrite S6 in R5.
  rewrite S11 in R6.
  rename R1 into W1, R3 into W3, R4 into W4, R5 into W6, R6 into W11.
  fold r in W3.
  assert (Hrec : recorder_recording r w1 = true).
  { unfold recorder_recording. rewrite W4. unfold r. now rewrite lookup_snoc_last. }
  destruct (session_run ts r es w1 Hn W1 W3 Hrec Hend) as (E1 & E2 & E3 & E4).
  fold w2 in E1, E2, E3, E4. rewrite W6 in E3. simpl in E3. rewrite W11 in E4.
  set (ds := deliveries ts es w1) in *.
  clearbody ds w2 w1. clear S1 S3 S4 S6 S11.
  rewrite E1 in Hc.
  assert (Hm : exists m, recorders w2 !! r = Some m /\ mr_state m = RecordingState).
  { unfold recorder_recording in Hend. destruct (recorders w2 !! r) as [m|];
      [|discriminate].
    exists m. split; [reflexivity|]. now destruct (mr_state m). }
  destruct Hm as (m & Hm & Hs).
  assert (Hd : delivered f w2 =
               List.filter (fun d => 0 <? Blob_size d) (ds ++ [final_data f])).
  { unfold delivered. rewrite E3, List.filter_app. reflexivity. }
  exists (artifact (mr_onstop_recordingTime m) f w2).
  split; [|split; [|split]].
  - unfold artifact. simpl. rewrite Hd. unfold new_Blob.
    rewrite concat_nonempty, concat_app. simpl. now rewrite app_nil_r.
  - unfold artifact. simpl. rewrite Hd. unfold new_Blob.
    now rewrite concat_nonempty, Blob_size_concat.
  - unfold step. simpl. unfold click_main. rewrite E1.
    rewrite (stop_fires_recordings _ f w2 r m E2 Hc Hm Hs Hf).
    simpl. congruence.
  - intros c' Hc'.
    rewrite (stop_fires_recordings c' f w2 r m E2 Hc' Hm Hs Hf). congruence.
Qed.

Lemma X6_payload_witness :
  exists a,
    Recording.blob a =
      concat (deliveries true busy_session
                (render true (startRecording (mkStart 0 (mkStop false))
                                             (Started 1 1) mount)))
      ++ final_data quiet /\
    Recording.size a =
      total_size (deliveries true busy_session
                    (render true (startRecording (mkStart 0 (mkStop false))
                                                 (Started 1 1) mount))
                  ++ [final_data quiet]) /\
    recordings (step true (ClickMain quiet)
                  (run true busy_session
                       (render true (startRecording (mkStart 0 (mkStop false))
                                                    (Started 1 1) mount))))
      = a :: recordings mount /\
    (forall c', stop_isRecording c' = true ->
                recordings (stopRecording c' quiet
                  (run true busy_session
                       (render true (startRecording (mkStart 0 (mkStop false))
                                                    (Started 1 1) mount))))
                = a :: recordings mount).
Proof.
  exact (X6_payload_is_what_was_delivered true (mkStart 0 (mkStop false)) 1 1 mount
           busy_session quiet eq_refl eq_refl eq_refl).
Defined.

(** X7.  The tracks of a display stream that was granted before the
    microphone was refused are never stopped: whatever happens afterwards,
    each of them is still in the track table as a video track with no
    [stop()] call. *)
Theorem X7_display_tracks_stay_live_after_refused_microphone
    (ts : bool) (es0 : list Event) (c : StartClosure) (nv : nat)
    (es : list Event) (i : nat) :
  let w := run ts es0 mount in
  let w1 := render ts (startRecording c (AudioRejected nv) w) in
  (length (tracks w) <= i < length (tracks w) + nv)%nat ->
  tracks (run ts es w1) !! i = Some (mkTrack VideoTrack 0).
Proof.
  intros w w1 Hi.
  assert (T1 : tracks w1 = tracks w ++ replicate nv (mkTrack VideoTrack 0))
    by reflexivity.
  assert (S1 : streamRef w1 = streamRef w) by reflexivity.
  rewrite beyond_stream_run.
  - rewrite T1, lookup_app_r by lia. apply lookup_replicate_2. lia.
  - split.
    + rewrite T1, length_app, length_replicate. lia.
    + rewrite S1. intros s Hs Hin.
      pose proof (stream_in_table_run ts es0 s i Hs Hin) as Hlt. fold w in Hlt. lia.
Qed.

Lemma X7_display_tracks_witness :
  tracks (run true two_sessions
            (render true (startRecording (mkStart 0 (mkStop false)) (AudioRejected 1)
                                         (run true [] mount))))
    !! 0%nat = Some (mkTrack VideoTrack 0).
Proof.
  refine (X7_display_tracks_stay_live_after_refused_microphone
            true [] (mkStart 0 (mkStop false)) 1 two_sessions 0 _).
  simpl. lia.
Defined.

(** X8.  A recorder that records while [mediaRecorderRef] names another, and
    an interval that runs while [timerRef] names another, can no longer be
    reached: no event ever stops that recorder or clears that interval.
    Two clicks on Start before the first acquisition settles produce such a
    pair. *)
Theorem X8_an_overwritten_session_is_never_stopped
    (ts : bool) (r t : nat) (w : World) (es : list Event) :
  orphan_recorder r w -> orphan_interval t w ->
  recorder_recording r (run ts es w) = true /\ live t (run ts es w) = true.
Proof.
  revert w. induction es as [|e es IH]; intros w Hr Ht.
  - split; [apply Hr | apply Ht].
  - destruct (orphans_handle e r t w Hr Ht) as [Hr' Ht'].
    exact (IH (step ts e w) Hr' Ht').
Qed.

Lemma X8_overwritten_session_witness :
  recorder_recording 0 (run true (session 1 200) (run true double_start mount)) = true /\
  live 0 (run true (session 1 200) (run true double_start mount)) = true.
Proof.
  apply (X8_an_overwritten_session_is_never_stopped true 0 0
           (run true double_start mount) (session 1 200)).
  - split; [reflexivity | discriminate].
  - split; [reflexivity | discriminate].
Defined.

(** X9.  The two cards show every artifact exactly once: the Latest
    Recording card shows the newest, the Recording History card lists the
    others in order, and has no row until there is a second artifact. *)
Theorem X9_cards_show_each_artifact_once (ts : bool) (es : list Event) :
  let w := run ts es mount in
  latest_card w ++ history_rows w = recordings w /\
  latest_card w = take 1 (recordings w) /\
  length (history_rows w) = (length (recordings w) - 1)%nat.
Proof.
  intros w.
  pose proof (run_current ts es mount eq_refl) as H. fold w in H.
  unfold latest_card, history_rows. rewrite H.
  destruct (recordings w) as [|a [|b l]]; simpl; repeat split;
    rewrite ?Nat.sub_0_r; reflexivity.
Qed.

(** X10.  Each artifact has its own Download control, and pressing it saves
    under that artifact's file name: the control of the Latest Recording
    card for the newest artifact, the control of row [j] of the history for
    artifact [j + 1]. *)
Theorem X10_each_download_control_saves_its_artifact
    (ts : bool) (es : list Event) (i : nat) (a : Recording.t) :
  let w := run ts es mount in
  recordings w !! i = Some a ->
  let press := match i with O => DownloadCurrent | S j => DownloadHistory j end in
  saved (step ts press w) = saved w ++ [download_filename a] /\
  recordings (step ts press w) = recordings w.
Proof.
  intros w Ha press.
  pose proof (run_current ts es mount eq_refl) as H. fold w in H.
  unfold press, step. destruct i as [|j]; simpl.
  - unfold download_current. rewrite H.
    destruct (recordings w) as [|b l] eqn:Er; [discriminate|].
    simpl in Ha. injection Ha as ->. simpl. split; [reflexivity | exact Er].
  - unfold download_history.
    destruct (recordings w) as [|b [|b' l]] eqn:Er; try discriminate.
    simpl in Ha. simpl. rewrite Ha. simpl. split; [reflexivity | exact Er].
Qed.

Lemma X10_download_control_witness :
  saved (step true (DownloadHistory 0) (run true two_stops mount)) =
  [download_filename (Recording.mk "2" [] 0 0 2 0)].
Proof.
  exact (proj1 (X10_each_download_control_saves_its_artifact
                  true two_stops 1 (Recording.mk "2" [] 0 0 2 0) eq_refl)).
Defined.

(** X11.  However stale the timer's closure may be, the Stop button works:
    when no click was made during a pending start and the component is
    recording, a click on the main button leaves it not recording, with no
    recorder recording, no interval running, [timerRef] empty and the button
    back to Start, and it adds one artifact when the construction
    completes. *)
Theorem X11_the_stop_button_always_stops
    (ts : bool) (es : list Event) (f : Flush) :
  paced ts es mount = true ->
  let w := run ts es mount in
  isRecording w = true ->
  let w' := step ts (ClickMain f) w in
  isRecording w' = false /\
  main_button w' = StartButton /\
  timerRef w' = None /\
  (forall r, recorder_recording r w' = false) /\
  (forall t, live t w' = false) /\
  (finalization f = Completes ->
   length (recordings w') = S (length (recordings w))).
Proof.
  intros Hp w Hi w'.
  pose proof (Orderly_run ts es mount Orderly_mount Hp) as Ho. fold w in Ho.
  destruct (or_active w Ho Hi) as (r & m & Hr & Hm & Hs & _).
  assert (Hc : stop_isRecording (stopRecordingCb w) = true).
  { unfold w. now rewrite run_stop_fresh. }
  assert (Ew : w' = render ts (stopRecording (stopRecordingCb w) f w)).
  { unfold w', step. simpl. unfold click_main. now rewrite Hi. }
  destruct (stopRecording_effective (stopRecordingCb w) f w r Hr Hc) as (E1 & E2 & _).
  assert (Ho' : Orderly w').
  { rewrite Ew. now apply Orderly_render, Orderly_stopRecording. }
  assert (Hi' : isRecording w' = false) by (rewrite Ew; exact E1).
  split; [assumption|]. split; [unfold main_button; now rewrite Hi'|].
  split; [rewrite Ew; exact E2|]. split; [|split].
  - intros r0. destruct (recorder_recording r0 w') eqn:E; [|reflexivity].
    destruct (or_recorders w' Ho' r0 E). congruence.
  - intros t. destruct (live t w') eqn:E; [|reflexivity].
    destruct (or_intervals w' Ho' t E). congruence.
  - intros Hf. rewrite Ew.
    change (recordings (render ts ?x)) with (recordings x).
    now rewrite (stop_fires_recordings _ f w r m Hr Hc Hm Hs Hf).
Qed.

Lemma X11_stop_button_witness :
  isRecording (step true (ClickMain quiet)
                 (run true (start_ok ++ replicate 200 (Tick 0 quiet)) mount)) = false.
Proof.
  exact (proj1 (X11_the_stop_button_always_stops
                  true (start_ok ++ replicate 200 (Tick 0 quiet)) quiet
                  eq_refl eq_refl)).
Defined.

(** X12.  The history never holds more artifacts than sessions were
    stopped, whatever the finalizations do; and a recorder that has been
    stopped is never set recording again. *)
Theorem X12_no_artifact_without_a_stopped_session
    (ts : bool) (es es' : list Event) (r : nat) :
  let w := run ts es mount in
  (length (recordings w) <= stopped_sessions w)%nat /\
  ((r < length (recorders w))%nat -> recorder_recording r w = false ->
   recorder_recording r (run ts es' w) = false).
Proof.
  intros w. split.
  - unfold w.
    assert (G : forall es w0, (length (recordings w0) <= stopped_sessions w0)%nat ->
                (length (recordings (run ts es w0)) <= stopped_sessions (run ts es w0))%nat).
    { intros es0. induction es0 as [|e es0 IH]; intros w0 H; [exact H|].
      apply (IH (step ts e w0)). exact (handle_count_le e w0 H). }
    apply G. simpl. lia.
  - assert (G : forall es0 w0, (r < length (recorders w0))%nat ->
                recorder_recording r w0 = false ->
                recorder_recording r (run ts es0 w0) = false).
    { intros es0. induction es0 as [|e es0 IH]; intros w0 Hl Hr; [exact Hr|].
      destruct (inactive_stays e r w0 Hl Hr) as [Hl' Hr'].
      exact (IH (step ts e w0) Hl' Hr'). }
    apply G.
Qed.

Lemma X12_stopped_recorder_witness :
  recorder_recording 0 (run true (session 1 10) (run true (session 0 5) mount)) = false.
Proof.
  exact (proj2 (X12_no_artifact_without_a_stopped_session true (session 0 5)
                  (session 1 10) 0) ltac:(simpl; lia) eq_refl).
Defined.

(** X13.  The download name has the resolution of one second: two artifacts
    whose timestamps fall within the same second (of a four-digit year) are
    saved under the same file name. *)
Theorem X13_same_second_same_file_name (a b : Recording.t) :
  0 <= YearFromTime (Recording.timestamp a) <= 9999 ->
  Recording.timestamp a / 1000 = Recording.timestamp b / 1000 ->
  download_filename a = download_filename b.
Proof.
  intros Hy E. unfold download_filename.
  assert (Hy' : 0 <= YearFromTime (Recording.timestamp b) <= 9999).
  { destruct (split_second (Recording.timestamp a)) as [Ea Ha].
    destruct (split_second (Recording.timestamp b)) as [Eb Hb].
    rewrite Ea, YearFromTime_of_second in Hy by assumption.
    rewrite Eb, YearFromTime_of_second by assumption. now rewrite <- E. }
  rewrite !filename_of_second by assumption. now rewrite E.
Qed.

Lemma X13_same_second_witness :
  download_filename (Recording.mk "1" [] 0 0 1735787045001 0) =
  download_filename (Recording.mk "2" [] 1 0 1735787045999 0).
Proof.
  apply X13_same_second_same_file_name.
  - vm_compute. split; discriminate.
  - reflexivity.
Defined.

(** X14.  Every duration in the history lies between 0 and 180 seconds, and
    so does what any [startRecording] closure or [onstop] handler holds for
    it. *)
Theorem X14_durations_stay_within_the_cap (ts : bool) (es : list Event) :
  let w := run ts es mount in
  Forall (fun a => 0 <= Recording.duration a <= 180) (recordings w) /\
  Forall (fun m => 0 <= mr_onstop_recordingTime m <= 180) (recorders w) /\
  0 <= start_recordingTime (startRecordingCb w) <= 180.
Proof.
  intros w.
  pose proof (TimeInv_run ts es mount TimeInv_mount) as [_ H2 _ H4 H5].
  fold w in H2, H4, H5. auto.
Qed.

(** X15.  The chunk buffer never holds an empty chunk: [ondataavailable]
    drops every chunk of size 0, for timeslices and for the final flush
    alike. *)
Theorem X15_no_empty_chunk_is_buffered (ts : bool) (es : list Event) :
  Forall (fun c => 0 < Blob_size c) (chunksRef (run ts es mount)).
Proof.
  assert (G : forall es0 w0, Forall (fun c => 0 < Blob_size c) (chunksRef w0) ->
              Forall (fun c => 0 < Blob_size c) (chunksRef (run ts es0 w0))).
  { intros es0. induction es0 as [|e es0 IH]; intros w0 H; [exact H|].
    apply (IH (step ts e w0)). exact (nonempty_chunks_handle e w0 H). }
  apply G. constructor.
Qed.

(** X16.  The toasts keep count: one "Recording started" per recorder
    created, one "Download started" per file saved, and, when no click was
    made during a pending start, one "Recording stopped" per session
    stopped. *)
Theorem X16_toasts_account_for_what_happened (ts : bool) (es : list Event) :
  let w := run ts es mount in
  length (toasts_titled "Recording started" w) = length (recorders w) /\
  length (toasts_titled "Download started" w) = length (saved w) /\
  (paced ts es mount = true ->
   length (toasts_titled "Recording stopped" w) = stopped_sessions w).
Proof.
  intros w.
  assert (A : announced w).
  { unfold w.
    assert (G : forall es0 w0, announced w0 -> announced (run ts es0 w0)).
    { intros es0. induction es0 as [|e es0 IH]; intros w0 H; [exact H|].
      apply (IH (step ts e w0)). exact (announced_handle e w0 H). }
    apply G. split; reflexivity. }
  destruct A as [A1 A2]. split; [assumption|]. split; [assumption|].
  unfold w.
  assert (G : forall es0 w0, Orderly w0 -> stops_announced w0 ->
              paced ts es0 w0 = true -> stops_announced (run ts es0 w0)).
  { intros es0. induction es0 as [|e es0 IH]; intros w0 Ho H Hp; [exact H|].
    simpl in Hp.
    assert (Hp' : paced ts es0 (step ts e w0) = true /\
                  match e, suspended w0 with
                  | ClickMain _, _ :: _ => False
                  | _, _ => True
                  end).
    { destruct e; try (split; [assumption | exact I]);
        destruct (suspended w0); (split; [assumption | exact I]) || discriminate. }
    destruct Hp' as [Hp1 Hp2].
    apply (IH (step ts e w0)); [| |assumption].
    - now apply Orderly_render, Orderly_handle.
    - exact (stops_announced_handle e w0 Ho H). }
  intros Hp. apply G; [apply Orderly_mount | reflexivity | assumption].
Qed.

Lemma X16_toasts_witness :
  length (toasts_titled "Recording stopped" (run true two_sessions mount)) = 2%nat.
Proof.
  exact (proj2 (proj2 (X16_toasts_account_for_what_happened true two_sessions)) eq_refl).
Defined.



(** X18.  With a stable [toast], the cap does hold in the session that
    follows a first session of at least one tick stopped by the button: its
    timer captured [isRecording = true], so it records for 179 ticks and is
    stopped by the 180th.  Its [onstop] handler holds the first session's
    final counter, which is what its artifact gets as duration. *)
Theorem X18_the_session_after_a_ticked_one_is_capped
    (f0 f f1 f2 : Flush) (nv na nv' na' : nat) (fs gs : list Flush) :
  let w := run true (ClickMain f0 :: Settle (Started nv na) ::
                     map (Tick 0) (f :: fs) ++
                     [ClickMain f1; ClickMain f2; Settle (Started nv' na')]) mount in
  Ticking true 1 1 w /\
  recordingTime w = 0 /\
  (exists s, recorders w !! 1%nat =
             Some (mkRecorder RecordingState s
                              (Z.min (Z.of_nat (length (f :: fs))) 180))) /\
  isRecording (run true (map (Tick 1) gs) w) = negb (180 <=? Z.of_nat (length gs)).
Proof.
  intros w.
  set (w0 := run true [ClickMain f0; Settle (Started nv na)] mount).
  set (w1 := run true (map (Tick 0) (f :: fs)) w0).
  assert (Ew : w = run true [ClickMain f1; ClickMain f2; Settle (Started nv' na')] w1).
  { unfold w, w1, w0.
    change (ClickMain f0 :: Settle (Started nv na) :: map (Tick 0) (f :: fs) ++
            [ClickMain f1; ClickMain f2; Settle (Started nv' na')])
      with ([ClickMain f0; Settle (Started nv na)] ++ map (Tick 0) (f :: fs) ++
            [ClickMain f1; ClickMain f2; Settle (Started nv' na')]).
    now rewrite !run_app. }
  destruct (first_start_shape f0 nv na) as (A1 & A2 & A3 & A4 & A5 & A6 & A7).
  fold w0 in A1, A2, A3, A4, A5, A6, A7.
  destruct (FirstTicked_tick f w0 A1 A4 A5 A6 A7 ltac:(lia) (or_intror (conj A2 A3)))
    as [B1 B2].
  destruct (FirstTicked_ticks fs _ B1 ltac:(lia)) as [C1 C2].
  assert (E1 : w1 = run true (map (Tick 0) fs) (step true (Tick 0 f) w0)).
  { unfold w1. rewrite map_cons. apply run_cons. }
  rewrite <- E1 in C1, C2.
  assert (T1 : recordingTime w1 = Z.min (Z.of_nat (length (f :: fs))) 180).
  { rewrite C2, B2, A3. simpl length. lia. }
  destruct (second_session_start f1 f2 nv' na' w1 C1) as (D1 & D2 & s & D3).
  rewrite <- Ew in D1, D2, D3.
  split; [assumption|]. split; [assumption|]. split; [exists s; now rewrite <- T1|].
  pose proof (Ticking_true_ticks true 1 1 gs w D1 ltac:(lia)) as T.
  rewrite D2, Z.add_0_l in T.
  destruct (180 <=? Z.of_nat (length gs)); simpl.
  - apply (cp_isRecording _ _ _ T).
  - apply (tk_isRecording _ _ _ _ T).
Qed.
